(** * AI-Chat-Assistant: caches, write-behind persistence, routing and streaming

    A shallow embedding of the orchestration core of the chat assistant:
    - [app/cache.py]           : [EmbeddingCache] and [UserStatsCache];
    - [app/persistence.py]     : [ChatPersistence] (write buffer, flush, sweep);
    - [app/langgraph_graph.py] : [supervisor_node] and the streaming handler;
    - [app/main.py]            : [sse_streamer] and the cancellation registry.

    Python dictionaries keep insertion order, and two pieces of the code depend
    on it (the eviction in [EmbeddingCache.set] and the iteration of the sweep),
    so they are modelled by the association lists of [PyDict].  The registry of
    in-flight streams is only ever looked up by key and is a [gmap].

    A Python string is modelled by a [string] with one [ascii] per character.
    Wall-clock readings ([time.time()], [time.monotonic()]) are inputs of the
    operations that take them, as integers of an arbitrary clock unit: the code
    only adds, subtracts and compares them.  Calls into external services (the
    embedding model, the Milvus client, the language model, the graph) are
    inputs too: an operation receives the outcome of each call it makes, and
    an outcome can be an exception.  The operations of one object run one
    after the other; the graph exists when a turn starts ([startup] creates
    it), and a turn is followed for as long as the graph's event stream
    lasts, which is taken to be finite. *)

From Stdlib Require Import ZArith String Ascii List Bool Lia Sorted Permutation.
From stdpp Require Import gmap strings list.

Local Open Scope string_scope.
Local Open Scope Z_scope.
Local Open Scope list_scope.

(** * Definitions *)

(** ** Python dictionaries with string keys, in insertion order *)

Module PyDict.

(** The entries in insertion order.  The operations never create a second
    entry for a key; [pop] removes every entry of its key, so that what is
    proved about it needs no assumption on the list. *)
Definition t (V : Type) : Type := list (string * V).

Section Ops.
Context {V : Type}.

(** [d.get(k)] *)
Fixpoint get (k : string) (d : t V) : option V :=
  match d with
  | [] => None
  | (k', v) :: d' => if String.eqb k k' then Some v else get k d'
  end.

(** [k in d] *)
Definition contains (k : string) (d : t V) : bool :=
  match get k d with Some _ => true | None => false end.

(** [d[k] = v]: an existing key keeps its position, a new key goes last. *)
Fixpoint set (k : string) (v : V) (d : t V) : t V :=
  match d with
  | [] => [(k, v)]
  | (k', v') :: d' =>
      if String.eqb k k' then (k, v) :: d' else (k', v') :: set k v d'
  end.

(** [d.pop(k, None)], and [del d[k]] when [k] is known to be present. *)
Fixpoint pop (k : string) (d : t V) : t V :=
  match d with
  | [] => []
  | (k', v') :: d' =>
      if String.eqb k k' then pop k d' else (k', v') :: pop k d'
  end.

(** [next(iter(d))]: the oldest key; [None] stands for [StopIteration]. *)
Definition first_key (d : t V) : option string :=
  match d with
  | [] => None
  | (k, _) :: _ => Some k
  end.

(** [len(d)] *)
Definition len (d : t V) : nat := length d.

(** [list(d.keys())] *)
Definition keys (d : t V) : list string := map fst d.

End Ops.
End PyDict.

(** ** [app/cache.py]: EmbeddingCache *)

Module EmbeddingCache.
Section Defs.

(** [hashlib.md5(text.encode('utf-8')).hexdigest()], a library function. *)
Variable md5_hexdigest : string -> string.
(** The vectors are [List[float]]; the cache never looks inside them. *)
Context {Embedding : Type}.

Record t : Type := mk {
  max_size : Z;
  _cache : PyDict.t Embedding;
  _hits : nat;
  _misses : nat
}.

(** [__init__] *)
Definition init (max_size : Z) : t :=
  {| max_size := max_size; _cache := []; _hits := 0; _misses := 0 |}.

Definition _hash_text (text : string) : string := md5_hexdigest text.

(** [get]: the result and the cache with its counters updated. *)
Definition get (text : string) (c : t) : option Embedding * t :=
  let key := _hash_text text in
  match PyDict.get key (_cache c) with
  | Some e =>
      (Some e, {| max_size := max_size c; _cache := _cache c;
                  _hits := S (_hits c); _misses := _misses c |})
  | None =>
      (None, {| max_size := max_size c; _cache := _cache c;
                _hits := _hits c; _misses := S (_misses c) |})
  end.

(** [set]: [None] when [next(iter(self._cache))] raises [StopIteration],
    which happens on an empty cache whose [max_size] is not positive. *)
Definition set (text : string) (embedding : Embedding) (c : t) : option t :=
  let key := _hash_text text in
  if Z.of_nat (PyDict.len (_cache c)) >=? max_size c then
    match PyDict.first_key (_cache c) with
    | None => None
    | Some oldest =>
        Some {| max_size := max_size c;
                _cache := PyDict.set key embedding (PyDict.pop oldest (_cache c));
                _hits := _hits c; _misses := _misses c |}
    end
  else
    Some {| max_size := max_size c;
            _cache := PyDict.set key embedding (_cache c);
            _hits := _hits c; _misses := _misses c |}.

(** A client of the cache: a sequence of [get] and [set] calls.  A [set] that
    raises leaves the cache as it was. *)
Inductive op : Type :=
| OpGet (text : string)
| OpSet (text : string) (embedding : Embedding).

Definition apply (o : op) (c : t) : t :=
  match o with
  | OpGet text => snd (get text c)
  | OpSet text e => match set text e c with Some c' => c' | None => c end
  end.

Definition run (ops : list op) (c : t) : t :=
  fold_left (fun c o => apply o c) ops c.

(** [get_stats()]: the counters, the number of entries and the capacity.
    The fifth entry, [hit_rate], is the ratio of the first two formatted as a
    float and is not modelled. *)
Record Stats : Type := mkStats {
  hits : nat;
  misses : nat;
  size : nat;
  stats_max_size : Z
}.

Definition get_stats (c : t) : Stats :=
  {| hits := _hits c; misses := _misses c;
     size := PyDict.len (_cache c); stats_max_size := max_size c |}.

(** How many of the calls are calls of [get]. *)
Definition gets_in (ops : list op) : nat :=
  length (List.filter (fun o => match o with OpGet _ => true | OpSet _ _ => false end) ops).

(** The dictionary entry a text and its vector are stored as. *)
Definition entry (tv : string * Embedding) : string * Embedding :=
  (_hash_text (fst tv), snd tv).

(** One [set] per text, in order. *)
Definition store_all (entries : list (string * Embedding)) : list op :=
  map (fun tv => OpSet (fst tv) (snd tv)) entries.

End Defs.
End EmbeddingCache.

(** ** [app/cache.py]: UserStatsCache over [cachetools.TTLCache] *)

Module TTLCache.
Section Defs.
Context {V : Type}.

(** Modelled from the spec: [cachetools.TTLCache], the class behind
    [UserStatsCache], is a dependency that is not under [src/].  In the
    spec's words the stats cache has a capacity that is a hard limit, and an
    entry "self-expires after a fixed time window regardless of access": set
    at time [t] with time-to-live [d], it is returned by every [get] before
    [t + d] and by none from [t + d] on.  The spec does not say which entry
    goes when the cache is full; there the model does what cachetools does
    (expired entries first, then the least recently used one).  [links] maps
    a key to its value and expiry time, least recently used key first. *)
Record t : Type := mk {
  maxsize : Z;
  ttl : Z;
  links : PyDict.t (V * Z)
}.

(** Modelled from the spec: [TTLCache(maxsize, ttl)], an empty cache. *)
Definition init (maxsize ttl : Z) : t :=
  {| maxsize := maxsize; ttl := ttl; links := [] |}.

(** Modelled from the spec: the entries that have not expired at [time]. *)
Definition expire (time : Z) (d : PyDict.t (V * Z)) : PyDict.t (V * Z) :=
  List.filter (fun kv => time <? snd (snd kv)) d.

(** Modelled from the spec: the capacity is a hard limit, so least recently
    used entries are dropped until one more entry fits. *)
Fixpoint make_room (maxsize : Z) (d : PyDict.t (V * Z)) : PyDict.t (V * Z) :=
  match d with
  | [] => []
  | _ :: d' =>
      if Z.of_nat (length d) + 1 >? maxsize then make_room maxsize d' else d
  end.

(** Modelled from the spec: [cache.get(key)] at timer reading [time].  An
    entry that has not expired is returned, and becomes the most recently
    used one; its expiry time does not change. *)
Definition get (key : string) (time : Z) (c : t) : option V * t :=
  match PyDict.get key (links c) with
  | Some (v, expires) =>
      if time <? expires then
        (Some v, {| maxsize := maxsize c; ttl := ttl c;
                    links := PyDict.pop key (links c) ++ [(key, (v, expires))] |})
      else (None, c)
  | None => (None, c)
  end.

(** Modelled from the spec: [cache[key] = value] at timer reading [time];
    the entry expires at [time + ttl].  [None] stands for the [ValueError] of
    a cache that cannot hold a single entry. *)
Definition setitem (key : string) (value : V) (time : Z) (c : t) : option t :=
  if 1 >? maxsize c then None
  else
    let live := expire time (links c) in
    let kept :=
      if PyDict.contains key live then PyDict.pop key live
      else make_room (maxsize c) live in
    Some {| maxsize := maxsize c; ttl := ttl c;
            links := kept ++ [(key, (value, time + ttl c))] |}.

(** Modelled from the spec: [cache.pop(key, None)] at timer reading [time]. *)
Definition pop (key : string) (time : Z) (c : t) : t :=
  match PyDict.get key (links c) with
  | Some (_, expires) =>
      if time <? expires then
        {| maxsize := maxsize c; ttl := ttl c; links := PyDict.pop key (links c) |}
      else c
  | None => c
  end.

End Defs.
End TTLCache.

Module UserStatsCache.
Section Defs.
(** The cached statistics are dictionaries the cache never looks inside. *)
Context {Stats : Type}.

Definition t : Type := @TTLCache.t Stats.

(** [__init__(ttl_seconds, max_size)] *)
Definition init (ttl_seconds max_size : Z) : t := TTLCache.init max_size ttl_seconds.

(** [get(user_name)], with the reading of the cache's timer. *)
Definition get (user_name : string) (time : Z) (c : t) : option Stats * t :=
  TTLCache.get user_name time c.

(** [set(user_name, stats)] *)
Definition set (user_name : string) (stats : Stats) (time : Z) (c : t) : option t :=
  TTLCache.setitem user_name stats time c.

(** [invalidate(user_name)] *)
Definition invalidate (user_name : string) (time : Z) (c : t) : t :=
  TTLCache.pop user_name time c.

(** Any number of reads, each of some user at some time. *)
Definition reads (rs : list (string * Z)) (c : t) : t :=
  fold_left (fun c r => snd (get (fst r) (snd r) c)) rs c.

End Defs.
End UserStatsCache.

(** ** Python string helpers *)

Module PyStr.

(** [s[:n]] *)
Fixpoint slice_to (n : nat) (s : string) : string :=
  match n, s with
  | O, _ => EmptyString
  | S _, EmptyString => EmptyString
  | S n', String c s' => String c (slice_to n' s')
  end.

(** [stored] holds the first [bound] characters of [original], all of them
    when [original] is not longer than that. *)
Definition is_cut (bound : nat) (original stored : string) : Prop :=
  String.length stored = Nat.min bound (String.length original)
  /\ String.prefix stored original = true.

(** [needle in hay] *)
Fixpoint contains (needle hay : string) : bool :=
  String.prefix needle hay ||
  match hay with
  | EmptyString => false
  | String _ hay' => contains needle hay'
  end.

(** [c.isspace()] for the characters below 256: tab to carriage return,
    the four separators, the blank, next line (U+0085) and the no-break
    space (U+00A0). *)
Definition isspace (c : ascii) : bool :=
  let n := nat_of_ascii c in
  ((9 <=? n) && (n <=? 13) || (28 <=? n) && (n <=? 32)
   || (n =? 133) || (n =? 160))%nat.

Fixpoint lstrip (s : string) : string :=
  match s with
  | EmptyString => EmptyString
  | String c s' => if isspace c then lstrip s' else s
  end.

Fixpoint rstrip (s : string) : string :=
  match s with
  | EmptyString => EmptyString
  | String c s' =>
      match rstrip s' with
      | EmptyString => if isspace c then EmptyString else String c EmptyString
      | r => String c r
      end
  end.

(** [s.strip()]: white space is taken off both ends. *)
Definition strip (s : string) : string := rstrip (lstrip s).

(** No character of [s] is white space. *)
Fixpoint no_space (s : string) : bool :=
  match s with
  | EmptyString => true
  | String c s' => negb (isspace c) && no_space s'
  end.

End PyStr.

(** ** [app/persistence.py]: ChatPersistence *)

Module ChatPersistence.
Section Defs.

Variable md5_hexdigest : string -> string.
Context {Embedding : Type}.
(** [Config.BUFFER_TTL]; [app/config.py] is not part of the sources. *)
Variable BUFFER_TTL : Z.

(** A [data_row], and a row of the Milvus collection. *)
Record Row : Type := mkRow {
  user_name : string;
  user_id : string;
  session_id : string;
  timestamp : string;
  user_message : string;
  bot_response : string;
  embedding : Embedding;
  intent : string
}.

(** The object state.  [client] is [None] when [self.client] is [None], and
    otherwise holds the rows of the collection behind the Milvus client. *)
Record t : Type := mk {
  client : option (list Row);
  collection_loaded : bool;
  write_buffer : PyDict.t (list Row);
  buffer_timestamps : PyDict.t Z;
  embedding_cache : @EmbeddingCache.t Embedding
}.

Definition BATCH_SIZE : nat := 5.

Definition with_cache (c : @EmbeddingCache.t Embedding) (p : t) : t :=
  {| client := client p; collection_loaded := collection_loaded p;
     write_buffer := write_buffer p; buffer_timestamps := buffer_timestamps p;
     embedding_cache := c |}.

Definition with_buffers (wb : PyDict.t (list Row)) (ts : PyDict.t Z) (p : t) : t :=
  {| client := client p; collection_loaded := collection_loaded p;
     write_buffer := wb; buffer_timestamps := ts;
     embedding_cache := embedding_cache p |}.

(** What the Milvus client does during one [flush_session]. *)
Record FlushIO : Type := mkFlushIO {
  load_collection_raises : bool;
  insert_raises : bool
}.

(** What the outside world does during one [store_conversation]:
    [encode] is [None] when the embedding model raises. *)
Record StoreIO : Type := mkStoreIO {
  encode : option Embedding;
  now_isoformat : string;
  time_time : Z;
  flush_io : FlushIO
}.

(** [flush_session(session_id)]: the returned flag and the new state. *)
Definition flush_session (io : FlushIO) (session_id : string) (p : t) : bool * t :=
  match client p with
  | None => (false, p)
  | Some rows =>
      match PyDict.get session_id (write_buffer p) with
      | None => (true, p)
      | Some [] => (true, p)
      | Some data_to_insert =>
          if negb (collection_loaded p) && load_collection_raises io then (false, p)
          else
            if insert_raises io then
              (false,
               {| client := client p; collection_loaded := true;
                  write_buffer := write_buffer p;
                  buffer_timestamps := buffer_timestamps p;
                  embedding_cache := embedding_cache p |})
            else
              (true,
               {| client := Some (rows ++ data_to_insert);
                  collection_loaded := true;
                  write_buffer := PyDict.pop session_id (write_buffer p);
                  buffer_timestamps := PyDict.pop session_id (buffer_timestamps p);
                  embedding_cache := embedding_cache p |})
      end
  end.

(** Step 1 of [store_conversation]: the embedding of the combined text, from
    the cache or from the model; [None] when the model or the cache raises. *)
Definition cached_embedding (io : StoreIO) (combined_text : string)
    (c : @EmbeddingCache.t Embedding)
  : @EmbeddingCache.t Embedding * option (Embedding * @EmbeddingCache.t Embedding) :=
  let '(hit, c1) := EmbeddingCache.get md5_hexdigest combined_text c in
  match hit with
  | Some e => (c1, Some (e, c1))
  | None =>
      match encode io with
      | None => (c1, None)
      | Some e =>
          match EmbeddingCache.set md5_hexdigest combined_text e c1 with
          | None => (c1, None)
          | Some c2 => (c1, Some (e, c2))
          end
      end
  end.

(** The [data_row] of a turn. *)
Definition data_row (io : StoreIO) (e : Embedding)
    (user_name user_id session_id user_message bot_response intent : string) : Row :=
  {| user_name := PyStr.slice_to 255 user_name;
     user_id := PyStr.slice_to 255 user_id;
     session_id := PyStr.slice_to 255 session_id;
     timestamp := now_isoformat io;
     user_message := PyStr.slice_to 2000 user_message;
     bot_response := PyStr.slice_to 2000 bot_response;
     embedding := e;
     intent := PyStr.slice_to 100 intent |}.

(** Length of the list buffered for a session ([0] when there is none). *)
Definition buffered (session_id : string) (p : t) : nat :=
  length (default [] (PyDict.get session_id (write_buffer p))).

(** Steps 2 and 3 of [store_conversation]: create the list of the session
    and its timestamp if the session has none, then append the row. *)
Definition buffer_row (io : StoreIO) (session_id : string) (row : Row) (p : t) : t :=
  let fresh := negb (PyDict.contains session_id (write_buffer p)) in
  let wb0 :=
    if fresh then PyDict.set session_id [] (write_buffer p)
    else write_buffer p in
  let ts :=
    if fresh then PyDict.set session_id (time_time io) (buffer_timestamps p)
    else buffer_timestamps p in
  let buffer := default [] (PyDict.get session_id wb0) ++ [row] in
  with_buffers (PyDict.set session_id buffer wb0) ts p.

(** [store_conversation(...)]: the returned flag and the new state. *)
Definition store_conversation (io : StoreIO)
    (user_name user_id session_id user_message bot_response intent : string)
    (p : t) : bool * t :=
  match client p with
  | None => (false, p)
  | Some _ =>
      let combined_text := String.append user_message (String.append " " bot_response) in
      match cached_embedding io combined_text (embedding_cache p) with
      | (c1, None) => (false, with_cache c1 p)
      | (_, Some (e, c2)) =>
          let row := data_row io e user_name user_id session_id
                       user_message bot_response intent in
          let p1 := buffer_row io session_id row (with_cache c2 p) in
          let current_buffer_size := buffered session_id p1 in
          if (BATCH_SIZE <=? current_buffer_size)%nat
          then flush_session (flush_io io) session_id p1
          else (true, p1)
      end
  end.

(** The bounds of the collection's schema on the text fields of a row. *)
Definition within_schema (r : Row) : bool :=
  ((String.length (user_message r) <=? 2000)
   && (String.length (bot_response r) <=? 2000)
   && (String.length (user_name r) <=? 255)
   && (String.length (user_id r) <=? 255)
   && (String.length (session_id r) <=? 255)
   && (String.length (intent r) <=? 100))%nat.

(** The write of a flush goes through: the collection is loaded or loads,
    and the insert does not raise. *)
Definition write_succeeds (io : FlushIO) (p : t) : bool :=
  (collection_loaded p || negb (load_collection_raises io))
  && negb (insert_raises io).

(** The two buffer dictionaries agree: a session has a timestamp exactly
    when it has a list, and no list is empty. *)
Definition buffers_agree (p : t) : Prop :=
  forall session_id,
    (PyDict.get session_id (buffer_timestamps p) = None <->
     PyDict.get session_id (write_buffer p) = None) /\
    PyDict.get session_id (write_buffer p) <> Some [].

(** The sessions the sweep finds older than the TTL, in dictionary order. *)
Definition stale_sessions (current_time : Z) (p : t) : list string :=
  map fst (List.filter (fun kv => current_time - snd kv >? BUFFER_TTL)
             (buffer_timestamps p)).

(** The body of the sweep's second loop for one session. *)
Definition cleanup_session (io : FlushIO) (session_id : string) (p : t) : t :=
  let '(success, p1) := flush_session io session_id p in
  if success then p1
  else with_buffers (PyDict.pop session_id (write_buffer p1))
                    (PyDict.pop session_id (buffer_timestamps p1)) p1.

(** [cleanup_stale_buffers()], run at [current_time]; [io] tells what the
    client does during the flush of each session. *)
Definition cleanup_stale_buffers (io : string -> FlushIO) (current_time : Z) (p : t) : t :=
  match buffer_timestamps p with
  | [] => p
  | _ =>
      fold_left (fun p session_id => cleanup_session (io session_id) session_id p)
        (stale_sessions current_time p) p
  end.

(** The state [__init__] leaves; [client] is [None] when Milvus could not be
    reached. *)
Definition init (client : option (list Row)) (loaded : bool) (cache_size : Z) : t :=
  {| client := client; collection_loaded := loaded;
     write_buffer := []; buffer_timestamps := [];
     embedding_cache := EmbeddingCache.init cache_size |}.

(** A row as [client.query] returns it: a dictionary with the output fields
    that were asked for, any of which may be missing. *)
Record QueryRow : Type := mkQueryRow {
  q_user_name : option string;
  q_timestamp : option string;
  q_user_message : option string;
  q_bot_response : option string;
  q_intent : option string
}.

(** What [client.query] does: it returns rows or raises. *)
Inductive QueryOutcome : Type :=
| QueryReturned (results : list QueryRow)
| QueryRaised.

(** [x.get('timestamp', '')], the sort key of [get_user_history]. *)
Definition timestamp_key (x : QueryRow) : string := default "" (q_timestamp x).

(** [sorted(results, key=...)]: Python's sort is stable, so a row goes in
    front of the rows after it whose key is not smaller. *)
Fixpoint insert_by_timestamp (x : QueryRow) (l : list QueryRow) : list QueryRow :=
  match l with
  | [] => [x]
  | y :: l' =>
      if String.leb (timestamp_key x) (timestamp_key y) then x :: l
      else y :: insert_by_timestamp x l'
  end.

Definition sorted_by_timestamp (results : list QueryRow) : list QueryRow :=
  fold_right insert_by_timestamp [] results.

(** [get_user_history(user_name, limit, days)], given what the query does. *)
Definition get_user_history (q : QueryOutcome) (p : t) : list QueryRow :=
  match client p with
  | None => []
  | Some _ =>
      match q with
      | QueryRaised => []
      | QueryReturned results => sorted_by_timestamp results
      end
  end.

(** What [get_user_stats] returns: the empty dictionary, or the three
    entries [total_turns], [intents] and [last_active] (which is [None] when
    the last row has no timestamp). *)
Inductive UserStats : Type :=
| NoStats
| StatsOf (total_turns : nat) (intents : PyDict.t nat) (last_active : option string).

(** [intents[intent] = intents.get(intent, 0) + 1] *)
Definition count_intent (intents : PyDict.t nat) (r : QueryRow) : PyDict.t nat :=
  let intent := default "general" (q_intent r) in
  PyDict.set intent (default 0%nat (PyDict.get intent intents) + 1)%nat intents.

(** [get_user_stats(user_name)], given what the query does. *)
Definition get_user_stats (q : QueryOutcome) (p : t) : UserStats :=
  match client p with
  | None => NoStats
  | Some _ =>
      match q with
      | QueryRaised => NoStats
      | QueryReturned [] => StatsOf 0 [] (Some "Never")
      | QueryReturned results =>
          StatsOf (length results) (fold_left count_intent results [])
            (match last results with
             | Some r => q_timestamp r
             | None => Some "Never"
             end)
      end
  end.

(** Every record the object holds: the rows of the collection (none when
    there is no client), then the buffered rows, session by session. *)
Definition all_rows (p : t) : list Row :=
  default [] (client p) ++ concat (map snd (write_buffer p)).

(** The calls that change the object, with what the outside world does
    during each. *)
Inductive Call : Type :=
| CallStore (io : StoreIO)
    (user_name user_id session_id user_message bot_response intent : string)
| CallFlush (io : FlushIO) (session_id : string)
| CallSweep (io : string -> FlushIO) (current_time : Z).

Definition call (c : Call) (p : t) : t :=
  match c with
  | CallStore io un uid sid um br intent =>
      snd (store_conversation io un uid sid um br intent p)
  | CallFlush io sid => snd (flush_session io sid p)
  | CallSweep io now => cleanup_stale_buffers io now p
  end.

Definition calls (cs : list Call) (p : t) : t :=
  fold_left (fun p c => call c p) cs p.

(** [get_cache_stats()] *)
Definition get_cache_stats (p : t) : EmbeddingCache.Stats :=
  EmbeddingCache.get_stats (embedding_cache p).

End Defs.
End ChatPersistence.

(** ** [app/langgraph_graph.py]: the supervisor *)

Module Router.

(** The outcome of a call into the language model. *)
Inductive outcome (A : Type) : Type :=
| Returned (a : A)
| Raised (exn : string).
Arguments Returned {A} a.
Arguments Raised {A} exn.

(** [RouteResponse.next : Literal["BookingAgent", "SupportAgent", "FINISH"]] *)
Inductive RouteResponse : Type :=
| next_BookingAgent
| next_SupportAgent
| next_FINISH.

Definition next (response : RouteResponse) : string :=
  match response with
  | next_BookingAgent => "BookingAgent"
  | next_SupportAgent => "SupportAgent"
  | next_FINISH => "FINISH"
  end.

(** The targets of the supervisor's conditional edges. *)
Definition decisions : list string := ["BookingAgent"; "SupportAgent"; "FINISH"].

(** [supervisor_node(state)].  [structured] is the outcome of the structured
    request and [fallback] the outcome of [llm.invoke] on the fallback prompt
    (the content of its response), which is only issued when the structured
    request raised.  The result is the string stored under ["next"], or the
    exception that leaves the node. *)
Definition supervisor_node (structured : outcome RouteResponse)
    (fallback : outcome string) : outcome string :=
  match structured with
  | Returned response => Returned (next response)
  | Raised _ =>
      match fallback with
      | Raised exn => Raised exn
      | Returned resp_content =>
          let content := PyStr.strip resp_content in
          if PyStr.contains "BookingAgent" content then Returned "BookingAgent"
          else if PyStr.contains "SupportAgent" content then Returned "SupportAgent"
          else Returned "FINISH"
      end
  end.

End Router.

(** ** [app/main.py] and [app/langgraph_graph.py]: streaming and cancellation *)

Module Streaming.

(** The dictionaries the streaming handler yields. *)
Record Chunk : Type := mkChunk {
  type : string;
  content : string
}.

(** An event of [graph.astream_events]: [event.get("event")],
    [event.get("name")], and the content of [data["chunk"]] ([None] when the
    chunk is missing or has no [content]). *)
Record Event : Type := mkEvent {
  event : string;
  name : option string;
  chunk_content : option string
}.

(** The [asyncio.Event] objects live in a heap; [active_streams] maps the
    session id of a turn to its object, and the generator of the turn keeps
    its own reference to the same object. *)
Record Registry : Type := mkRegistry {
  flags : gmap nat bool;
  active_streams : gmap string nat
}.

(** [cancel_flag = asyncio.Event(); active_streams[session_id] = cancel_flag] *)
Definition register (session_id : string) (r : Registry) : nat * Registry :=
  let l := fresh (dom (flags r)) in
  (l, {| flags := <[l := false]> (flags r);
         active_streams := <[session_id := l]> (active_streams r) |}).

(** [active_streams.pop(session_id, None)] *)
Definition release (session_id : string) (r : Registry) : Registry :=
  {| flags := flags r; active_streams := delete session_id (active_streams r) |}.

(** The handler of [POST /chat/cancel]: the new registry and the status. *)
Definition cancel_stream (session_id : string) (r : Registry) : Registry * string :=
  match active_streams r !! session_id with
  | Some l =>
      ({| flags := <[l := true]> (flags r); active_streams := active_streams r |},
       "cancelled")
  | None => (r, "not_found")
  end.

(** [cancel_flag and cancel_flag.is_set()] *)
Definition is_set (cancel_flag : option nat) (r : Registry) : bool :=
  match cancel_flag with
  | Some l => default false (flags r !! l)
  | None => false
  end.

(** What the body of the loop yields for one event that is not cancelled. *)
Definition on_event (e : Event) : list Chunk :=
  if String.eqb (event e) "on_chat_model_stream" then
    match chunk_content e with
    | Some c => if String.eqb c "" then [] else [mkChunk "token" c]
    | None => []
    end
  else if String.eqb (event e) "on_tool_start" then
    match name e with
    | Some tool_name =>
        if String.eqb tool_name "" then []
        else if String.eqb tool_name "_Exception" || String.eqb tool_name "LangGraph"
        then []
        else [mkChunk "intent" tool_name]
    | None => []
    end
  else [].

(** What happens around a turn while it streams, in the order it happens:
    the graph delivers its next event, the graph raises, or a cancel request
    for some session is served while the engine is suspended.  The end of
    the list is the end of the graph's event stream. *)
Inductive Action : Type :=
| Deliver (e : Event)
| Raise (exn : string)
| CancelRequest (session_id : string).

(** [process_user_message_with_context_streaming]: everything the generator
    yields when it is driven to its end. *)
Fixpoint process_user_message_with_context_streaming
    (cancel_flag : option nat) (r : Registry) (script : list Action) : list Chunk :=
  match script with
  | [] => [mkChunk "done" ""]
  | CancelRequest session_id :: script' =>
      process_user_message_with_context_streaming cancel_flag
        (fst (cancel_stream session_id r)) script'
  | Raise exn :: _ => [mkChunk "error" exn; mkChunk "done" ""]
  | Deliver e :: script' =>
      if is_set cancel_flag r then [mkChunk "cancelled" "Stream cancelled"]
      else on_event e ++ process_user_message_with_context_streaming cancel_flag r script'
  end.

(** [chunk.get("type") in ["done", "cancelled", "error"]] *)
Definition is_terminal (c : Chunk) : bool :=
  String.eqb (type c) "done" || String.eqb (type c) "cancelled"
  || String.eqb (type c) "error".

Section Sse.
(** [json.dumps(chunk)] raising, for a chunk that cannot be serialised. *)
Variable dumps_raises : Chunk -> bool.

(** [sse_streamer]: the chunks whose [data:] frames reach the transport.  The
    wrapper stops pulling from the generator after the first terminal chunk,
    and after a chunk it cannot serialise, for which it sends an error frame
    of its own. *)
Fixpoint sse_streamer (async_generator : list Chunk) : list Chunk :=
  match async_generator with
  | [] => []
  | chunk :: rest =>
      if dumps_raises chunk then [mkChunk "error" "Internal streaming error"]
      else if is_terminal chunk then [chunk]
      else chunk :: sse_streamer rest
  end.

End Sse.

(** The frames of one turn as the transport layer sees them. *)
Definition turn (dumps_raises : Chunk -> bool) (cancel_flag : option nat)
    (r : Registry) (script : list Action) : list Chunk :=
  sse_streamer dumps_raises
    (process_user_message_with_context_streaming cancel_flag r script).

Definition is_cancel_request (a : Action) : bool :=
  match a with CancelRequest _ => true | _ => false end.

(** The two global dictionaries of [app/main.py]: the registry, and
    [stream_timestamps] with the creation time of every stream. *)
Record Streams : Type := mkStreams {
  registry : Registry;
  stream_timestamps : PyDict.t Z
}.

(** The streaming path of [POST /chat] up to the response: the handle is
    created and registered, and its creation time recorded. *)
Definition open_stream (session_id : string) (time_time : Z) (s : Streams)
  : nat * Streams :=
  let '(l, r) := register session_id (registry s) in
  (l, {| registry := r;
         stream_timestamps := PyDict.set session_id time_time (stream_timestamps s) |}).

(** The [finally] block of [stream_and_cleanup], on the two dictionaries:
    the stream leaves the registry, its timestamp stays. *)
Definition close_stream (session_id : string) (s : Streams) : Streams :=
  {| registry := release session_id (registry s);
     stream_timestamps := stream_timestamps s |}.

(** The streams [cleanup_stale_streams] finds older than [STREAM_TTL]. *)
Definition stale_streams (STREAM_TTL current_time : Z) (s : Streams) : list string :=
  map fst (List.filter (fun kv => current_time - snd kv >? STREAM_TTL)
             (stream_timestamps s)).

(** One round of the loop of [cleanup_stale_streams], run at
    [current_time]; [Config.STREAM_TTL] is a parameter. *)
Definition cleanup_stale_streams (STREAM_TTL current_time : Z) (s : Streams) : Streams :=
  fold_left
    (fun s session_id =>
       {| registry := release session_id (registry s);
          stream_timestamps := PyDict.pop session_id (stream_timestamps s) |})
    (stale_streams STREAM_TTL current_time s) s.

(** What [stream_and_cleanup] keeps of the frames it passes on, for the
    record of the turn: the text of the tokens, and the last tool name that
    is neither empty nor [general]. *)
Record Tracked : Type := mkTracked {
  full_bot_response : string;
  detected_intent : string
}.

Definition track (t : Tracked) (frame : Chunk) : Tracked :=
  if String.eqb (type frame) "token" then
    {| full_bot_response := String.append (full_bot_response t) (content frame);
       detected_intent := detected_intent t |}
  else if String.eqb (type frame) "intent" then
    if negb (String.eqb (content frame) "")
       && negb (String.eqb (content frame) "general")
    then {| full_bot_response := full_bot_response t;
            detected_intent := content frame |}
    else t
  else t.

(** [stream_and_cleanup]: the frames it yields are those of [sse_streamer],
    and the arguments it hands to [store_conversation] when the stream is
    over are what it tracked from them. *)
Definition stream_and_cleanup (sse_generator : list Chunk) : list Chunk * Tracked :=
  (sse_generator, fold_left track sse_generator (mkTracked "" "general")).

(** An operation on the registry. *)
Inductive RegistryOp : Type :=
| OpRegister (session_id : string)
| OpRelease (session_id : string)
| OpCancel (session_id : string).

Definition registry_op (o : RegistryOp) (r : Registry) : Registry :=
  match o with
  | OpRegister session_id => snd (register session_id r)
  | OpRelease session_id => release session_id r
  | OpCancel session_id => fst (cancel_stream session_id r)
  end.

Definition registry_ops (os : list RegistryOp) (r : Registry) : Registry :=
  fold_left (fun r o => registry_op o r) os r.

(** No stream in flight, no handle created. *)
Definition no_streams : Registry := {| flags := ∅; active_streams := ∅ |}.

End Streaming.

(** ** [app/app.py]: the client side of a stream *)

Module Client.
Import Streaming.

(** The loop of [send_message_streaming] over the frames of the response,
    each decoded from its JSON: tokens are appended, an intent frame sets
    the intent, and the first terminal frame ends the loop; a cancelled
    stream is marked in the text.  The frames are those the server sends,
    which are all JSON and include no [[DONE]] line.  The result is the text
    and the intent when the loop is left. *)
Fixpoint consume (frames : list Chunk) (full_bot_response final_intent : string)
  : string * string :=
  match frames with
  | [] => (full_bot_response, final_intent)
  | data :: frames' =>
      if String.eqb (type data) "token" then
        consume frames' (String.append full_bot_response (content data)) final_intent
      else if String.eqb (type data) "intent" then
        consume frames' full_bot_response (content data)
      else if is_terminal data then
        if String.eqb (type data) "error" then (full_bot_response, final_intent)
        else if String.eqb (type data) "cancelled" then
          (String.append full_bot_response (String "010" (String "010"
             "(Stream cancelled by user.)")), final_intent)
        else (full_bot_response, final_intent)
      else consume frames' full_bot_response final_intent
  end.

(** [send_message_streaming] on a response that arrives: [bot_response] and
    [intent]. *)
Definition send_message_streaming (frames : list Chunk) : string * string :=
  consume frames "" "general".

End Client.

(** ** [app/cache.py]: SystemMessageCache *)

Module SystemMessageCache.

Record t : Type := mk {
  _cache : PyDict.t string;
  max_size : Z
}.

(** [__init__] *)
Definition init (max_size : Z) : t := {| _cache := []; max_size := max_size |}.

(** [f"{user_name}::{context_summary}"] *)
Definition key (user_name context_summary : string) : string :=
  String.append user_name (String.append "::" context_summary).

(** [get(user_name, context_summary)] *)
Definition get (user_name context_summary : string) (c : t) : option string :=
  PyDict.get (key user_name context_summary) (_cache c).

(** [set(user_name, context_summary, message)]; [None] when
    [next(iter(self._cache))] raises [StopIteration]. *)
Definition set (user_name context_summary message : string) (c : t) : option t :=
  let key := key user_name context_summary in
  if Z.of_nat (PyDict.len (_cache c)) >=? max_size c then
    match PyDict.first_key (_cache c) with
    | None => None
    | Some oldest =>
        Some {| _cache := PyDict.set key message (PyDict.pop oldest (_cache c));
                max_size := max_size c |}
    end
  else
    Some {| _cache := PyDict.set key message (_cache c); max_size := max_size c |}.

End SystemMessageCache.

(** ** [app/langgraph_graph.py] and [app/agents]: the graphs *)

Module Graph.
Import Router.

(** A message of the conversation: whether it is an [AIMessage], its
    content, and the names of the tools it asks for ([tool_calls]). *)
Record Message : Type := mkMessage {
  is_ai : bool;
  content : string;
  tool_calls : list string
}.

(** The nodes of the supervisor graph of [create_agent_graph]. *)
Inductive Node : Type := supervisor | BookingAgent | SupportAgent | END.

(** The table of [add_conditional_edges("supervisor", lambda x: x["next"], ...)];
    [None] is a value of ["next"] the table has no entry for. *)
Definition conditional_edges (next : string) : option Node :=
  if String.eqb next "BookingAgent" then Some BookingAgent
  else if String.eqb next "SupportAgent" then Some SupportAgent
  else if String.eqb next "FINISH" then Some END
  else None.

(** How a run of the graph stands when the calls into the language model
    that are given have been used up. *)
Inductive Run : Type :=
| Completed (messages : list Message) (visited : list Node)
| Crashed (exn : string) (visited : list Node)
| Pending (at_node : Node) (messages : list Message) (visited : list Node).

(** [recursion_limit]: the number of super-steps LangGraph lets a run take
    before it raises [GraphRecursionError].  Neither [graph.invoke] nor
    [graph.astream_events] is given one in its [config], so this default of
    the library applies. *)
Definition DEFAULT_RECURSION_LIMIT : nat := 25.

(** What an agent node hands back to the graph: the final state of its
    compiled sub-graph, whose [messages] are those it was entered with
    followed by what its run appended. *)
Definition agent_node (messages new : list Message) : list Message :=
  messages ++ new.

(** A run of the supervisor graph from its entry edge [START -> supervisor],
    with [steps] super-steps left.  Each visit of [supervisor] takes the
    outcomes of its two requests; each visit of an agent takes what the run
    of the agent's sub-graph appends to the messages, or the exception it
    ends with.  The reducer [operator.add] of [AgentState] appends what a
    node returns under [messages] to the messages of the graph; an agent
    node returns all messages of its sub-graph, so the messages it was
    entered with are appended once more.  Both agents lead back to
    [supervisor], and [FINISH] leads to [END].  The loop of the library
    looks at the steps left before every super-step, also before the one in
    which it would find nothing left to run. *)
Fixpoint run_supervisor_graph (steps : nat)
    (decisions : list (outcome RouteResponse * outcome string))
    (replies : list (outcome (list Message)))
    (messages : list Message) (visited : list Node) : Run :=
  match steps with
  | O => Crashed "GraphRecursionError" visited
  | S steps1 =>
      match decisions with
      | [] => Pending supervisor messages visited
      | (structured, fallback) :: decisions' =>
          let visited := visited ++ [supervisor] in
          match supervisor_node structured fallback with
          | Raised exn => Crashed exn visited
          | Returned next =>
              match conditional_edges next with
              | None => Crashed "KeyError" visited
              | Some node =>
                  match steps1 with
                  | O => Crashed "GraphRecursionError" visited
                  | S steps2 =>
                      match node with
                      | END => Completed messages visited
                      | agent =>
                          match replies with
                          | [] => Pending agent messages visited
                          | Raised exn :: _ => Crashed exn (visited ++ [agent])
                          | Returned new :: replies' =>
                              run_supervisor_graph steps2 decisions' replies'
                                (messages ++ agent_node messages new)
                                (visited ++ [agent])
                          end
                      end
                  end
              end
          end
      end
  end.

(** [graph.invoke(initial_state, config)] for a turn with the given user
    message; [checkpoint] holds the messages the checkpointer has kept for
    the thread (none for a new thread), to which [operator.add] appends the
    message of the turn.  The entry step of the graph is the first of the
    super-steps of the run, which leaves [recursion_limit] of them for the
    nodes. *)
Definition invoke (checkpoint : list Message) (user_message : Message)
    (decisions : list (outcome RouteResponse * outcome string))
    (replies : list (outcome (list Message))) : Run :=
  run_supervisor_graph DEFAULT_RECURSION_LIMIT decisions replies
    (checkpoint ++ [user_message]) [].



(** [should_continue(state)] of both agents; [None] is the [IndexError] of
    [state["messages"][-1]] on an empty list. *)
Definition should_continue (messages : list Message) : option string :=
  match last messages with
  | None => None
  | Some last_message =>
      match tool_calls last_message with
      | [] => Some "__end__"
      | _ => Some "tools"
      end
  end.

(** How a run of an agent's sub-graph stands. *)
Inductive AgentRun : Type :=
| AgentDone (added : list Message)
| AgentCrashed (exn : string)
| AgentPending (added : list Message).

(** A run of the sub-graph of an agent ([START -> agent], [agent -> tools]
    or [END] by [should_continue], [tools -> agent]) on the messages it is
    entered with: [llm] holds the outcomes of the calls of the model, in
    order, and [tools] what the tool node returns on each of its visits.
    The result holds the messages the run appends. *)
Fixpoint run_agent (llm : list (outcome Message))
    (tools : list (outcome (list Message)))
    (messages added : list Message) : AgentRun :=
  match llm with
  | [] => AgentPending added
  | Raised exn :: _ => AgentCrashed exn
  | Returned response :: llm' =>
      let added := added ++ [response] in
      match should_continue (messages ++ added) with
      | None => AgentCrashed "IndexError"
      | Some branch =>
          if String.eqb branch "tools" then
            match tools with
            | [] => AgentPending added
            | Raised exn :: _ => AgentCrashed exn
            | Returned results :: tools' =>
                run_agent llm' tools' messages (added ++ results)
            end
          else AgentDone added
      end
  end.

(** [isinstance(msg, AIMessage) and hasattr(msg, "tool_calls") and msg.tool_calls] *)
Definition uses_tool (msg : Message) : bool :=
  is_ai msg && match tool_calls msg with [] => false | _ => true end.

(** The loop of [detect_intent_from_messages] over [reversed(messages)]. *)
Fixpoint scan_for_tool_use (reversed_messages : list Message) : string :=
  match reversed_messages with
  | [] => "general"
  | msg :: rest => if uses_tool msg then "tool_use" else scan_for_tool_use rest
  end.

(** [detect_intent_from_messages(messages)] *)
Definition detect_intent_from_messages (messages : list Message) : string :=
  scan_for_tool_use (rev messages).

(** [process_user_message_with_context]: [bot_response] and [intent], given
    what [graph.invoke] does.  [result["messages"][-1]] raises on an empty
    list, inside the [try]. *)
Definition process_user_message_with_context (result : outcome (list Message))
  : string * string :=
  match result with
  | Returned messages =>
      match last messages with
      | Some final_message => (content final_message, "general")
      | None => ("Error processing message.", "error")
      end
  | Raised _ => ("Error processing message.", "error")
  end.

End Graph.

(** ** [app/main.py]: the non-streaming path and the login *)

Module Api.

(** [c.lower()] on the ASCII range. *)
Definition lower_char (c : ascii) : ascii :=
  let n := nat_of_ascii c in
  if ((65 <=? n) && (n <=? 90))%nat then ascii_of_nat (n + 32) else c.

(** [user_name.lower().replace(' ', '_')] *)
Fixpoint normalise (user_name : string) : string :=
  match user_name with
  | EmptyString => EmptyString
  | String c rest =>
      let c := lower_char c in
      String (if Ascii.eqb c " " then "_"%char else c) (normalise rest)
  end.

(** [user_name.isascii()] *)
Fixpoint isascii (s : string) : bool :=
  match s with
  | EmptyString => true
  | String c rest => (nat_of_ascii c <? 128)%nat && isascii rest
  end.

(** Two characters that are one letter in either case, or that are each a
    blank or an underscore. *)
Definition alike (a b : ascii) : bool :=
  let m := nat_of_ascii a in
  let n := nat_of_ascii b in
  ((m =? n)
   || ((65 <=? m) && (m <=? 90) && (n =? m + 32))
   || ((65 <=? n) && (n <=? 90) && (m =? n + 32))
   || (((m =? 32) || (m =? 95)) && ((n =? 32) || (n =? 95))))%nat.

(** Two names of one length whose characters are alike place by place:
    they differ in case, and in blank against underscore, only. *)
Fixpoint alike_names (s t : string) : bool :=
  match s, t with
  | EmptyString, EmptyString => true
  | String a s', String b t' => alike a b && alike_names s' t'
  | _, _ => false
  end.

(** [login]: the [user_id] of the response. *)
Definition login (user_name : string) : string :=
  String.append "user_" (normalise user_name).

Section Chat.
Variable md5_hexdigest : string -> string.
Context {Embedding : Type}.

(** The [ChatResponse] of the non-streaming path. *)
Record ChatResponse : Type := mkChatResponse {
  user_message : string;
  bot_response : string;
  user_id : string;
  user_name : string;
  intent : string;
  session_id : string;
  thread_id : string
}.

(** The non-streaming path of [generate_chat_response]: the response, and
    the persistence object after [store_conversation].  [session_id] is the
    fresh identifier of the request, [thread] the [thread_id] of the request
    if it has one, and [result] what [graph.invoke] does. *)
Definition generate_chat_response (io : ChatPersistence.StoreIO)
    (request_message request_name request_id session_id : string)
    (thread : option string) (result : Router.outcome (list Graph.Message))
    (p : @ChatPersistence.t Embedding) : ChatResponse * @ChatPersistence.t Embedding :=
  let user_message := PyStr.strip request_message in
  let thread_id :=
    match thread with
    | Some t => if String.eqb t "" then session_id else t
    | None => session_id
    end in
  let '(bot_response, detected_intent) :=
    Graph.process_user_message_with_context result in
  let p' := snd (ChatPersistence.store_conversation md5_hexdigest io
                   request_name request_id session_id
                   user_message bot_response detected_intent p) in
  ({| user_message := user_message; bot_response := bot_response;
      user_id := request_id; user_name := request_name;
      intent := detected_intent; session_id := session_id;
      thread_id := thread_id |}, p').

End Chat.
End Api.

(** ** [app/tools/booking_tool.py]: the search for free slots *)

Module Calendar.

(** An item of the event list of the calendar, as far as
    [_get_available_slots_sync] reads it.  Instants and durations are
    integers in one unit of time. *)
Inductive CalendarEvent : Type :=
| Unbounded                    (* no ['start'] or no ['end'] key *)
| Untimed                      (* both keys, but a ['dateTime'] that is missing or not ISO *)
| Timed (start end_ : Z).

(** The loop that fills [booked_times]; [None] is the exception of an event
    whose times cannot be read. *)
Fixpoint booked_times (events : list CalendarEvent) : option (list (Z * Z)) :=
  match events with
  | [] => Some []
  | Unbounded :: events' => booked_times events'
  | Untimed :: _ => None
  | Timed start end_ :: events' =>
      match booked_times events' with
      | Some booked => Some ((start, end_) :: booked)
      | None => None
      end
  end.

(** The inner [for] loop: the end of the first booking that the slot from
    [current_time] to [slot_end] overlaps. *)
Fixpoint first_conflict (booked : list (Z * Z)) (current_time slot_end : Z) : option Z :=
  match booked with
  | [] => None
  | (booked_start, booked_end) :: booked' =>
      if (current_time <? booked_end) && (slot_end >? booked_start)
      then Some booked_end
      else first_conflict booked' current_time slot_end
  end.

Section Search.
Variables meeting_duration buffer_time : Z.
Variable booked : list (Z * Z).
Variables end_time num_slots : Z.

(** The [while] loop, for at most [fuel] rounds; [None] when the loop is
    still running after them. *)
Fixpoint search (fuel : nat) (available_slots : list (Z * Z)) (current_time : Z)
  : option (list (Z * Z)) :=
  match fuel with
  | O => None
  | S fuel' =>
      if (Z.of_nat (length available_slots) <? num_slots) && (current_time <? end_time)
      then
        let slot_end := current_time + meeting_duration in
        match first_conflict booked current_time slot_end with
        | Some booked_end =>
            search fuel' available_slots
              (booked_end + buffer_time + (meeting_duration + buffer_time))
        | None =>
            search fuel'
              (if slot_end <=? end_time
               then available_slots ++ [(current_time, slot_end)]
               else available_slots)
              (current_time + (meeting_duration + buffer_time))
        end
      else Some available_slots
  end.

End Search.

(** An entry of the returned list: a slot found by the search, which the
    code formats with [strftime], or one of the two slots named in the
    code. *)
Inductive Slot : Type :=
| Between (start end_ : Z)
| Named (label : string).

Definition fallback : list Slot :=
  [Named "9:00 AM - 10:00 AM"; Named "10:00 AM - 11:00 AM"].

(** [_get_available_slots_sync]: [start_time] and [end_time] are the
    instants the working hours of the day start and end at, and [events] is
    the event list of the day, or [None] when the date does not parse or the
    request raises.  Every exception ends in the empty list. *)
Definition _get_available_slots_sync (meeting_duration buffer_time : Z)
    (fuel : nat) (events : option (list CalendarEvent))
    (start_time end_time num_slots : Z) : option (list Slot) :=
  match events with
  | None => Some []
  | Some events =>
      match booked_times events with
      | None => Some []
      | Some booked =>
          match search meeting_duration buffer_time booked end_time num_slots
                  fuel [] start_time with
          | None => None
          | Some [] => Some fallback
          | Some available_slots =>
              Some (map (fun s => Between (fst s) (snd s)) available_slots)
          end
      end
  end.

(** Rounds that are enough for the loop when every round moves on. *)
Definition rounds (start_time end_time : Z) : nat :=
  S (Z.to_nat (end_time - start_time)).

End Calendar.

(** ** Concrete scenarios *)

Module Scenario.
Import ChatPersistence.

(** The scenarios do not depend on the digest; they run with the identity
    in the place of MD5, and with short integer vectors as embeddings. *)
Definition digest (text : string) : string := text.

Definition vector : Type := list Z.

(** The model returns a vector and every call of the client goes through. *)
Definition all_well : StoreIO :=
  {| encode := Some [1; 2; 3]; now_isoformat := "2025-01-01T00:00:00";
     time_time := 100; flush_io := mkFlushIO false false |}.

(** The insert of the client raises. *)
Definition insert_fails : StoreIO :=
  {| encode := Some [1; 2; 3]; now_isoformat := "2025-01-01T00:00:05";
     time_time := 105; flush_io := mkFlushIO false true |}.

(** One turn of user Abhi in a session. *)
Definition turn_of (io : StoreIO) (session_id user_message : string)
    (p : @t vector) : bool * @t vector :=
  store_conversation digest io "Abhi" "user_abhi" session_id user_message
    "Sure." "general" p.

(** Milvus reachable, collection loaded and empty, nothing buffered. *)
Definition started : @t vector := init (Some []) true 1000.

(** Milvus not reachable at start-up: [self.client] is [None]. *)
Definition unavailable : @t vector := init None false 1000.

Definition one_buffered : @t vector := snd (turn_of all_well "s1" "m1" started).

Definition four_buffered : @t vector :=
  snd (turn_of all_well "s1" "m4"
    (snd (turn_of all_well "s1" "m3"
      (snd (turn_of all_well "s1" "m2" one_buffered))))).

(** A registry with one stream in flight, its flag at location [0]. *)
Definition one_stream : Streaming.Registry :=
  {| Streaming.flags := {[ 0%nat := false ]};
     Streaming.active_streams := {[ "sess-1" := 0%nat ]} |}.

Definition token_event (text : string) : Streaming.Event :=
  {| Streaming.event := "on_chat_model_stream"; Streaming.name := Some "ChatOpenAI";
     Streaming.chunk_content := Some text |}.

End Scenario.

(** * Theorems *)

(** ** Dictionaries *)

Section PyDictFacts.
Context {V : Type}.
Implicit Types (d : PyDict.t V) (k : string) (v : V).

Lemma dict_get_set_eq k v d : PyDict.get k (PyDict.set k v d) = Some v.
Proof.
  induction d as [|[k' v'] d IH]; simpl.
  - now rewrite String.eqb_refl.
  - destruct (String.eqb k k') eqn:E; simpl; rewrite ?String.eqb_refl, ?E; auto.
Qed.

Lemma dict_get_set_ne k k' v d :
  k <> k' -> PyDict.get k' (PyDict.set k v d) = PyDict.get k' d.
Proof.
  intros Hne. induction d as [|[k0 v0] d IH]; simpl.
  - apply String.eqb_neq in Hne. rewrite String.eqb_sym in Hne. now rewrite Hne.
  - destruct (String.eqb k k0) eqn:E; simpl.
    + apply String.eqb_eq in E. subst k0.
      assert (String.eqb k' k = false) as -> by (apply String.eqb_neq; congruence).
      reflexivity.
    + now rewrite IH.
Qed.

Lemma dict_get_pop_eq k d : PyDict.get k (PyDict.pop k d) = None.
Proof.
  induction d as [|[k0 v0] d IH]; simpl; auto.
  destruct (String.eqb k k0) eqn:E; simpl; rewrite ?E; auto.
Qed.

Lemma dict_get_pop_ne k k' d :
  k <> k' -> PyDict.get k' (PyDict.pop k d) = PyDict.get k' d.
Proof.
  intros Hne. induction d as [|[k0 v0] d IH]; simpl; auto.
  destruct (String.eqb k k0) eqn:E; simpl.
  - apply String.eqb_eq in E. subst k0.
    assert (String.eqb k' k = false) as -> by (apply String.eqb_neq; congruence).
    exact IH.
  - now rewrite IH.
Qed.

Lemma dict_pop_absent k d : PyDict.get k d = None -> PyDict.pop k d = d.
Proof.
  induction d as [|[k0 v0] d IH]; simpl; auto.
  destruct (String.eqb k k0); [discriminate|]. intros H. now rewrite IH.
Qed.

Lemma dict_set_absent k v d :
  PyDict.get k d = None -> PyDict.set k v d = d ++ [(k, v)].
Proof.
  induction d as [|[k0 v0] d IH]; simpl; auto.
  destruct (String.eqb k k0); [discriminate|]. intros H. now rewrite IH.
Qed.

Lemma dict_keys_set_present k v d :
  PyDict.get k d <> None -> PyDict.keys (PyDict.set k v d) = PyDict.keys d.
Proof.
  induction d as [|[k0 v0] d IH]; simpl; [congruence|].
  destruct (String.eqb k k0) eqn:E; simpl; intros H.
  - apply String.eqb_eq in E. now subst.
  - f_equal. now apply IH.
Qed.

Lemma dict_len_set k v d :
  (PyDict.len (PyDict.set k v d) <= S (PyDict.len d))%nat.
Proof.
  unfold PyDict.len. induction d as [|[k0 v0] d IH]; simpl; [lia|].
  destruct (String.eqb k k0); simpl; lia.
Qed.

Lemma dict_len_pop k d : (PyDict.len (PyDict.pop k d) <= PyDict.len d)%nat.
Proof.
  unfold PyDict.len. induction d as [|[k0 v0] d IH]; simpl; [lia|].
  destruct (String.eqb k k0); simpl; lia.
Qed.

Lemma dict_get_none_keys k d : PyDict.get k d = None <-> ~ In k (PyDict.keys d).
Proof.
  induction d as [|[k0 v0] d IH]; simpl; [tauto|].
  destruct (String.eqb k k0) eqn:E.
  - apply String.eqb_eq in E. subst. split; [discriminate|tauto].
  - apply String.eqb_neq in E. rewrite IH. split; [intros H [?|?]; congruence + tauto|tauto].
Qed.

Lemma dict_get_app_absent k d d' :
  PyDict.get k d = None -> PyDict.get k (d ++ d') = PyDict.get k d'.
Proof.
  induction d as [|[k0 v0] d IH]; simpl; auto.
  destruct (String.eqb k k0); [discriminate|auto].
Qed.

Lemma dict_keys_pop_subset k k' d :
  In k' (PyDict.keys (PyDict.pop k d)) -> In k' (PyDict.keys d).
Proof.
  induction d as [|[k0 v0] d IH]; simpl; auto.
  destruct (String.eqb k k0); simpl; tauto.
Qed.

(** Keys stay unique. *)
Lemma dict_pop_nodup k d :
  NoDup (PyDict.keys d) -> NoDup (PyDict.keys (PyDict.pop k d)).
Proof.
  induction d as [|[k0 v0] d IH]; simpl; auto.
  intros H. apply NoDup_cons in H as [Hk Hd].
  destruct (String.eqb k k0); simpl; auto.
  apply NoDup_cons. split; auto.
  intros Hin. apply Hk. apply list_elem_of_In.
  apply (dict_keys_pop_subset k). now apply list_elem_of_In.
Qed.

Lemma dict_set_nodup k v d :
  NoDup (PyDict.keys d) -> NoDup (PyDict.keys (PyDict.set k v d)).
Proof.
  induction d as [|[k0 v0] d IH]; simpl.
  - intros _. apply NoDup_cons. split; [apply not_elem_of_nil|apply NoDup_nil_2].
  - intros H. apply NoDup_cons in H as [Hk Hd].
    destruct (String.eqb_spec k k0) as [->|Hne]; simpl.
    + apply NoDup_cons. auto.
    + apply NoDup_cons. split; auto.
      intros Hin. apply list_elem_of_In in Hin.
      destruct (PyDict.get k d) eqn:E.
      * rewrite dict_keys_set_present in Hin by congruence.
        apply Hk. now apply list_elem_of_In.
      * rewrite dict_set_absent in Hin by exact E.
        unfold PyDict.keys in Hin. rewrite map_app in Hin.
        apply in_app_or in Hin as [Hin|[Heq|[]]]; [|simpl in Heq; congruence].
        apply Hk. now apply list_elem_of_In.
Qed.

Lemma dict_get_app_present k v d d' :
  PyDict.get k d = Some v -> PyDict.get k (d ++ d') = Some v.
Proof.
  induction d as [|[k0 v0] d IH]; simpl; [discriminate|].
  destruct (String.eqb k k0); auto.
Qed.

End PyDictFacts.

(** ** EmbeddingCache *)

Section EmbeddingCacheFacts.
Variable md5_hexdigest : string -> string.
Context {Embedding : Type}.

Local Abbreviation cache := (@EmbeddingCache.t Embedding).
Local Abbreviation ec_get := (EmbeddingCache.get md5_hexdigest).
Local Abbreviation ec_set := (EmbeddingCache.set md5_hexdigest).
Local Abbreviation ec_run := (EmbeddingCache.run md5_hexdigest).
Local Abbreviation ec_apply := (EmbeddingCache.apply md5_hexdigest).
Local Abbreviation stored := EmbeddingCache._cache.
Local Abbreviation capacity := EmbeddingCache.max_size.
Local Abbreviation key_of := (EmbeddingCache._hash_text md5_hexdigest).
Local Abbreviation ec_init := (@EmbeddingCache.init Embedding).
Local Abbreviation ec_entry := (EmbeddingCache.entry md5_hexdigest).
Local Abbreviation ec_store_all := (@EmbeddingCache.store_all Embedding).

Lemma ec_get_result text (c : cache) :
  fst (ec_get text c) = PyDict.get (key_of text) (stored c).
Proof.
  unfold EmbeddingCache.get. now destruct (PyDict.get _ (stored c)).
Qed.

Lemma ec_get_keeps text (c : cache) :
  stored (snd (ec_get text c)) = stored c /\
  capacity (snd (ec_get text c)) = capacity c.
Proof.
  unfold EmbeddingCache.get. now destruct (PyDict.get _ (stored c)).
Qed.

Lemma ec_gets_keep texts (c : cache) :
  stored (ec_run (map EmbeddingCache.OpGet texts) c) = stored c.
Proof.
  unfold EmbeddingCache.run.
  revert c. induction texts as [|text texts IH]; intros c; simpl; auto.
  rewrite IH. apply ec_get_keeps.
Qed.

Lemma ec_set_keeps_capacity text e (c c' : cache) :
  ec_set text e c = Some c' -> capacity c' = capacity c.
Proof.
  unfold EmbeddingCache.set.
  destruct (_ >=? _); [destruct (PyDict.first_key _)|]; intros H;
    inversion H; reflexivity.
Qed.

Lemma ec_set_succeeds text e (c : cache) :
  0 < capacity c -> exists c', ec_set text e c = Some c'.
Proof.
  intros Hpos. unfold EmbeddingCache.set.
  destruct (Z.geb_spec (Z.of_nat (PyDict.len (stored c))) (capacity c)) as [Hfull|Hroom].
  - destruct (stored c) as [|[k0 v0] rest] eqn:E; simpl in *; [lia|eauto].
  - eauto.
Qed.

Lemma ec_set_then_get text e (c c' : cache) :
  ec_set text e c = Some c' -> fst (ec_get text c') = Some e.
Proof.
  intros H. rewrite ec_get_result. revert H. unfold EmbeddingCache.set.
  destruct (_ >=? _); [destruct (PyDict.first_key _)|]; intros H;
    inversion H; simpl; apply dict_get_set_eq.
Qed.

Lemma ec_apply_bound o (c : cache) :
  Z.of_nat (PyDict.len (stored c)) <= capacity c ->
  Z.of_nat (PyDict.len (stored (ec_apply o c))) <= capacity (ec_apply o c) /\
  capacity (ec_apply o c) = capacity c.
Proof.
  intros Hle. destruct o as [text|text e]; simpl.
  - destruct (ec_get_keeps text c) as [-> ->]. auto.
  - unfold EmbeddingCache.set.
    destruct (Z.geb_spec (Z.of_nat (PyDict.len (stored c))) (capacity c)) as [Hfull|Hroom].
    + destruct (stored c) as [|[k0 v0] rest] eqn:E; simpl; [rewrite E; auto|].
      rewrite String.eqb_refl. split; [|reflexivity].
      pose proof (dict_len_set (key_of text) e (PyDict.pop k0 rest)).
      pose proof (dict_len_pop k0 rest).
      unfold PyDict.len in *. simpl in *. lia.
    + simpl. split; [|reflexivity].
      pose proof (dict_len_set (key_of text) e (stored c)). lia.
Qed.

Lemma ec_run_bound ops (c : cache) :
  Z.of_nat (PyDict.len (stored c)) <= capacity c ->
  Z.of_nat (PyDict.len (stored (ec_run ops c))) <= capacity c.
Proof.
  revert c. induction ops as [|o ops IH]; intros c Hle; simpl; auto.
  destruct (ec_apply_bound o c Hle) as [H1 H2].
  unfold EmbeddingCache.run in IH. rewrite <- H2. apply IH. exact H1.
Qed.

Lemma ec_run_cons o ops (c : cache) :
  ec_run (o :: ops) c = ec_run ops (ec_apply o c).
Proof. reflexivity. Qed.

Lemma ec_apply_set_room text e (c : cache) :
  Z.of_nat (PyDict.len (stored c)) < capacity c ->
  PyDict.get (key_of text) (stored c) = None ->
  stored (ec_apply (EmbeddingCache.OpSet text e) c) = stored c ++ [(key_of text, e)] /\
  capacity (ec_apply (EmbeddingCache.OpSet text e) c) = capacity c.
Proof.
  intros Hroom Hnew. simpl. unfold EmbeddingCache.set.
  assert ((Z.of_nat (PyDict.len (stored c)) >=? capacity c) = false) as ->
    by (rewrite Z.geb_leb; apply Z.leb_gt; lia).
  simpl. split; [|reflexivity]. now apply dict_set_absent.
Qed.

(** Storing texts with fresh keys while there is room appends them in order. *)
Lemma ec_fill entries (c : cache) :
  NoDup (PyDict.keys (stored c) ++ map (fun tv => key_of (fst tv)) entries) ->
  Z.of_nat (PyDict.len (stored c)) + Z.of_nat (length entries) <= capacity c ->
  stored (ec_run (ec_store_all entries) c) = stored c ++ map ec_entry entries /\
  capacity (ec_run (ec_store_all entries) c) = capacity c.
Proof.
  revert c. induction entries as [|[text e] entries IH]; intros c Hnd Hlen.
  - simpl. now rewrite app_nil_r.
  - cbn [EmbeddingCache.store_all map fst snd length] in *.
    rewrite ec_run_cons.
    assert (Hnew : PyDict.get (key_of text) (stored c) = None).
    { apply dict_get_none_keys. intros Hin.
      apply NoDup_app in Hnd as (_ & Hdisj & _).
      apply (Hdisj (key_of text)); [now apply list_elem_of_In|left]. }
    destruct (ec_apply_set_room text e c) as [Hst Hcap]; [lia|exact Hnew|].
    destruct (IH (ec_apply (EmbeddingCache.OpSet text e) c)) as [IH1 IH2].
    + rewrite Hst. unfold PyDict.keys. rewrite map_app. simpl.
      rewrite <- app_assoc. exact Hnd.
    + rewrite Hst, Hcap. unfold PyDict.len in *. rewrite length_app. simpl. lia.
    + fold (ec_store_all entries). rewrite IH1, IH2, Hst, Hcap, <- app_assoc. auto.
Qed.

(** A cache whose capacity is not positive can hold nothing: [set] on the
    empty cache raises. *)
Lemma ec_set_no_capacity text e max_size :
  max_size <= 0 -> ec_set text e (ec_init max_size) = None.
Proof.
  intros H. unfold EmbeddingCache.set.
  cbn [EmbeddingCache.init EmbeddingCache._cache EmbeddingCache.max_size
       PyDict.len length].
  assert ((Z.of_nat 0 >=? max_size) = true) as ->
    by (rewrite Z.geb_leb; apply Z.leb_le; lia).
  reflexivity.
Qed.

(** C7 (embedding cache).  With a positive capacity: on a new cache the
    first [get] of a text is a miss; after [set(T, V)], which succeeds on any
    cache, [get(T)] returns [V], also after further reads; a [set] on a full
    cache removes the oldest key of the dictionary before it stores, and after
    the cache was filled with distinct texts the first one stored is the one
    that goes while the others stay in order; and however [get] and [set] are
    called on a new cache, it never holds more entries than its capacity. *)
Theorem embedding_cache_correct (max_size : Z) (T : string) (V : Embedding) :
  0 < max_size ->
  fst (ec_get T (ec_init max_size)) = None
  /\ (forall c : cache, capacity c = max_size ->
        exists c', ec_set T V c = Some c' /\
          forall texts,
            fst (ec_get T (ec_run (map EmbeddingCache.OpGet texts) c')) = Some V)
  /\ (forall (c : cache) oldest v0 rest,
        capacity c = max_size ->
        stored c = (oldest, v0) :: rest ->
        max_size <= Z.of_nat (PyDict.len (stored c)) ->
        exists c', ec_set T V c = Some c' /\
          stored c' = PyDict.set (key_of T) V (PyDict.pop oldest rest))
  /\ (forall entries,
        NoDup (map (fun tv => key_of (fst tv)) (entries ++ [(T, V)])) ->
        Z.of_nat (length entries) = max_size ->
        stored (ec_run (ec_store_all (entries ++ [(T, V)])) (ec_init max_size))
        = tl (map ec_entry entries) ++ [(key_of T, V)])
  /\ (forall ops,
        Z.of_nat (PyDict.len (stored (ec_run ops (ec_init max_size))))
        <= max_size).
Proof.
  intros Hpos. repeat split.
  - intros c Hc. destruct (ec_set_succeeds T V c) as [c' Hset]; [lia|].
    exists c'. split; [exact Hset|]. intros texts.
    rewrite ec_get_result, ec_gets_keep, <- ec_get_result.
    eapply ec_set_then_get; eauto.
  - intros c oldest v0 rest Hc Hst Hfull. unfold EmbeddingCache.set.
    assert ((Z.of_nat (PyDict.len (stored c)) >=? capacity c) = true) as ->
      by (rewrite Z.geb_leb; apply Z.leb_le; lia).
    rewrite Hst. simpl. rewrite String.eqb_refl. eauto.
  - intros entries Hnd Hlen.
    unfold ec_store_all. rewrite map_app. unfold EmbeddingCache.run.
    rewrite fold_left_app. simpl.
    rewrite map_app in Hnd. simpl in Hnd.
    destruct (ec_fill entries (ec_init max_size)) as [Hst Hcap].
    { simpl. now apply NoDup_app in Hnd as (? & _). }
    { simpl. lia. }
    unfold ec_store_all, EmbeddingCache.run in Hst, Hcap. simpl in Hst, Hcap.
    unfold EmbeddingCache.set. rewrite Hcap, Hst.
    assert ((Z.of_nat (PyDict.len (map ec_entry entries)) >=? max_size) = true) as ->.
    { rewrite Z.geb_leb. apply Z.leb_le. unfold PyDict.len. rewrite length_map. lia. }
    destruct entries as [|[t0 e0] entries]; [simpl in Hlen; lia|].
    simpl. rewrite String.eqb_refl.
    simpl in Hnd. apply NoDup_cons in Hnd as [Hfirst Hrest].
    rewrite dict_pop_absent.
    + apply dict_set_absent. apply dict_get_none_keys.
      unfold PyDict.keys. rewrite map_map. simpl.
      apply NoDup_app in Hrest as (_ & Hdisj & _). intros Hin.
      apply (Hdisj (key_of T)); [now apply list_elem_of_In|left].
    + apply dict_get_none_keys. unfold PyDict.keys. rewrite map_map. simpl.
      intros Hin. apply Hfirst. apply list_elem_of_In, in_or_app. now left.
  - intros ops. apply (ec_run_bound ops (ec_init max_size)). simpl. lia.
Qed.

End EmbeddingCacheFacts.

Lemma embedding_cache_correct_witness :
  0 < 3 /\
  Z.of_nat (PyDict.len (EmbeddingCache._cache
    (EmbeddingCache.run (fun s => s)
       [EmbeddingCache.OpSet "msg1" 1%nat; EmbeddingCache.OpSet "msg2" 2%nat;
        EmbeddingCache.OpSet "msg3" 3%nat; EmbeddingCache.OpSet "msg4" 4%nat]
       (EmbeddingCache.init 3)))) <= 3.
Proof.
  split; [lia|].
  destruct (embedding_cache_correct (fun s => s) 3 "msg4" 4%nat) as (_ & _ & _ & _ & H);
    [lia|].
  apply H.
Defined.

(** ** UserStatsCache *)

Section UserStatsCacheFacts.
Context {Stats : Type}.
Implicit Types (c : @UserStatsCache.t Stats) (d : PyDict.t (Stats * Z)).

Lemma ttl_make_room_absent k maxsize d :
  PyDict.get k d = None -> PyDict.get k (TTLCache.make_room maxsize d) = None.
Proof.
  induction d as [|[k0 v0] d IH]; [auto|].
  intros H. cbn [TTLCache.make_room].
  destruct (_ >? _); [|exact H].
  apply IH. simpl in H. now destruct (String.eqb k k0).
Qed.

Lemma ttl_set_links user_name stats time c c1 :
  UserStatsCache.set user_name stats time c = Some c1 ->
  PyDict.get user_name (TTLCache.links c1) = Some (stats, time + TTLCache.ttl c) /\
  TTLCache.ttl c1 = TTLCache.ttl c.
Proof.
  unfold UserStatsCache.set, TTLCache.setitem.
  destruct (1 >? TTLCache.maxsize c); [discriminate|].
  intros H. inversion H; subst; clear H. simpl. split; [|reflexivity].
  rewrite dict_get_app_absent; [simpl; now rewrite String.eqb_refl|].
  unfold PyDict.contains.
  destruct (PyDict.get user_name (TTLCache.expire time (TTLCache.links c))) eqn:E.
  - apply dict_get_pop_eq.
  - now apply ttl_make_room_absent.
Qed.

Lemma ttl_get_keeps k time user_name (entry : Stats * Z) c :
  PyDict.get user_name (TTLCache.links c) = Some entry ->
  PyDict.get user_name (TTLCache.links (snd (UserStatsCache.get k time c))) = Some entry.
Proof.
  intros H. unfold UserStatsCache.get, TTLCache.get.
  destruct (PyDict.get k (TTLCache.links c)) as [[v expires]|] eqn:E; [|exact H].
  destruct (time <? expires); [|exact H]. simpl.
  destruct (String.eqb_spec k user_name) as [->|Hne].
  - rewrite dict_get_app_absent by apply dict_get_pop_eq.
    simpl. rewrite String.eqb_refl. congruence.
  - apply dict_get_app_present. now rewrite dict_get_pop_ne.
Qed.

Lemma ttl_reads_keep rs user_name (entry : Stats * Z) c :
  PyDict.get user_name (TTLCache.links c) = Some entry ->
  PyDict.get user_name (TTLCache.links (UserStatsCache.reads rs c)) = Some entry.
Proof.
  unfold UserStatsCache.reads.
  revert c. induction rs as [|[k time] rs IH]; intros c H; simpl; [exact H|].
  apply IH. now apply ttl_get_keeps.
Qed.

Lemma stats_cache_invalidate user_name time c :
  fst (UserStatsCache.get user_name time (UserStatsCache.invalidate user_name time c))
  = None.
Proof.
  unfold UserStatsCache.get, UserStatsCache.invalidate, TTLCache.get, TTLCache.pop.
  destruct (PyDict.get user_name (TTLCache.links c)) as [[v expires]|] eqn:E.
  - destruct (time <? expires) eqn:Ht; simpl.
    + now rewrite dict_get_pop_eq.
    + now rewrite E, Ht.
  - now rewrite E.
Qed.

(** C8 (stats cache).  An entry set for a user at time [t] in a cache with
    time-to-live [d] is what every [get] of that user at a time before
    [t + d] returns, and every [get] at [t + d] or later returns [None],
    whatever reads of whatever users at whatever times came in between. *)
Theorem stats_cache_ttl c c1 (user_name : string) (stats : Stats) (t : Z) :
  UserStatsCache.set user_name stats t c = Some c1 ->
  forall (rs : list (string * Z)) (t' : Z),
    (t' < t + TTLCache.ttl c ->
       fst (UserStatsCache.get user_name t' (UserStatsCache.reads rs c1)) = Some stats) /\
    (t + TTLCache.ttl c <= t' ->
       fst (UserStatsCache.get user_name t' (UserStatsCache.reads rs c1)) = None).
Proof.
  intros Hset rs t'.
  destruct (ttl_set_links _ _ _ _ _ Hset) as [Hl _].
  pose proof (ttl_reads_keep rs _ _ _ Hl) as Hr.
  unfold UserStatsCache.get, TTLCache.get. rewrite Hr.
  split; intros Ht.
  - assert ((t' <? t + TTLCache.ttl c) = true) as -> by (apply Z.ltb_lt; lia).
    reflexivity.
  - assert ((t' <? t + TTLCache.ttl c) = false) as -> by (apply Z.ltb_ge; lia).
    reflexivity.
Qed.

End UserStatsCacheFacts.

Lemma stats_cache_ttl_witness :
  UserStatsCache.set "user1" 10%nat 1000 (UserStatsCache.init 60 100)
  = Some (TTLCache.mk 100 60 [("user1", (10%nat, 1060))]) /\
  fst (UserStatsCache.get "user1" 1059
         (UserStatsCache.reads [("user2", 1001); ("user1", 1002)]
            (TTLCache.mk 100 60 [("user1", (10%nat, 1060))]))) = Some 10%nat.
Proof.
  split; [reflexivity|].
  apply (stats_cache_ttl (UserStatsCache.init 60 100) _ "user1" 10%nat 1000 eq_refl
           [("user2", 1001); ("user1", 1002)] 1059).
  reflexivity.
Defined.

(** ** ChatPersistence: flushing *)

Section FlushFacts.
Context {Embedding : Type}.

Local Abbreviation state := (@ChatPersistence.t Embedding).
Local Abbreviation row := (@ChatPersistence.Row Embedding).
Local Abbreviation flush_session := (@ChatPersistence.flush_session Embedding).
Local Abbreviation client := ChatPersistence.client.
Local Abbreviation write_buffer := ChatPersistence.write_buffer.
Local Abbreviation buffer_timestamps := ChatPersistence.buffer_timestamps.

(** What [flush_session] can do to the two buffer dictionaries: nothing, or
    remove the session from both. *)
Lemma flush_session_buffers io session_id (p : state) :
  let '(ok, p') := flush_session io session_id p in
  (write_buffer p' = write_buffer p /\ buffer_timestamps p' = buffer_timestamps p) \/
  (ok = true /\
   write_buffer p' = PyDict.pop session_id (write_buffer p) /\
   buffer_timestamps p' = PyDict.pop session_id (buffer_timestamps p)).
Proof.
  unfold ChatPersistence.flush_session.
  destruct (client p); [|auto].
  destruct (PyDict.get session_id (write_buffer p)) as [[|r data]|]; auto.
  destruct (_ && _); auto.
  destruct (ChatPersistence.insert_raises io); simpl; auto.
Qed.

(** C4, as the code has it.  Flushing a session whose list is absent or
    empty changes nothing in any configuration; it reports success when the
    storage client is available, and failure when it is not. *)
Theorem flush_session_nothing_to_flush io session_id (p : state) :
  PyDict.get session_id (write_buffer p) = None \/
  PyDict.get session_id (write_buffer p) = Some [] ->
  flush_session io session_id p =
    (match client p with Some _ => true | None => false end, p).
Proof.
  intros H. unfold ChatPersistence.flush_session.
  destruct (client p); [|reflexivity].
  destruct H as [-> | ->]; reflexivity.
Qed.

Lemma flush_session_goes_through session_id (q : state) rows r data :
  client q = Some rows ->
  PyDict.get session_id (write_buffer q) = Some (r :: data) ->
  let retry := flush_session (ChatPersistence.mkFlushIO false false) session_id q in
  fst retry = true
  /\ client (snd retry) = Some (rows ++ r :: data)
  /\ PyDict.get session_id (write_buffer (snd retry)) = None
  /\ PyDict.get session_id (buffer_timestamps (snd retry)) = None.
Proof.
  intros Hc Hb. unfold ChatPersistence.flush_session. rewrite Hc, Hb.
  rewrite andb_false_r. simpl. auto using dict_get_pop_eq.
Qed.

(** C5.  When the session has buffered records and the write of the batch
    fails (the insert raises, or loading the collection does before it), the
    flush reports failure, and the buffered lists, the creation timestamps and
    the stored rows are what they were; a later flush that goes through then
    writes exactly those records and clears the session. *)
Theorem flush_session_write_failure io session_id (p : state) rows r data :
  client p = Some rows ->
  PyDict.get session_id (write_buffer p) = Some (r :: data) ->
  (negb (ChatPersistence.collection_loaded p)
     && ChatPersistence.load_collection_raises io = true
   \/ ChatPersistence.insert_raises io = true) ->
  let p' := snd (flush_session io session_id p) in
  fst (flush_session io session_id p) = false
  /\ write_buffer p' = write_buffer p
  /\ buffer_timestamps p' = buffer_timestamps p
  /\ client p' = client p
  /\ (let retry := flush_session (ChatPersistence.mkFlushIO false false) session_id p' in
      fst retry = true
      /\ client (snd retry) = Some (rows ++ r :: data)
      /\ PyDict.get session_id (write_buffer (snd retry)) = None
      /\ PyDict.get session_id (buffer_timestamps (snd retry)) = None).
Proof.
  intros Hc Hb Hfail p'.
  assert (Hres :
    flush_session io session_id p = (false, p) \/
    flush_session io session_id p =
      (false, ChatPersistence.mk (client p) true (write_buffer p)
                (buffer_timestamps p) (ChatPersistence.embedding_cache p))).
  { unfold ChatPersistence.flush_session. rewrite Hc, Hb.
    destruct (negb (ChatPersistence.collection_loaded p)
              && ChatPersistence.load_collection_raises io); [now left|].
    destruct Hfail as [Hfail | Hfail]; [discriminate|]. rewrite Hfail. now right. }
  subst p'. destruct Hres as [-> | ->]; cbn [fst snd];
    (repeat (split; [reflexivity|]));
    apply flush_session_goes_through; assumption.
Qed.

End FlushFacts.

(** ** ChatPersistence: buffering *)

Section StoreFacts.
Variable md5_hexdigest : string -> string.
Context {Embedding : Type}.

Local Abbreviation state := (@ChatPersistence.t Embedding).
Local Abbreviation row := (@ChatPersistence.Row Embedding).
Local Abbreviation flush_session := (@ChatPersistence.flush_session Embedding).
Local Abbreviation store_conversation := (ChatPersistence.store_conversation md5_hexdigest).
Local Abbreviation cached_embedding := (ChatPersistence.cached_embedding md5_hexdigest).
Local Abbreviation buffer_row := (@ChatPersistence.buffer_row Embedding).
Local Abbreviation data_row := (@ChatPersistence.data_row Embedding).
Local Abbreviation buffered := (@ChatPersistence.buffered Embedding).
Local Abbreviation client := ChatPersistence.client.
Local Abbreviation write_buffer := ChatPersistence.write_buffer.
Local Abbreviation buffer_timestamps := ChatPersistence.buffer_timestamps.
Local Abbreviation BATCH_SIZE := ChatPersistence.BATCH_SIZE.

Lemma buffer_row_list io session_id (r : row) (p : state) :
  PyDict.get session_id (write_buffer (buffer_row io session_id r p))
  = Some (default [] (PyDict.get session_id (write_buffer p)) ++ [r]).
Proof.
  unfold ChatPersistence.buffer_row, PyDict.contains. simpl.
  rewrite dict_get_set_eq.
  destruct (PyDict.get session_id (write_buffer p)) eqn:E; simpl.
  - now rewrite E.
  - now rewrite dict_get_set_eq.
Qed.

Lemma buffer_row_other_list io session_id (r : row) (p : state) other :
  session_id <> other ->
  PyDict.get other (write_buffer (buffer_row io session_id r p))
  = PyDict.get other (write_buffer p).
Proof.
  intros Hne. unfold ChatPersistence.buffer_row, PyDict.contains. simpl.
  rewrite dict_get_set_ne by exact Hne.
  destruct (PyDict.get session_id (write_buffer p)); simpl; auto.
  now rewrite dict_get_set_ne.
Qed.

Lemma buffer_row_timestamp io session_id (r : row) (p : state) :
  PyDict.get session_id (buffer_timestamps (buffer_row io session_id r p))
  = match PyDict.get session_id (write_buffer p) with
    | Some _ => PyDict.get session_id (buffer_timestamps p)
    | None => Some (ChatPersistence.time_time io)
    end.
Proof.
  unfold ChatPersistence.buffer_row, PyDict.contains. simpl.
  destruct (PyDict.get session_id (write_buffer p)); simpl; auto.
  apply dict_get_set_eq.
Qed.

Lemma buffer_row_other_timestamp io session_id (r : row) (p : state) other :
  session_id <> other ->
  PyDict.get other (buffer_timestamps (buffer_row io session_id r p))
  = PyDict.get other (buffer_timestamps p).
Proof.
  intros Hne. unfold ChatPersistence.buffer_row, PyDict.contains. simpl.
  destruct (PyDict.get session_id (write_buffer p)); simpl; auto.
  now rewrite dict_get_set_ne.
Qed.

Lemma buffer_row_buffered io session_id (r : row) (p : state) :
  buffered session_id (buffer_row io session_id r p) = S (buffered session_id p).
Proof.
  unfold ChatPersistence.buffered. rewrite buffer_row_list. simpl.
  rewrite length_app. simpl. lia.
Qed.

(** A flush of a session that has records: it fails and keeps the buffers,
    or it goes through, writes the records and removes the session. *)
Lemma flush_session_nonempty io session_id (p : state) rows r data :
  client p = Some rows ->
  PyDict.get session_id (write_buffer p) = Some (r :: data) ->
  let res := flush_session io session_id p in
  if ChatPersistence.write_succeeds io p then
    fst res = true
    /\ client (snd res) = Some (rows ++ r :: data)
    /\ write_buffer (snd res) = PyDict.pop session_id (write_buffer p)
    /\ buffer_timestamps (snd res) = PyDict.pop session_id (buffer_timestamps p)
  else
    fst res = false
    /\ client (snd res) = Some rows
    /\ write_buffer (snd res) = write_buffer p
    /\ buffer_timestamps (snd res) = buffer_timestamps p.
Proof.
  intros Hc Hb. unfold ChatPersistence.flush_session, ChatPersistence.write_succeeds.
  rewrite Hc, Hb.
  destruct (ChatPersistence.collection_loaded p),
    (ChatPersistence.load_collection_raises io),
    (ChatPersistence.insert_raises io); simpl; auto.
Qed.

(** The three ways a call of [store_conversation] can go. *)
Lemma store_conversation_cases io un uid session_id um br intent (p : state) :
  let res := store_conversation io un uid session_id um br intent p in
  let text := String.append um (String.append " " br) in
  match client p with
  | None => res = (false, p)
  | Some rows =>
      match cached_embedding io text (ChatPersistence.embedding_cache p) with
      | (c1, None) => res = (false, ChatPersistence.with_cache c1 p)
      | (_, Some (e, c2)) =>
          let p1 := buffer_row io session_id
                      (data_row io e un uid session_id um br intent)
                      (ChatPersistence.with_cache c2 p) in
          res = if (BATCH_SIZE <=? S (buffered session_id p))%nat
                then flush_session (ChatPersistence.flush_io io) session_id p1
                else (true, p1)
      end
  end.
Proof.
  unfold ChatPersistence.store_conversation.
  destruct (client p); [|reflexivity].
  destruct (cached_embedding _ _ _) as [c1 [[e c2]|]]; [|reflexivity].
  cbv zeta. rewrite buffer_row_buffered. reflexivity.
Qed.

Lemma buffer_row_client io session_id (r : row) (p : state) :
  client (buffer_row io session_id r p) = client p /\
  ChatPersistence.collection_loaded (buffer_row io session_id r p)
  = ChatPersistence.collection_loaded p.
Proof. split; reflexivity. Qed.

(** The flush at the threshold, right after the row was appended. *)
Lemma flush_after_buffer_row io fio session_id (r : row) (q : state) rows :
  client q = Some rows ->
  let records := default [] (PyDict.get session_id (write_buffer q)) ++ [r] in
  let res := flush_session fio session_id (buffer_row io session_id r q) in
  if ChatPersistence.write_succeeds fio q then
    fst res = true
    /\ PyDict.get session_id (write_buffer (snd res)) = None
    /\ PyDict.get session_id (buffer_timestamps (snd res)) = None
    /\ client (snd res) = Some (rows ++ records)
  else
    fst res = false
    /\ PyDict.get session_id (write_buffer (snd res)) = Some records
    /\ buffered session_id (snd res) = S (buffered session_id q)
    /\ client (snd res) = Some rows.
Proof.
  intros Hc records res.
  pose proof (buffer_row_list io session_id r q) as Hl. fold records in Hl.
  pose proof (buffer_row_buffered io session_id r q) as Hn.
  assert (Hne : exists r0 data, records = r0 :: data).
  { subst records. destruct (default [] _); simpl; eauto. }
  destruct Hne as (r0 & data & Hrec). rewrite Hrec in Hl.
  pose proof (flush_session_nonempty fio session_id (buffer_row io session_id r q)
                rows r0 data Hc Hl) as Hf.
  cbv zeta in Hf. fold res in Hf.
  change (ChatPersistence.write_succeeds fio (buffer_row io session_id r q))
    with (ChatPersistence.write_succeeds fio q) in Hf.
  destruct (ChatPersistence.write_succeeds fio q).
  - destruct Hf as (Ht & Hcl & Hwb & Hts).
    rewrite Hwb, Hts, !dict_get_pop_eq, Hcl, Hrec. auto.
  - destruct Hf as (Hfalse & Hcl & Hwb & Hts).
    unfold ChatPersistence.buffered at 1. rewrite Hwb, Hl, Hrec.
    repeat split; auto.
    unfold ChatPersistence.buffered in Hn. rewrite Hl in Hn. exact Hn.
Qed.

(** C3, as the code has it.  After a call of [store_conversation] that
    reports success, the list buffered for the session is shorter than
    [BATCH_SIZE].  A call that brings the list to the threshold flushes it
    before it returns: when the write goes through, the call reports success,
    the session's list is gone and its records are in the collection; when
    the write fails, the call reports failure and the list, now at the
    threshold or above, stays buffered. *)
Theorem store_conversation_batch io un uid session_id um br intent (p : state) :
  let res := store_conversation io un uid session_id um br intent p in
  (fst res = true -> (buffered session_id (snd res) < BATCH_SIZE)%nat)
  /\ (forall rows c1 e c2,
        client p = Some rows ->
        cached_embedding io (String.append um (String.append " " br))
          (ChatPersistence.embedding_cache p) = (c1, Some (e, c2)) ->
        (BATCH_SIZE <= S (buffered session_id p))%nat ->
        let records := default [] (PyDict.get session_id (write_buffer p))
                       ++ [data_row io e un uid session_id um br intent] in
        if ChatPersistence.write_succeeds (ChatPersistence.flush_io io) p then
          fst res = true
          /\ PyDict.get session_id (write_buffer (snd res)) = None
          /\ PyDict.get session_id (buffer_timestamps (snd res)) = None
          /\ client (snd res) = Some (rows ++ records)
        else
          fst res = false
          /\ PyDict.get session_id (write_buffer (snd res)) = Some records
          /\ (BATCH_SIZE <= buffered session_id (snd res))%nat
          /\ client (snd res) = Some rows).
Proof.
  intros res.
  pose proof (store_conversation_cases io un uid session_id um br intent p) as Hcases.
  cbv zeta in Hcases. fold res in Hcases.
  split.
  - destruct (client p) as [rows|] eqn:Hc; [|rewrite Hcases; discriminate].
    destruct (cached_embedding _ _ _) as [c1 [[e c2]|]] eqn:He;
      [|rewrite Hcases; discriminate].
    destruct (Nat.leb_spec BATCH_SIZE (S (buffered session_id p))) as [Hge|Hlt].
    + pose proof (flush_after_buffer_row io (ChatPersistence.flush_io io) session_id
                    (data_row io e un uid session_id um br intent)
                    (ChatPersistence.with_cache c2 p) rows Hc) as Hf.
      cbv zeta in Hf. rewrite <- Hcases in Hf.
      destruct (ChatPersistence.write_succeeds _ _).
      * destruct Hf as (_ & Hwb & _). intros _.
        unfold ChatPersistence.buffered. rewrite Hwb. simpl.
        unfold ChatPersistence.BATCH_SIZE. lia.
      * destruct Hf as (Hfalse & _). congruence.
    + rewrite Hcases. intros _. cbn [snd]. rewrite buffer_row_buffered. exact Hlt.
  - intros rows c1 e c2 Hc He Hge records.
    rewrite Hc, He in Hcases.
    destruct (Nat.leb_spec BATCH_SIZE (S (buffered session_id p))) as [_|Hlt]; [|lia].
    pose proof (flush_after_buffer_row io (ChatPersistence.flush_io io) session_id
                  (data_row io e un uid session_id um br intent)
                  (ChatPersistence.with_cache c2 p) rows Hc) as Hf.
    cbv zeta in Hf. rewrite <- Hcases in Hf.
    change (ChatPersistence.write_succeeds (ChatPersistence.flush_io io)
              (ChatPersistence.with_cache c2 p))
      with (ChatPersistence.write_succeeds (ChatPersistence.flush_io io) p) in Hf.
    destruct (ChatPersistence.write_succeeds _ p).
    + exact Hf.
    + destruct Hf as (Hfalse & Hwb & Hn & Hcl). repeat split; auto.
      rewrite Hn. exact Hge.
Qed.

Lemma slice_to_length n s : (String.length (PyStr.slice_to n s) <= n)%nat.
Proof.
  revert s. induction n as [|n IH]; intros [|c s]; simpl; try lia.
  specialize (IH s). lia.
Qed.

Lemma slice_to_short n s :
  (String.length s <= n)%nat -> PyStr.slice_to n s = s.
Proof.
  revert s. induction n as [|n IH]; intros [|c s]; simpl; auto; [lia|].
  intros H. f_equal. apply IH. lia.
Qed.

Lemma slice_to_prefix n s : String.prefix (PyStr.slice_to n s) s = true.
Proof.
  revert s. induction n as [|n IH]; intros [|c s]; simpl; auto.
  destruct (ascii_dec c c); [apply IH|congruence].
Qed.

Lemma slice_to_is_cut n s : PyStr.is_cut n s (PyStr.slice_to n s).
Proof.
  split; [|apply slice_to_prefix].
  revert s. induction n as [|n IH]; intros [|c s]; simpl; auto.
Qed.

Lemma data_row_within_schema io e un uid session_id um br intent :
  ChatPersistence.within_schema (data_row io e un uid session_id um br intent) = true.
Proof.
  unfold ChatPersistence.within_schema, ChatPersistence.data_row.
  cbn [ChatPersistence.user_message ChatPersistence.bot_response
       ChatPersistence.user_name ChatPersistence.user_id
       ChatPersistence.session_id ChatPersistence.intent].
  repeat (apply andb_true_intro; split); apply Nat.leb_le, slice_to_length.
Qed.

(** C10.  The row [store_conversation] builds for a turn has its text fields
    cut to the bounds of the schema: message and response to 2000 characters,
    user name, user id and session id to 255, intent to 100.  Each field
    holds the first characters of what was passed in, as many as the bound
    allows: it is a prefix of the original and as long as the shorter of the
    bound and the original, so a text within the bound is kept whole.
    After the call every buffered row was buffered before or is that row,
    under the session of the call.  And an over-long turn is not turned
    away: once the client is there and the embedding was obtained, the cut
    row ends up last in the session's list or last in the collection. *)
Theorem store_conversation_truncates io un uid session_id um br intent (p : state) :
  let res := store_conversation io un uid session_id um br intent p in
  (forall e,
     let r := data_row io e un uid session_id um br intent in
     ChatPersistence.within_schema r = true
     /\ PyStr.is_cut 2000 um (ChatPersistence.user_message r)
     /\ PyStr.is_cut 2000 br (ChatPersistence.bot_response r)
     /\ PyStr.is_cut 255 un (ChatPersistence.user_name r)
     /\ PyStr.is_cut 255 uid (ChatPersistence.user_id r)
     /\ PyStr.is_cut 255 session_id (ChatPersistence.session_id r)
     /\ PyStr.is_cut 100 intent (ChatPersistence.intent r)
     /\ ((String.length um <= 2000)%nat -> ChatPersistence.user_message r = um)
     /\ ((String.length br <= 2000)%nat -> ChatPersistence.bot_response r = br))
  /\ (forall other rows' r,
        PyDict.get other (write_buffer (snd res)) = Some rows' -> In r rows' ->
        (exists rows, PyDict.get other (write_buffer p) = Some rows /\ In r rows)
        \/ (other = session_id /\
            exists e, r = data_row io e un uid session_id um br intent))
  /\ (forall rows c1 e c2,
        client p = Some rows ->
        cached_embedding io (String.append um (String.append " " br))
          (ChatPersistence.embedding_cache p) = (c1, Some (e, c2)) ->
        let r := data_row io e un uid session_id um br intent in
        (exists old, PyDict.get session_id (write_buffer (snd res)) = Some (old ++ [r]))
        \/ (exists stored, client (snd res) = Some (stored ++ [r]))).
Proof.
  intros res.
  pose proof (store_conversation_cases io un uid session_id um br intent p) as Hcases.
  cbv zeta in Hcases. fold res in Hcases.
  split; [|split].
  - intros e r. split; [apply data_row_within_schema|].
    repeat (split; [apply slice_to_is_cut|]). split; apply slice_to_short.
  - intros other rows' r Hget Hin.
    destruct (client p) as [rows|] eqn:Hc; [|rewrite Hcases in Hget; eauto].
    destruct (cached_embedding _ _ _) as [c1 [[e c2]|]] eqn:He;
      [|rewrite Hcases in Hget; eauto].
    set (r1 := data_row io e un uid session_id um br intent) in *.
    set (q := ChatPersistence.with_cache c2 p) in *.
    assert (Hp1 : forall rows1,
              PyDict.get other (write_buffer (buffer_row io session_id r1 q)) = Some rows1 ->
              In r rows1 ->
              (exists rows, PyDict.get other (write_buffer p) = Some rows /\ In r rows)
              \/ (other = session_id /\ exists e, r = data_row io e un uid session_id um br intent)).
    { intros rows1 H1 Hin1. destruct (String.eqb_spec session_id other) as [<-|Hne].
      - rewrite buffer_row_list in H1. inversion H1; subst rows1; clear H1.
        apply in_app_or in Hin1 as [Hold|[<-|[]]]; [left|right; eauto].
        change (write_buffer q) with (write_buffer p) in Hold.
        destruct (PyDict.get session_id (write_buffer p)); [eauto|destruct Hold].
      - rewrite buffer_row_other_list in H1 by exact Hne. left. eauto. }
    destruct (BATCH_SIZE <=? S (buffered session_id p))%nat.
    + pose proof (flush_session_buffers (ChatPersistence.flush_io io) session_id
                    (buffer_row io session_id r1 q)) as Hf.
      rewrite <- Hcases in Hf. destruct res as [ok p'].
      cbn [snd] in Hget.
      destruct Hf as [[Hwb _]|(_ & Hwb & _)]; rewrite Hwb in Hget.
      * eapply Hp1; eauto.
      * destruct (String.eqb_spec session_id other) as [<-|Hne].
        -- rewrite dict_get_pop_eq in Hget. discriminate.
        -- rewrite dict_get_pop_ne in Hget by exact Hne. eapply Hp1; eauto.
    + rewrite Hcases in Hget. eapply Hp1; eauto.
  - intros rows c1 e c2 Hc He r. rewrite Hc, He in Hcases.
    fold r in Hcases.
    destruct (BATCH_SIZE <=? S (buffered session_id p))%nat.
    + pose proof (flush_after_buffer_row io (ChatPersistence.flush_io io) session_id r
                    (ChatPersistence.with_cache c2 p) rows Hc) as Hf.
      cbv zeta in Hf. rewrite <- Hcases in Hf.
      destruct (ChatPersistence.write_succeeds _ _).
      * right. destruct Hf as (_ & _ & _ & Hcl). rewrite Hcl, app_assoc. eauto.
      * left. destruct Hf as (_ & Hwb & _). eauto.
    + left. rewrite Hcases. cbn [snd]. rewrite buffer_row_list. eauto.
Qed.

End StoreFacts.

(** ** ChatPersistence: the two buffer dictionaries stay in step *)

Section AgreeFacts.
Variable md5_hexdigest : string -> string.
Context {Embedding : Type}.

Local Abbreviation state := (@ChatPersistence.t Embedding).
Local Abbreviation flush_session := (@ChatPersistence.flush_session Embedding).
Local Abbreviation write_buffer := ChatPersistence.write_buffer.
Local Abbreviation buffer_timestamps := ChatPersistence.buffer_timestamps.
Local Abbreviation buffers_agree := (@ChatPersistence.buffers_agree Embedding).

Lemma buffers_agree_init client loaded cache_size :
  buffers_agree (ChatPersistence.init client loaded cache_size).
Proof. intros sid. simpl. split; [split; auto|discriminate]. Qed.

Lemma buffers_agree_pop session_id (p p' : state) :
  buffers_agree p ->
  write_buffer p' = PyDict.pop session_id (write_buffer p) ->
  buffer_timestamps p' = PyDict.pop session_id (buffer_timestamps p) ->
  buffers_agree p'.
Proof.
  intros Ha Hwb Hts other. rewrite Hwb, Hts.
  destruct (String.eqb_spec session_id other) as [<-|Hne].
  - rewrite !dict_get_pop_eq. split; [tauto|discriminate].
  - rewrite !dict_get_pop_ne by exact Hne. apply Ha.
Qed.

Lemma buffers_agree_same (p p' : state) :
  buffers_agree p ->
  write_buffer p' = write_buffer p ->
  buffer_timestamps p' = buffer_timestamps p ->
  buffers_agree p'.
Proof. intros Ha Hwb Hts other. rewrite Hwb, Hts. apply Ha. Qed.

Lemma flush_session_agree io session_id (p : state) :
  buffers_agree p -> buffers_agree (snd (flush_session io session_id p)).
Proof.
  intros Ha. pose proof (flush_session_buffers io session_id p) as Hf.
  destruct (flush_session io session_id p) as [ok p']. cbn [snd].
  destruct Hf as [[Hwb Hts]|(_ & Hwb & Hts)].
  - eapply buffers_agree_same; eauto.
  - eapply buffers_agree_pop; eauto.
Qed.

Lemma buffer_row_agree io session_id r (p : state) :
  buffers_agree p -> buffers_agree (ChatPersistence.buffer_row io session_id r p).
Proof.
  intros Ha other. destruct (String.eqb_spec session_id other) as [<-|Hne].
  - rewrite buffer_row_list, buffer_row_timestamp.
    assert (Hne : forall l : list (@ChatPersistence.Row Embedding), l ++ [r] <> [])
      by (intros []; discriminate).
    destruct (Ha session_id) as [Hiff _].
    destruct (PyDict.get session_id (write_buffer p)) eqn:E.
    + split; [|intros H; inversion H; eapply Hne; eauto].
      split; [intros H; apply Hiff in H; discriminate|discriminate].
    + split; [|intros H; inversion H; eapply Hne; eauto].
      split; discriminate.
  - rewrite buffer_row_other_list, buffer_row_other_timestamp by exact Hne. apply Ha.
Qed.

Lemma store_conversation_agree io un uid session_id um br intent (p : state) :
  buffers_agree p ->
  buffers_agree
    (snd (ChatPersistence.store_conversation md5_hexdigest io un uid session_id um br intent p)).
Proof.
  intros Ha.
  pose proof (store_conversation_cases md5_hexdigest io un uid session_id um br intent p)
    as Hcases.
  cbv zeta in Hcases.
  destruct (ChatPersistence.client p); [|now rewrite Hcases].
  destruct (ChatPersistence.cached_embedding _ _ _ _) as [c1 [[e c2]|]];
    [|now rewrite Hcases].
  rewrite Hcases.
  assert (Hb : buffers_agree
                 (ChatPersistence.buffer_row io session_id
                    (ChatPersistence.data_row io e un uid session_id um br intent)
                    (ChatPersistence.with_cache c2 p)))
    by (apply buffer_row_agree; exact Ha).
  destruct (_ <=? _)%nat; [now apply flush_session_agree|exact Hb].
Qed.

End AgreeFacts.

(** ** ChatPersistence: the sweep *)

Section SweepFacts.
Context {Embedding : Type}.
Variable BUFFER_TTL : Z.

Local Abbreviation state := (@ChatPersistence.t Embedding).
Local Abbreviation flush_session := (@ChatPersistence.flush_session Embedding).
Local Abbreviation cleanup_session := (@ChatPersistence.cleanup_session Embedding).
Local Abbreviation client := ChatPersistence.client.
Local Abbreviation write_buffer := ChatPersistence.write_buffer.
Local Abbreviation buffer_timestamps := ChatPersistence.buffer_timestamps.
Local Abbreviation buffers_agree := (@ChatPersistence.buffers_agree Embedding).

Local Abbreviation sweep_from io sessions p :=
  (fold_left (fun (p : state) session_id => cleanup_session (io session_id) session_id p)
     sessions p).

(** The body of the loop leaves other sessions alone. *)
Lemma cleanup_session_other io session_id other (p : state) :
  session_id <> other ->
  PyDict.get other (write_buffer (cleanup_session io session_id p))
    = PyDict.get other (write_buffer p) /\
  PyDict.get other (buffer_timestamps (cleanup_session io session_id p))
    = PyDict.get other (buffer_timestamps p).
Proof.
  intros Hne. unfold ChatPersistence.cleanup_session.
  pose proof (flush_session_buffers io session_id p) as Hf.
  destruct (flush_session io session_id p) as [ok p'].
  destruct Hf as [[Hwb Hts]|(-> & Hwb & Hts)].
  - destruct ok; simpl; rewrite ?Hwb, ?Hts, ?dict_get_pop_ne by exact Hne; auto.
  - rewrite Hwb, Hts, !dict_get_pop_ne by exact Hne. auto.
Qed.

(** After the body of the loop the session is in neither dictionary. *)
Lemma cleanup_session_removes io session_id (p : state) :
  buffers_agree p ->
  PyDict.get session_id (write_buffer (cleanup_session io session_id p)) = None /\
  PyDict.get session_id (buffer_timestamps (cleanup_session io session_id p)) = None.
Proof.
  intros Ha. unfold ChatPersistence.cleanup_session.
  destruct (PyDict.get session_id (write_buffer p)) as [[|r data]|] eqn:Hb.
  - destruct (Ha session_id) as [_ Hne]. congruence.
  - unfold ChatPersistence.flush_session. rewrite Hb.
    destruct (client p); [|simpl; now rewrite !dict_get_pop_eq].
    destruct (_ && _); [simpl; now rewrite !dict_get_pop_eq|].
    destruct (ChatPersistence.insert_raises io); simpl; now rewrite !dict_get_pop_eq.
  - unfold ChatPersistence.flush_session. rewrite Hb.
    destruct (client p); simpl; [|now rewrite !dict_get_pop_eq].
    split; [exact Hb|]. now apply (Ha session_id).
Qed.

Lemma cleanup_session_agree io session_id (p : state) :
  buffers_agree p -> buffers_agree (cleanup_session io session_id p).
Proof.
  intros Ha other. destruct (String.eqb_spec session_id other) as [<-|Hne].
  - destruct (cleanup_session_removes io session_id p Ha) as [-> ->].
    split; [tauto|discriminate].
  - destruct (cleanup_session_other io session_id other p Hne) as [-> ->]. apply Ha.
Qed.

(** The body of the loop only ever adds rows to the collection. *)
Lemma cleanup_session_client io session_id (p : state) rows :
  client p = Some rows ->
  exists extra, client (cleanup_session io session_id p) = Some (rows ++ extra).
Proof.
  intros Hc. unfold ChatPersistence.cleanup_session, ChatPersistence.flush_session.
  rewrite Hc.
  destruct (PyDict.get session_id (write_buffer p)) as [[|r data]|];
    try (exists []; simpl; now rewrite ?Hc, app_nil_r).
  destruct (_ && _); [exists []; simpl; now rewrite ?Hc, app_nil_r|].
  destruct (ChatPersistence.insert_raises io); simpl.
  - exists []. now rewrite ?Hc, app_nil_r.
  - eauto.
Qed.

Lemma sweep_from_client io sessions (p : state) rows :
  client p = Some rows ->
  exists extra, client (sweep_from io sessions p) = Some (rows ++ extra).
Proof.
  revert p rows. induction sessions as [|s sessions IH]; intros p rows Hc; simpl.
  - exists []. now rewrite app_nil_r.
  - destruct (cleanup_session_client (io s) s p rows Hc) as [extra1 H1].
    destruct (IH _ _ H1) as [extra2 H2]. exists (extra1 ++ extra2).
    now rewrite H2, app_assoc.
Qed.

Lemma sweep_from_agree io sessions (p : state) :
  buffers_agree p -> buffers_agree (sweep_from io sessions p).
Proof.
  revert p. induction sessions as [|s sessions IH]; intros p Ha; simpl; auto.
  apply IH. now apply cleanup_session_agree.
Qed.

(** A session the loop visits, or one that was in neither dictionary, is in
    neither dictionary after the loop. *)
Lemma sweep_from_removes io sessions (p : state) session_id :
  buffers_agree p ->
  In session_id sessions \/
  (PyDict.get session_id (write_buffer p) = None /\
   PyDict.get session_id (buffer_timestamps p) = None) ->
  PyDict.get session_id (write_buffer (sweep_from io sessions p)) = None /\
  PyDict.get session_id (buffer_timestamps (sweep_from io sessions p)) = None.
Proof.
  revert p. induction sessions as [|s sessions IH]; intros p Ha H; simpl.
  - destruct H as [[]|H]. exact H.
  - apply IH; [now apply cleanup_session_agree|].
    destruct (String.eqb_spec s session_id) as [->|Hne].
    + right. now apply cleanup_session_removes.
    + destruct H as [[Heq|Hin]|Habs]; [congruence|now left|right].
      destruct (cleanup_session_other (io s) s session_id p Hne) as [-> ->].
      exact Habs.
Qed.

Lemma stale_sessions_spec current_time (p : state) session_id ts :
  PyDict.get session_id (buffer_timestamps p) = Some ts ->
  current_time - ts > BUFFER_TTL ->
  In session_id (ChatPersistence.stale_sessions BUFFER_TTL current_time p).
Proof.
  intros Hget Hold. unfold ChatPersistence.stale_sessions.
  apply in_map_iff. exists (session_id, ts). split; [reflexivity|].
  apply filter_In. split; [|simpl; apply Z.gtb_lt; lia].
  clear Hold. induction (buffer_timestamps p) as [|[k v] d IH]; simpl in *; [discriminate|].
  destruct (String.eqb_spec session_id k) as [->|Hne]; [left; congruence|right; auto].
Qed.

Lemma cleanup_session_written io session_id (p : state) rows r data :
  client p = Some rows ->
  PyDict.get session_id (write_buffer p) = Some (r :: data) ->
  ChatPersistence.load_collection_raises io = false ->
  ChatPersistence.insert_raises io = false ->
  client (cleanup_session io session_id p) = Some (rows ++ r :: data).
Proof.
  intros Hc Hb Hload Hins.
  unfold ChatPersistence.cleanup_session, ChatPersistence.flush_session.
  rewrite Hc, Hb, Hload, Hins, andb_false_r. reflexivity.
Qed.

Lemma sweep_from_written io sessions (p : state) session_id rows data :
  buffers_agree p ->
  client p = Some rows ->
  In session_id sessions ->
  PyDict.get session_id (write_buffer p) = Some data ->
  ChatPersistence.load_collection_raises (io session_id) = false ->
  ChatPersistence.insert_raises (io session_id) = false ->
  exists before after,
    client (sweep_from io sessions p) = Some (before ++ data ++ after).
Proof.
  intros Ha Hc Hin Hb Hload Hins.
  revert p rows Ha Hc Hin Hb.
  induction sessions as [|s sessions IH]; intros p rows Ha Hc Hin Hb; [destruct Hin|].
  simpl. destruct (String.eqb_spec s session_id) as [->|Hne].
  - destruct data as [|r data]; [destruct (Ha session_id); congruence|].
    pose proof (cleanup_session_written _ _ _ _ _ _ Hc Hb Hload Hins) as Hw.
    destruct (sweep_from_client io sessions _ _ Hw) as [extra He].
    exists rows, extra. now rewrite He, <- app_assoc.
  - destruct Hin as [Heq|Hin]; [congruence|].
    destruct (cleanup_session_client (io s) s p rows Hc) as [extra1 H1].
    apply (IH _ _ (cleanup_session_agree (io s) s p Ha) H1 Hin).
    destruct (cleanup_session_other (io s) s session_id p Hne) as [-> _]. exact Hb.
Qed.

(** C9, as the code has it.  For a session whose buffer is older than the
    TTL when the sweep runs, the sweep flushes the session once.  When that
    write goes through, the session's records are in the collection; when it
    fails, this one failure is enough for the sweep to drop the list and the
    timestamp.  Either way the session is in neither dictionary when the
    sweep is over, so no session older than the TTL stays buffered. *)
Theorem cleanup_stale_buffers_sweeps io current_time (p : state) session_id ts :
  buffers_agree p ->
  PyDict.get session_id (buffer_timestamps p) = Some ts ->
  current_time - ts > BUFFER_TTL ->
  let p' := ChatPersistence.cleanup_stale_buffers BUFFER_TTL io current_time p in
  PyDict.get session_id (write_buffer p') = None
  /\ PyDict.get session_id (buffer_timestamps p') = None
  /\ (forall rows data,
        client p = Some rows ->
        PyDict.get session_id (write_buffer p) = Some data ->
        ChatPersistence.load_collection_raises (io session_id) = false ->
        ChatPersistence.insert_raises (io session_id) = false ->
        exists before after, client p' = Some (before ++ data ++ after))
  /\ (fst (flush_session (io session_id) session_id p) = false ->
        cleanup_session (io session_id) session_id p
        = ChatPersistence.with_buffers
            (PyDict.pop session_id (write_buffer p))
            (PyDict.pop session_id (buffer_timestamps p))
            (snd (flush_session (io session_id) session_id p)))
  /\ buffers_agree p'.
Proof.
  intros Ha Hts Hold p'.
  pose proof (stale_sessions_spec current_time p session_id ts Hts Hold) as Hin.
  assert (Hp' : p' = sweep_from io (ChatPersistence.stale_sessions BUFFER_TTL current_time p) p).
  { subst p'. unfold ChatPersistence.cleanup_stale_buffers.
    destruct (buffer_timestamps p); [discriminate|reflexivity]. }
  rewrite Hp'.
  destruct (sweep_from_removes io _ p session_id Ha (or_introl Hin)) as [Hwb Htm].
  split; [exact Hwb|]. split; [exact Htm|]. split; [|split].
  - intros rows data Hc Hb Hload Hins. eapply sweep_from_written; eauto.
  - intros Hfail. unfold ChatPersistence.cleanup_session.
    pose proof (flush_session_buffers (io session_id) session_id p) as Hf.
    destruct (flush_session (io session_id) session_id p) as [ok q].
    simpl in Hfail. subst ok. cbn [snd].
    destruct Hf as [[-> ->]|(Hok & _)]; [reflexivity|discriminate].
  - apply sweep_from_agree. exact Ha.
Qed.

End SweepFacts.

(** ** Strings *)

Lemma rstrip_cons c s :
  PyStr.rstrip (String c s)
  = if String.eqb (PyStr.rstrip s) "" && PyStr.isspace c then ""
    else String c (PyStr.rstrip s).
Proof.
  simpl. destruct (PyStr.rstrip s); simpl; [|reflexivity].
  now destruct (PyStr.isspace c).
Qed.

(** Stripping the right end does not change whether a string starts with a
    word that has no white space in it. *)
Lemma prefix_rstrip needle s :
  PyStr.no_space needle = true ->
  String.prefix needle (PyStr.rstrip s) = String.prefix needle s.
Proof.
  revert needle. induction s as [|c s IH]; intros needle Hn; [reflexivity|].
  destruct needle as [|a needle]; [now destruct (PyStr.rstrip (String c s))|].
  simpl in Hn. apply andb_true_iff in Hn as [Ha Hn]. apply negb_true_iff in Ha.
  rewrite rstrip_cons.
  destruct (String.eqb (PyStr.rstrip s) "" && PyStr.isspace c) eqn:E.
  - apply andb_true_iff in E as [_ Hc]. simpl.
    destruct (ascii_dec a c) as [->|]; [congruence|reflexivity].
  - simpl. destruct (ascii_dec a c); [now apply IH|reflexivity].
Qed.

Lemma contains_unfold needle s :
  PyStr.contains needle s
  = String.prefix needle s ||
    match s with
    | EmptyString => false
    | String _ s' => PyStr.contains needle s'
    end.
Proof. now destruct s. Qed.

Lemma contains_rstrip needle s :
  PyStr.no_space needle = true ->
  PyStr.contains needle (PyStr.rstrip s) = PyStr.contains needle s.
Proof.
  intros Hn. induction s as [|c s IH]; [reflexivity|].
  rewrite (contains_unfold needle (String c s)), <- IH.
  rewrite <- (prefix_rstrip needle (String c s) Hn), rstrip_cons.
  destruct (String.eqb_spec (PyStr.rstrip s) "") as [->|Hne]; simpl.
  - destruct (PyStr.isspace c); simpl.
    + now destruct needle.
    + reflexivity.
  - reflexivity.
Qed.

Lemma contains_lstrip a needle s :
  PyStr.isspace a = false ->
  PyStr.contains (String a needle) (PyStr.lstrip s) = PyStr.contains (String a needle) s.
Proof.
  intros Ha. induction s as [|c s IH]; [reflexivity|].
  cbn [PyStr.lstrip]. destruct (PyStr.isspace c) eqn:Hc; [|reflexivity].
  rewrite IH, (contains_unfold _ (String c s)). simpl.
  destruct (ascii_dec a c) as [->|]; [congruence|reflexivity].
Qed.

(** [strip] does not change whether a word without white space occurs. *)
Lemma contains_strip a needle s :
  PyStr.no_space (String a needle) = true ->
  PyStr.contains (String a needle) (PyStr.strip s) = PyStr.contains (String a needle) s.
Proof.
  intros Hn. unfold PyStr.strip. rewrite contains_rstrip by exact Hn.
  apply contains_lstrip. simpl in Hn. apply andb_true_iff in Hn as [Ha _].
  now apply negb_true_iff in Ha.
Qed.

(** ** The supervisor *)

(** C6, as the code has it.  Whatever the two requests do, a decision that
    leaves the supervisor is one of [BookingAgent], [SupportAgent] and
    [FINISH].  When the structured request fails and the free-text request
    returns, its text is searched for [BookingAgent], then for
    [SupportAgent] (stripping the text first changes nothing for these
    names), and the decision is [FINISH] when neither occurs.  The free-text
    request is made outside any handler: when it raises as well, there is no
    decision and its exception leaves the supervisor. *)
Theorem supervisor_node_decision
    (structured : Router.outcome Router.RouteResponse)
    (fallback : Router.outcome string) (exn : string) :
  match Router.supervisor_node structured fallback with
  | Router.Returned next_agent => In next_agent Router.decisions
  | Router.Raised e =>
      (exists e0, structured = Router.Raised e0) /\ fallback = Router.Raised e
  end
  /\ match fallback with
     | Router.Returned text =>
         Router.supervisor_node (Router.Raised exn) fallback
         = Router.Returned
             (if PyStr.contains "BookingAgent" text then "BookingAgent"
              else if PyStr.contains "SupportAgent" text then "SupportAgent"
              else "FINISH")
     | Router.Raised e =>
         Router.supervisor_node (Router.Raised exn) fallback = Router.Raised e
     end.
Proof.
  split.
  - destruct structured as [[]|e0]; simpl; auto.
    destruct fallback as [text|e]; simpl; [|eauto].
    destruct (PyStr.contains "BookingAgent" _); simpl; auto.
    destruct (PyStr.contains "SupportAgent" _); simpl; auto.
  - destruct fallback as [text|e]; [|reflexivity].
    cbn [Router.supervisor_node].
    rewrite !contains_strip by reflexivity.
    destruct (PyStr.contains "BookingAgent" text); [reflexivity|].
    destruct (PyStr.contains "SupportAgent" text); reflexivity.
Qed.

(** The claim that the fallback always ends in a decision fails when the
    service is down for both requests. *)
Lemma supervisor_node_outage_counterexample :
  Router.supervisor_node (Router.Raised "503 Service Unavailable")
    (Router.Raised "503 Service Unavailable")
  = Router.Raised "503 Service Unavailable"
  /\ ~ (exists next_agent,
         Router.supervisor_node (Router.Raised "503 Service Unavailable")
           (Router.Raised "503 Service Unavailable")
         = Router.Returned next_agent).
Proof. split; [reflexivity|]. intros [d H]. discriminate. Qed.

Example supervisor_fallback_picks_support :
  Router.supervisor_node (Router.Raised "validation error")
    (Router.Returned "  The next worker is SupportAgent.  ")
  = Router.Returned "SupportAgent".
Proof. reflexivity. Qed.

Example supervisor_fallback_unparseable :
  Router.supervisor_node (Router.Raised "validation error")
    (Router.Returned "I am not sure.") = Router.Returned "FINISH".
Proof. reflexivity. Qed.

(** ** Streaming *)

Section StreamingFacts.
Import Streaming.

Local Abbreviation process := process_user_message_with_context_streaming.
Local Abbreviation nonterminal := (fun c : Chunk => negb (is_terminal c)).

Lemma on_event_chunks e c :
  In c (on_event e) ->
  is_terminal c = false /\ (type c = "token" \/ type c = "intent").
Proof.
  unfold on_event.
  destruct (String.eqb (event e) "on_chat_model_stream").
  - destruct (chunk_content e) as [s|]; [|intros []].
    destruct (String.eqb s ""); [intros []|]. intros [<-|[]]. auto.
  - destruct (String.eqb (event e) "on_tool_start"); [|intros []].
    destruct (name e) as [s|]; [|intros []].
    destruct (String.eqb s ""); [intros []|].
    destruct (_ || _); [intros []|]. intros [<-|[]]. auto.
Qed.

Lemma on_event_nonterminal e : forallb nonterminal (on_event e) = true.
Proof.
  apply forallb_forall. intros c Hin.
  destruct (on_event_chunks e c Hin) as [-> _]. reflexivity.
Qed.

(** The generator, driven to its end, yields token and intent chunks and
    then ends with a terminal chunk; after an error it yields [done] too. *)
Lemma process_shape cancel_flag r script :
  exists body last,
    process cancel_flag r script = body ++ [last]
    /\ is_terminal last = true
    /\ (forall c, In c body ->
          (type c = "token" \/ type c = "intent") \/ type c = "error").
Proof.
  revert r. induction script as [|a script IH]; intros r.
  - exists [], (mkChunk "done" ""). simpl. repeat split; auto. intros c [].
  - destruct a as [e|exn|sid]; simpl.
    + destruct (is_set cancel_flag r).
      * exists [], (mkChunk "cancelled" "Stream cancelled"). repeat split; auto.
        intros c [].
      * destruct (IH r) as (body & last & -> & Hlast & Hbody).
        exists (on_event e ++ body), last. rewrite app_assoc.
        repeat split; auto. intros c Hin. apply in_app_or in Hin as [Hin|Hin]; auto.
        left. now apply (on_event_chunks e c).
    + exists [mkChunk "error" exn], (mkChunk "done" ""). repeat split; auto.
      intros c [<-|[]]. auto.
    + apply IH.
Qed.

Lemma process_has_terminal cancel_flag r script :
  existsb is_terminal (process cancel_flag r script) = true.
Proof.
  destruct (process_shape cancel_flag r script) as (body & last & -> & Hlast & _).
  rewrite existsb_app. simpl. rewrite Hlast. now rewrite orb_true_r.
Qed.

(** The wrapper cuts a stream that has a terminal chunk right after the
    first one, or replaces a chunk it cannot serialise by its own error. *)
Lemma sse_streamer_shape dumps_raises gen :
  existsb is_terminal gen = true ->
  exists body last,
    sse_streamer dumps_raises gen = body ++ [last]
    /\ is_terminal last = true
    /\ forallb nonterminal body = true
    /\ (exists rest, gen = body ++ rest).
Proof.
  induction gen as [|c gen IH]; simpl; [discriminate|]. intros H.
  destruct (dumps_raises c).
  - exists [], (mkChunk "error" "Internal streaming error"). simpl. eauto.
  - destruct (is_terminal c) eqn:Hc.
    + exists [], c. simpl. eauto.
    + simpl in H. destruct (IH H) as (body & last & -> & Hlast & Hbody & rest & Hrest).
      exists (c :: body), last. simpl. rewrite Hc, Hbody. simpl.
      repeat split; auto. exists rest. now rewrite Hrest at 1.
Qed.

(** When the graph raises, the generator yields [error] and, if it is
    resumed, [done]; the wrapper stops at [error] and does not resume it. *)
Lemma generator_error_then_done cancel_flag r exn rest :
  process cancel_flag r (Raise exn :: rest) = [mkChunk "error" exn; mkChunk "done" ""]
  /\ turn (fun _ => false) cancel_flag r (Raise exn :: rest) = [mkChunk "error" exn].
Proof. split; reflexivity. Qed.

(** C1.  The frames of a turn that reach the transport layer are token and
    intent frames followed by exactly one terminal frame ([done],
    [cancelled] or [error]), which is the last frame: nothing follows it.
    This holds for every run of the graph that ends (normally, by an
    exception or by cancellation), with or without a cancellation handle,
    whatever cancel requests arrive, and also when a chunk cannot be
    serialised. *)
Theorem turn_one_terminal (dumps_raises : Chunk -> bool) (cancel_flag : option nat)
    (r : Registry) (script : list Action) :
  exists body last,
    turn dumps_raises cancel_flag r script = body ++ [last]
    /\ is_terminal last = true
    /\ (forall c, In c body ->
          is_terminal c = false /\ (type c = "token" \/ type c = "intent"))
    /\ length (List.filter is_terminal (turn dumps_raises cancel_flag r script)) = 1%nat.
Proof.
  unfold turn.
  destruct (sse_streamer_shape dumps_raises (process cancel_flag r script)
              (process_has_terminal cancel_flag r script))
    as (body & last & Hout & Hlast & Hbody & rest & Hrest).
  exists body, last. rewrite Hout. split; [reflexivity|]. split; [exact Hlast|].
  assert (Hnt : forall c, In c body -> is_terminal c = false).
  { intros c Hin. rewrite forallb_forall in Hbody. specialize (Hbody c Hin).
    now apply negb_true_iff in Hbody. }
  split.
  - intros c Hin. split; [now apply Hnt|].
    destruct (process_shape cancel_flag r script) as (gbody & glast & Hg & Hglast & Hgb).
    assert (Hing : In c (gbody ++ [glast])).
    { rewrite <- Hg, Hrest. apply in_or_app. now left. }
    apply in_app_or in Hing as [Hing|[<-|[]]].
    + destruct (Hgb c Hing) as [H|H]; [exact H|].
      specialize (Hnt c Hin). unfold is_terminal in Hnt. rewrite H in Hnt.
      discriminate.
    + specialize (Hnt _ Hin). congruence.
  - rewrite List.filter_app. simpl. rewrite Hlast, length_app. simpl.
    assert (List.filter is_terminal body = []) as ->; [|reflexivity].
    clear -Hnt. induction body as [|c body IH]; simpl; auto.
    rewrite (Hnt c) by now left. apply IH. intros c' H. apply Hnt. now right.
Qed.

Lemma cancel_stream_streams session_id r :
  active_streams (fst (cancel_stream session_id r)) = active_streams r.
Proof. unfold cancel_stream. now destruct (active_streams r !! session_id). Qed.

(** A flag that is set stays set through any cancel request. *)
Lemma cancel_stream_keeps_set session_id l r :
  is_set (Some l) r = true -> is_set (Some l) (fst (cancel_stream session_id r)) = true.
Proof.
  unfold cancel_stream, is_set.
  destruct (active_streams r !! session_id) as [l'|]; simpl; auto.
  intros H. destruct (decide (l' = l)) as [->|Hne].
  - now rewrite lookup_insert_eq.
  - now rewrite lookup_insert_ne.
Qed.

Lemma cancel_stream_sets session_id l r :
  active_streams r !! session_id = Some l ->
  is_set (Some l) (fst (cancel_stream session_id r)) = true
  /\ snd (cancel_stream session_id r) = "cancelled".
Proof.
  intros H. unfold cancel_stream, is_set. rewrite H. simpl.
  now rewrite lookup_insert_eq.
Qed.

(** Once the flag is set, the next event the graph delivers ends the turn. *)
Lemma process_cancelled l r cancels e rest :
  is_set (Some l) r = true ->
  forallb is_cancel_request cancels = true ->
  process (Some l) r (cancels ++ Deliver e :: rest)
  = [mkChunk "cancelled" "Stream cancelled"].
Proof.
  revert r. induction cancels as [|a cancels IH]; intros r Hset Hc.
  - cbn [app process_user_message_with_context_streaming]. now rewrite Hset.
  - destruct a as [?|?|sid]; simpl in Hc; try discriminate.
    cbn [app process_user_message_with_context_streaming].
    apply IH; [now apply cancel_stream_keeps_set|exact Hc].
Qed.

(** The flag is only read when an event arrives: set after the last event
    of the graph, it changes nothing and the turn ends with [done]. *)
Lemma cancel_after_last_event l r cancels :
  forallb is_cancel_request cancels = true ->
  process (Some l) r cancels = [mkChunk "done" ""].
Proof.
  revert r. induction cancels as [|a cancels IH]; intros r Hc; [reflexivity|].
  destruct a as [?|?|sid]; simpl in Hc; try discriminate.
  cbn [process_user_message_with_context_streaming]. now apply IH.
Qed.

(** C2.  Take a turn that holds the handle registered for its session, at a
    point where the engine has consumed a prefix of the graph's events and is
    still in its loop (run on that prefix alone it would have yielded
    [tokens] and then [done]).  If a cancel request for the session is served
    there, before the graph delivers its next event, then on that event the
    stream yields [cancelled] right after [tokens] and ends: no token follows.
    The request itself reports [cancelled]. *)
Theorem cancel_before_next_event (l : nat) (session_id : string) (r : Registry)
    (pre cancels rest : list Action) (e : Event) (tokens : list Chunk) :
  active_streams r !! session_id = Some l ->
  forallb is_cancel_request cancels = true ->
  process (Some l) r pre = tokens ++ [mkChunk "done" ""] ->
  forallb nonterminal tokens = true ->
  process (Some l) r (pre ++ CancelRequest session_id :: cancels ++ Deliver e :: rest)
  = tokens ++ [mkChunk "cancelled" "Stream cancelled"]
  /\ turn (fun _ => false) (Some l) r
       (pre ++ CancelRequest session_id :: cancels ++ Deliver e :: rest)
     = tokens ++ [mkChunk "cancelled" "Stream cancelled"]
  /\ (forall r', snd (cancel_stream session_id
                      {| flags := flags r'; active_streams := active_streams r |})
                 = "cancelled").
Proof.
  intros Hreg Hcancels Hpre Htok.
  assert (Hmain :
    process (Some l) r (pre ++ CancelRequest session_id :: cancels ++ Deliver e :: rest)
    = tokens ++ [mkChunk "cancelled" "Stream cancelled"]).
  { revert r tokens Hreg Hpre Htok.
    induction pre as [|a pre IH]; intros r tokens Hreg Hpre Htok.
    - simpl in Hpre. destruct tokens as [|t [|t' tokens]]; try discriminate.
      simpl. apply process_cancelled; [|exact Hcancels].
      now apply cancel_stream_sets.
    - destruct a as [e0|exn|sid];
        cbn [app process_user_message_with_context_streaming] in *.
      + destruct (is_set (Some l) r).
        * destruct tokens as [|t [|t' tokens]]; discriminate.
        * destruct (process_shape (Some l) r pre) as (body & last & Hb & _ & _).
          rewrite Hb, app_assoc in Hpre. apply app_inj_tail in Hpre as [<- ->].
          rewrite forallb_app in Htok. apply andb_true_iff in Htok as [_ Htok].
          rewrite <- app_assoc. f_equal. now apply IH.
      + destruct tokens as [|t [|t' [|t'' tokens]]]; try discriminate.
        inversion Hpre; subst. discriminate.
      + apply IH; auto. now rewrite cancel_stream_streams. }
  split; [exact Hmain|]. split.
  - unfold turn. rewrite Hmain. clear -Htok.
    induction tokens as [|t tokens IH]; simpl in *; [reflexivity|].
    apply andb_true_iff in Htok as [Ht Htok]. apply negb_true_iff in Ht.
    rewrite Ht. f_equal. now apply IH.
  - intros r'. unfold cancel_stream. simpl. now rewrite Hreg.
Qed.

End StreamingFacts.

(** ** The registry of streams in flight *)

(** A stream that was just registered has a handle of its own, not set. *)
Lemma register_fresh_handle session_id (r : Streaming.Registry) :
  let '(l, r') := Streaming.register session_id r in
  Streaming.flags r !! l = None
  /\ Streaming.active_streams r' !! session_id = Some l
  /\ Streaming.is_set (Some l) r' = false.
Proof.
  unfold Streaming.register, Streaming.is_set. simpl.
  rewrite !lookup_insert_eq. repeat split.
  apply not_elem_of_dom, is_fresh.
Qed.

(** A cancel request for a session that is not registered, or not any
    more, reports [not_found] and sets nothing. *)
Lemma cancel_stream_not_found session_id (r : Streaming.Registry) :
  Streaming.active_streams r !! session_id = None ->
  Streaming.cancel_stream session_id r = (r, "not_found").
Proof. intros H. unfold Streaming.cancel_stream. now rewrite H. Qed.

Lemma cancel_stream_released session_id (r : Streaming.Registry) :
  Streaming.cancel_stream session_id (Streaming.release session_id r)
  = (Streaming.release session_id r, "not_found").
Proof. apply cancel_stream_not_found. simpl. apply lookup_delete_eq. Qed.

(** ** The scenarios *)

Lemma flush_session_nothing_to_flush_witness :
  ChatPersistence.flush_session (ChatPersistence.mkFlushIO false false) "s1" Scenario.started
  = (true, Scenario.started).
Proof.
  apply (flush_session_nothing_to_flush (ChatPersistence.mkFlushIO false false) "s1"
           Scenario.started).
  left. reflexivity.
Defined.

(** With the client unavailable the flush of a session that has nothing
    buffered reports failure, not success. *)
Lemma flush_session_unavailable_counterexample :
  PyDict.get "s1" (ChatPersistence.write_buffer Scenario.unavailable) = None
  /\ fst (ChatPersistence.flush_session (ChatPersistence.mkFlushIO false false) "s1"
            Scenario.unavailable) = false.
Proof. split; reflexivity. Qed.

Lemma flush_session_write_failure_witness :
  fst (ChatPersistence.flush_session (ChatPersistence.mkFlushIO false true) "s1"
         Scenario.one_buffered) = false
  /\ ChatPersistence.write_buffer
       (snd (ChatPersistence.flush_session (ChatPersistence.mkFlushIO false true) "s1"
               Scenario.one_buffered))
     = ChatPersistence.write_buffer Scenario.one_buffered.
Proof.
  pose proof (flush_session_write_failure (ChatPersistence.mkFlushIO false true) "s1"
                Scenario.one_buffered [] _ [] eq_refl eq_refl (or_intror eq_refl)) as H.
  cbv zeta in H. destruct H as (H1 & H2 & _). split; [exact H1|exact H2].
Defined.

Lemma store_conversation_batch_witness :
  (ChatPersistence.buffered "s1" (snd (Scenario.turn_of Scenario.all_well "s1" "m1"
                                          Scenario.started))
   < ChatPersistence.BATCH_SIZE)%nat
  /\ fst (Scenario.turn_of Scenario.all_well "s1" "m5" Scenario.four_buffered) = true
  /\ PyDict.get "s1" (ChatPersistence.write_buffer
       (snd (Scenario.turn_of Scenario.all_well "s1" "m5" Scenario.four_buffered))) = None.
Proof.
  split.
  - apply (proj1 (store_conversation_batch Scenario.digest Scenario.all_well
                    "Abhi" "user_abhi" "s1" "m1" "Sure." "general" Scenario.started)).
    reflexivity.
  - pose proof (proj2 (store_conversation_batch Scenario.digest Scenario.all_well
                         "Abhi" "user_abhi" "s1" "m5" "Sure." "general"
                         Scenario.four_buffered)
                  [] _ _ _ eq_refl eq_refl (le_n 5)) as H.
    cbv zeta in H. destruct H as (H1 & H2 & _). split; [exact H1|exact H2].
Defined.

(** Four records are buffered, the fifth brings the list to the threshold,
    the insert of the flush raises: the call returns [False] and leaves five
    records buffered, which is not fewer than [BATCH_SIZE]. *)
Lemma store_conversation_batch_counterexample :
  ChatPersistence.buffered "s1" Scenario.four_buffered = 4%nat
  /\ fst (Scenario.turn_of Scenario.insert_fails "s1" "m5" Scenario.four_buffered) = false
  /\ ChatPersistence.buffered "s1"
       (snd (Scenario.turn_of Scenario.insert_fails "s1" "m5" Scenario.four_buffered))
     = 5%nat
  /\ ~ (ChatPersistence.buffered "s1"
          (snd (Scenario.turn_of Scenario.insert_fails "s1" "m5" Scenario.four_buffered))
        < ChatPersistence.BATCH_SIZE)%nat.
Proof.
  assert (H : ChatPersistence.buffered "s1"
                (snd (Scenario.turn_of Scenario.insert_fails "s1" "m5"
                        Scenario.four_buffered)) = 5%nat) by reflexivity.
  repeat split; try reflexivity. rewrite H. unfold ChatPersistence.BATCH_SIZE. lia.
Qed.

Lemma store_conversation_truncates_witness :
  (exists old,
     PyDict.get "s1" (ChatPersistence.write_buffer
       (snd (Scenario.turn_of Scenario.all_well "s1" "m1" Scenario.started)))
     = Some (old ++ [ChatPersistence.data_row Scenario.all_well [1; 2; 3]
                       "Abhi" "user_abhi" "s1" "m1" "Sure." "general"]))
  \/ (exists stored,
       ChatPersistence.client
         (snd (Scenario.turn_of Scenario.all_well "s1" "m1" Scenario.started))
       = Some (stored ++ [ChatPersistence.data_row Scenario.all_well [1; 2; 3]
                            "Abhi" "user_abhi" "s1" "m1" "Sure." "general"])).
Proof.
  destruct (store_conversation_truncates Scenario.digest Scenario.all_well
              "Abhi" "user_abhi" "s1" "m1" "Sure." "general" Scenario.started)
    as (_ & _ & H).
  exact (H [] _ _ _ eq_refl eq_refl).
Defined.

Lemma cleanup_stale_buffers_sweeps_witness :
  PyDict.get "s1" (ChatPersistence.write_buffer
    (ChatPersistence.cleanup_stale_buffers 300
       (fun _ => ChatPersistence.mkFlushIO false false) 1000 Scenario.one_buffered)) = None
  /\ PyDict.get "s1" (ChatPersistence.buffer_timestamps
    (ChatPersistence.cleanup_stale_buffers 300
       (fun _ => ChatPersistence.mkFlushIO false false) 1000 Scenario.one_buffered)) = None.
Proof.
  assert (Ha : ChatPersistence.buffers_agree Scenario.one_buffered).
  { exact (store_conversation_agree Scenario.digest Scenario.all_well
             "Abhi" "user_abhi" "s1" "m1" "Sure." "general" Scenario.started
             (buffers_agree_init (Some []) true 1000)). }
  assert (Hold : 1000 - 100 > 300) by lia.
  pose proof (cleanup_stale_buffers_sweeps 300
                (fun _ => ChatPersistence.mkFlushIO false false) 1000
                Scenario.one_buffered "s1" 100 Ha eq_refl Hold) as H.
  cbv zeta in H. destruct H as (H1 & H2 & _). split; [exact H1|exact H2].
Defined.

(** One record is buffered since time 100, the sweep runs at time 1000 with
    a TTL of 300, and the insert of its one flush raises: the list and the
    timestamp are gone after this single failure, and nothing was stored. *)
Lemma cleanup_stale_buffers_single_failure_counterexample :
  ChatPersistence.buffered "s1" Scenario.one_buffered = 1%nat
  /\ fst (ChatPersistence.flush_session (ChatPersistence.mkFlushIO false true) "s1"
            Scenario.one_buffered) = false
  /\ PyDict.get "s1" (ChatPersistence.write_buffer
       (ChatPersistence.cleanup_stale_buffers 300
          (fun _ => ChatPersistence.mkFlushIO false true) 1000 Scenario.one_buffered)) = None
  /\ PyDict.get "s1" (ChatPersistence.buffer_timestamps
       (ChatPersistence.cleanup_stale_buffers 300
          (fun _ => ChatPersistence.mkFlushIO false true) 1000 Scenario.one_buffered)) = None
  /\ ChatPersistence.client
       (ChatPersistence.cleanup_stale_buffers 300
          (fun _ => ChatPersistence.mkFlushIO false true) 1000 Scenario.one_buffered)
     = Some [].
Proof. repeat split; reflexivity. Qed.

Lemma cancel_before_next_event_witness :
  Streaming.turn (fun _ => false) (Some 0%nat) Scenario.one_stream
    ([Streaming.Deliver (Scenario.token_event "Hel")]
     ++ Streaming.CancelRequest "sess-1"
        :: [] ++ Streaming.Deliver (Scenario.token_event "lo") :: [])
  = [Streaming.mkChunk "token" "Hel"]
    ++ [Streaming.mkChunk "cancelled" "Stream cancelled"].
Proof.
  apply (cancel_before_next_event 0 "sess-1" Scenario.one_stream
           [Streaming.Deliver (Scenario.token_event "Hel")] [] []
           (Scenario.token_event "lo") [Streaming.mkChunk "token" "Hel"]).
  - vm_compute. reflexivity.
  - reflexivity.
  - vm_compute. reflexivity.
  - reflexivity.
Defined.

(** ** The repository's cache tests, replayed on the model *)

(** [test_embedding_cache]: a miss, then a hit, counted as such. *)
Example test_embedding_cache :
  let c0 := @EmbeddingCache.init Scenario.vector 10 in
  let '(r1, c1) := EmbeddingCache.get Scenario.digest "test message" c0 in
  let c2 := EmbeddingCache.run Scenario.digest
              [EmbeddingCache.OpSet "test message" [1; 2; 3]] c1 in
  let '(r2, c3) := EmbeddingCache.get Scenario.digest "test message" c2 in
  r1 = None /\ r2 = Some [1; 2; 3]
  /\ EmbeddingCache._hits c3 = 1%nat /\ EmbeddingCache._misses c3 = 1%nat.
Proof. repeat split; reflexivity. Qed.

(** [test_embedding_cache_lru_eviction]: with room for three, the fourth
    text pushes out the first. *)
Example test_embedding_cache_lru_eviction :
  let c := EmbeddingCache.run Scenario.digest
             [EmbeddingCache.OpSet "msg1" [1]; EmbeddingCache.OpSet "msg2" [2];
              EmbeddingCache.OpSet "msg3" [3]; EmbeddingCache.OpSet "msg4" [4]]
             (@EmbeddingCache.init Scenario.vector 3) in
  fst (EmbeddingCache.get Scenario.digest "msg1" c) = None
  /\ fst (EmbeddingCache.get Scenario.digest "msg2" c) = Some [2]
  /\ fst (EmbeddingCache.get Scenario.digest "msg3" c) = Some [3]
  /\ fst (EmbeddingCache.get Scenario.digest "msg4" c) = Some [4].
Proof. repeat split; reflexivity. Qed.

(** A key that is stored again keeps its place in the order, and is still
    the first to go. *)
Example embedding_cache_update_keeps_position :
  EmbeddingCache._cache
    (EmbeddingCache.run Scenario.digest
       [EmbeddingCache.OpSet "a" [1]; EmbeddingCache.OpSet "b" [2];
        EmbeddingCache.OpSet "a" [3]; EmbeddingCache.OpSet "c" [4];
        EmbeddingCache.OpSet "d" [5]]
       (@EmbeddingCache.init Scenario.vector 3))
  = [("b", [2]); ("c", [4]); ("d", [5])].
Proof. reflexivity. Qed.

(** [test_user_stats_cache_ttl]: one second to live, read at once and read
    again after 1.1 seconds (the clock counts tenths of a second). *)
Example test_user_stats_cache_ttl :
  match UserStatsCache.set "user1" 10%nat 0 (UserStatsCache.init 10 10) with
  | Some c =>
      fst (UserStatsCache.get "user1" 0 c) = Some 10%nat
      /\ fst (UserStatsCache.get "user1" 11 (snd (UserStatsCache.get "user1" 0 c))) = None
  | None => False
  end.
Proof. split; reflexivity. Qed.

(** [test_persistence_embedding_cache_integration]: the same exchange in two
    sessions is embedded once; the second call finds the vector in the
    cache. *)
Example test_persistence_embedding_cache_integration :
  let p1 := snd (ChatPersistence.store_conversation Scenario.digest Scenario.all_well
                   "user1" "id1" "session1" "hello" "hi" "general" Scenario.started) in
  let p2 := snd (ChatPersistence.store_conversation Scenario.digest Scenario.all_well
                   "user1" "id1" "session2" "hello" "hi" "general" p1) in
  EmbeddingCache._hits (ChatPersistence.embedding_cache p2) = 1%nat
  /\ EmbeddingCache._misses (ChatPersistence.embedding_cache p2) = 1%nat
  /\ PyDict.keys (ChatPersistence.write_buffer p2) = ["session1"; "session2"].
Proof. repeat split; reflexivity. Qed.

(** * Further properties of the code *)

(** ** EmbeddingCache: the counters *)

Section EmbeddingCacheStats.
Variable md5_hexdigest : string -> string.
Context {Embedding : Type}.

Local Abbreviation cache := (@EmbeddingCache.t Embedding).

Lemma ec_get_counts text (c : cache) :
  let '(r, c') := EmbeddingCache.get md5_hexdigest text c in
  match r with
  | Some _ =>
      EmbeddingCache._hits c' = S (EmbeddingCache._hits c)
      /\ EmbeddingCache._misses c' = EmbeddingCache._misses c
  | None =>
      EmbeddingCache._hits c' = EmbeddingCache._hits c
      /\ EmbeddingCache._misses c' = S (EmbeddingCache._misses c)
  end.
Proof.
  unfold EmbeddingCache.get.
  destruct (PyDict.get _ (EmbeddingCache._cache c)); simpl; auto.
Qed.

Lemma ec_set_counts text e (c c' : cache) :
  EmbeddingCache.set md5_hexdigest text e c = Some c' ->
  EmbeddingCache._hits c' = EmbeddingCache._hits c
  /\ EmbeddingCache._misses c' = EmbeddingCache._misses c.
Proof.
  unfold EmbeddingCache.set.
  destruct (_ >=? _); [destruct (PyDict.first_key _)|]; intros H;
    inversion H; auto.
Qed.

(** X1.  The statistics account for every lookup: after any calls of [get]
    and [set] on a new cache, hits and misses add up to the number of [get]
    calls made ([set] counts as neither, also when it evicts or raises), and
    the reported size is the number of entries held. *)
Theorem embedding_cache_accounting (ops : list (@EmbeddingCache.op Embedding))
    (max_size : Z) :
  let stats :=
    EmbeddingCache.get_stats
      (EmbeddingCache.run md5_hexdigest ops (EmbeddingCache.init max_size)) in
  (EmbeddingCache.hits stats + EmbeddingCache.misses stats
   = EmbeddingCache.gets_in ops)%nat
  /\ EmbeddingCache.size stats
     = length (EmbeddingCache._cache
                 (EmbeddingCache.run md5_hexdigest ops (EmbeddingCache.init max_size)))
  /\ EmbeddingCache.stats_max_size stats = max_size.
Proof.
  assert (H : forall (c : cache),
    (EmbeddingCache._hits (EmbeddingCache.run md5_hexdigest ops c)
     + EmbeddingCache._misses (EmbeddingCache.run md5_hexdigest ops c)
     = EmbeddingCache._hits c + EmbeddingCache._misses c
       + EmbeddingCache.gets_in ops)%nat
    /\ EmbeddingCache.max_size (EmbeddingCache.run md5_hexdigest ops c)
       = EmbeddingCache.max_size c).
  { unfold EmbeddingCache.run, EmbeddingCache.gets_in.
    induction ops as [|o ops IH]; intros c; simpl; [split; [lia|reflexivity]|].
    destruct (IH (EmbeddingCache.apply md5_hexdigest o c)) as [-> ->].
    destruct o as [text|text e]; simpl.
    - pose proof (ec_get_counts text c) as Hc.
      unfold EmbeddingCache.get in *.
      destruct (PyDict.get _ (EmbeddingCache._cache c)); simpl in *; split; auto; lia.
    - destruct (EmbeddingCache.set md5_hexdigest text e c) as [c'|] eqn:E;
        [|split; [lia|reflexivity]].
      destruct (ec_set_counts _ _ _ _ E) as [-> ->].
      split; [lia|]. revert E. unfold EmbeddingCache.set.
      destruct (_ >=? _); [destruct (PyDict.first_key _)|]; intros H;
        inversion H; reflexivity. }
  destruct (H (EmbeddingCache.init max_size)) as [H1 H2].
  simpl. repeat split; auto.
Qed.

End EmbeddingCacheStats.

(** ** SystemMessageCache *)

Lemma contains_char_cons (a b : ascii) s :
  PyStr.contains (String a EmptyString) (String b s) = false ->
  a <> b /\ PyStr.contains (String a EmptyString) s = false.
Proof.
  rewrite contains_unfold. simpl.
  destruct (ascii_dec a b) as [->|Hne].
  - now destruct s.
  - intros H. split; [exact Hne|exact H].
Qed.

(** X2.  On a cache with a positive capacity [set] does not raise, the
    message is what the next [get] of the same user and context returns, and
    the [get] of any other key answers as before, unless that key was the
    oldest one of a full cache, which is the one entry [set] removes. *)
Theorem system_message_cache_set_get
    (user_name context_summary message : string) (c : SystemMessageCache.t) :
  0 < SystemMessageCache.max_size c ->
  exists c',
    SystemMessageCache.set user_name context_summary message c = Some c'
    /\ SystemMessageCache.get user_name context_summary c' = Some message
    /\ SystemMessageCache.max_size c' = SystemMessageCache.max_size c
    /\ forall other_user other_context,
         SystemMessageCache.key other_user other_context
           <> SystemMessageCache.key user_name context_summary ->
         (Z.of_nat (PyDict.len (SystemMessageCache._cache c))
            < SystemMessageCache.max_size c
          \/ PyDict.first_key (SystemMessageCache._cache c)
             <> Some (SystemMessageCache.key other_user other_context)) ->
         SystemMessageCache.get other_user other_context c'
         = SystemMessageCache.get other_user other_context c.
Proof.
  intros Hpos. unfold SystemMessageCache.set, SystemMessageCache.get.
  destruct (Z.geb_spec (Z.of_nat (PyDict.len (SystemMessageCache._cache c)))
              (SystemMessageCache.max_size c)) as [Hfull|Hroom].
  - destruct (SystemMessageCache._cache c) as [|[k0 v0] rest] eqn:E;
      [simpl in Hfull; lia|].
    eexists. split; [reflexivity|]. cbn [SystemMessageCache._cache SystemMessageCache.max_size].
    split; [apply dict_get_set_eq|]. split; [reflexivity|].
    intros ou oc Hne [Hlt|Hfirst]; [lia|].
    rewrite dict_get_set_ne by congruence.
    apply dict_get_pop_ne. simpl in Hfirst. congruence.
  - eexists. split; [reflexivity|]. cbn [SystemMessageCache._cache SystemMessageCache.max_size].
    split; [apply dict_get_set_eq|]. split; [reflexivity|].
    intros ou oc Hne _. apply dict_get_set_ne. congruence.
Qed.

Lemma system_message_cache_set_get_witness :
  exists c',
    SystemMessageCache.set "Abhi" "new session" "You are an assistant for Abhi"
      (SystemMessageCache.init 100) = Some c'
    /\ SystemMessageCache.get "Abhi" "new session" c'
       = Some "You are an assistant for Abhi".
Proof.
  destruct (system_message_cache_set_get "Abhi" "new session"
              "You are an assistant for Abhi" (SystemMessageCache.init 100))
    as (c' & H1 & H2 & _); [reflexivity|].
  exists c'. split; [exact H1|exact H2].
Defined.

(** X3.  The key joins user name and context with two colons.  For user
    names without a colon the key tells user and context apart: two calls
    share an entry only if both agree.  A user name with two colons in it
    gives that up: its entries are those of the shorter name with the rest
    moved into the context. *)
Theorem system_message_cache_key_injective (u1 c1 u2 c2 : string) :
  PyStr.contains ":" u1 = false ->
  PyStr.contains ":" u2 = false ->
  SystemMessageCache.key u1 c1 = SystemMessageCache.key u2 c2 ->
  u1 = u2 /\ c1 = c2.
Proof.
  unfold SystemMessageCache.key.
  revert u2. induction u1 as [|a u1 IH]; intros [|b u2] H1 H2 Heq; simpl in Heq.
  - inversion Heq. auto.
  - inversion Heq; subst. apply contains_char_cons in H2 as [Hne _]. congruence.
  - inversion Heq; subst. apply contains_char_cons in H1 as [Hne _]. congruence.
  - inversion Heq; subst.
    apply contains_char_cons in H1 as [_ H1]. apply contains_char_cons in H2 as [_ H2].
    destruct (IH u2 H1 H2 H3) as [-> ->]. auto.
Qed.

Lemma system_message_cache_key_injective_witness :
  "Abhi" = "Abhi" /\ "new session" = "new session".
Proof.
  apply (system_message_cache_key_injective "Abhi" "new session" "Abhi" "new session");
    reflexivity.
Defined.

(** X4.  Two different pairs of user and context can have one key: the user
    [u::a] with context [b] reads and overwrites the entry of user [u] with
    context [a::b]. *)
Theorem system_message_cache_key_collision (u a b message : string)
    (c c' : SystemMessageCache.t) :
  SystemMessageCache.set (String.append u (String.append "::" a)) b message c = Some c' ->
  SystemMessageCache.get u (String.append a (String.append "::" b)) c' = Some message.
Proof.
  assert (Hkey : SystemMessageCache.key (String.append u (String.append "::" a)) b
                 = SystemMessageCache.key u (String.append a (String.append "::" b))).
  { unfold SystemMessageCache.key. induction u as [|x u IH]; [reflexivity|].
    change (String x ((u +:+ "::" +:+ a) +:+ "::" +:+ b)
            = String x (u +:+ "::" +:+ a +:+ "::" +:+ b)).
    f_equal. exact IH. }
  unfold SystemMessageCache.set, SystemMessageCache.get. rewrite <- Hkey.
  destruct (_ >=? _); [destruct (PyDict.first_key _)|]; intros H;
    inversion H; simpl; apply dict_get_set_eq.
Qed.

Lemma system_message_cache_key_collision_witness :
  SystemMessageCache.get "eve" "x::ctx"
    {| SystemMessageCache._cache := [("eve::x::ctx", "prompt of eve::x")];
       SystemMessageCache.max_size := 100 |}
  = Some "prompt of eve::x".
Proof.
  apply (system_message_cache_key_collision "eve" "x" "ctx" "prompt of eve::x"
           (SystemMessageCache.init 100)).
  reflexivity.
Defined.

(** ** ChatPersistence: history and statistics *)

Lemma string_leb_trans a b c :
  String.leb a b = true -> String.leb b c = true -> String.leb a c = true.
Proof.
  intros H1 H2. apply Is_true_true.
  apply Is_true_true in H1, H2.
  change (String.le a c). transitivity b; assumption.
Qed.

Lemma string_leb_false a b : String.leb a b = false -> String.leb b a = true.
Proof. intros H. destruct (String.leb_total a b); congruence. Qed.

Lemma dict_set_sum k (v : nat) (d : PyDict.t nat) :
  (list_sum (map snd (PyDict.set k v d)) + default 0 (PyDict.get k d)
   = list_sum (map snd d) + v)%nat.
Proof.
  induction d as [|[k0 v0] d IH]; simpl; [lia|].
  destruct (String.eqb k k0); simpl; lia.
Qed.

Section HistoryFacts.
Context {Embedding : Type}.
Import ChatPersistence.

Local Abbreviation state := (@ChatPersistence.t Embedding).
Local Abbreviation key_le x y := (String.leb (timestamp_key x) (timestamp_key y) = true).
Local Abbreviation has_intent i :=
  (fun r : QueryRow => String.eqb (default "general" (q_intent r)) i).
Local Abbreviation has_key k :=
  (fun r : QueryRow => String.eqb (timestamp_key r) k).

Lemma count_intent_sum intents r :
  list_sum (map snd (count_intent intents r)) = S (list_sum (map snd intents)).
Proof.
  unfold count_intent.
  pose proof (dict_set_sum (default "general" (q_intent r))
                (default 0 (PyDict.get (default "general" (q_intent r)) intents) + 1)%nat
                intents).
  lia.
Qed.

Lemma count_intent_get intents r i :
  default 0%nat (PyDict.get i (count_intent intents r))
  = (default 0 (PyDict.get i intents) + if has_intent i r then 1 else 0)%nat.
Proof.
  unfold count_intent.
  destruct (String.eqb_spec (default "general" (q_intent r)) i) as [<-|Hne].
  - rewrite dict_get_set_eq. reflexivity.
  - rewrite dict_get_set_ne by exact Hne. simpl. lia.
Qed.

Lemma count_intents_fold results intents :
  list_sum (map snd (fold_left count_intent results intents))
    = (list_sum (map snd intents) + length results)%nat
  /\ (forall i, default 0%nat (PyDict.get i (fold_left count_intent results intents))
               = (default 0 (PyDict.get i intents)
                  + length (List.filter (has_intent i) results))%nat)
  /\ (NoDup (PyDict.keys intents) ->
      NoDup (PyDict.keys (fold_left count_intent results intents))).
Proof.
  revert intents. induction results as [|r results IH]; intros intents; simpl.
  - repeat split; auto; intros; lia.
  - destruct (IH (count_intent intents r)) as (H1 & H2 & H3).
    rewrite H1, count_intent_sum. split; [lia|]. split.
    + intros i. rewrite H2, count_intent_get.
      destruct (String.eqb _ i); simpl; lia.
    + intros Hnd. apply H3. unfold count_intent. now apply dict_set_nodup.
Qed.

(** X5.  [get_user_stats] returns the empty dictionary exactly when there is
    no client or the query raises.  Otherwise [total_turns] is the number of
    rows the query returned, the counts under [intents] add up to it, each
    intent is counted as often as it occurs (a row without intent counts as
    [general]), no intent is listed twice, and [last_active] is the
    timestamp of the last row, or [Never] when there is no row. *)
Theorem get_user_stats_counts (q : QueryOutcome) (p : state) :
  match get_user_stats q p with
  | NoStats => client p = None \/ q = QueryRaised
  | StatsOf total_turns intents last_active =>
      exists results,
        q = QueryReturned results
        /\ client p <> None
        /\ total_turns = length results
        /\ list_sum (map snd intents) = total_turns
        /\ (forall i, default 0%nat (PyDict.get i intents)
                      = length (List.filter (has_intent i) results))
        /\ NoDup (PyDict.keys intents)
        /\ last_active = match last results with
                         | Some r => q_timestamp r
                         | None => Some "Never"
                         end
  end.
Proof.
  unfold get_user_stats. destruct (client p) as [rows|]; [|now left].
  destruct q as [results|]; [|now right].
  destruct results as [|r results].
  - exists []. repeat split; auto. apply NoDup_nil_2.
  - exists (r :: results).
    destruct (count_intents_fold (r :: results) []) as (H1 & H2 & H3).
    repeat split; auto.
    apply H3, NoDup_nil_2.
Qed.

Lemma insert_by_timestamp_perm x l : Permutation (insert_by_timestamp x l) (x :: l).
Proof.
  induction l as [|y l IH]; simpl; [reflexivity|].
  destruct (String.leb _ _); [reflexivity|].
  rewrite IH. apply perm_swap.
Qed.

Lemma insert_by_timestamp_sorted x l :
  StronglySorted (fun a b => key_le a b) l ->
  StronglySorted (fun a b => key_le a b) (insert_by_timestamp x l).
Proof.
  induction 1 as [|y l Hs IH Hall]; simpl.
  - repeat constructor.
  - destruct (String.leb (timestamp_key x) (timestamp_key y)) eqn:E.
    + constructor; [now constructor|]. constructor; [exact E|].
      eapply List.Forall_impl; [|exact Hall]. intros z Hz. simpl in Hz.
      eapply string_leb_trans; eauto.
    + constructor; [exact IH|].
      apply (Permutation_Forall (Permutation_sym (insert_by_timestamp_perm x l))).
      constructor; [now apply string_leb_false|exact Hall].
Qed.

Lemma insert_by_timestamp_stable k x l :
  List.filter (has_key k) (insert_by_timestamp x l)
  = List.filter (has_key k) (x :: l).
Proof.
  induction l as [|y l IH]; [reflexivity|].
  cbn [insert_by_timestamp].
  destruct (String.leb (timestamp_key x) (timestamp_key y)) eqn:E; [reflexivity|].
  cbn [List.filter] in *. rewrite IH.
  destruct (String.eqb_spec (timestamp_key x) k) as [Hx|Hx]; [|reflexivity].
  destruct (String.eqb_spec (timestamp_key y) k) as [Hy|Hy]; [|reflexivity].
  exfalso. rewrite Hx, Hy in E.
  destruct (String.leb_total k k); congruence.
Qed.

(** X6.  [get_user_history] returns the rows of the query in ascending order
    of their timestamps (a row without one sorts as the empty string): the
    same rows, each as often as the query returned it, and rows with equal
    timestamps in the order the query returned them.  Without a client, and
    when the query raises, it returns the empty list. *)
Theorem get_user_history_sorted (q : QueryOutcome) (p : state) :
  StronglySorted (fun a b => key_le a b) (get_user_history q p)
  /\ match client p, q with
     | Some _, QueryReturned results =>
         Permutation (get_user_history q p) results
         /\ forall k, List.filter (has_key k) (get_user_history q p)
                      = List.filter (has_key k) results
     | _, _ => get_user_history q p = []
     end.
Proof.
  unfold get_user_history. destruct (client p) as [rows|]; [|split; [constructor|reflexivity]].
  destruct q as [results|]; [|split; [constructor|reflexivity]].
  unfold sorted_by_timestamp. induction results as [|r results (IH1 & IH2 & IH3)]; simpl.
  - repeat split; auto. constructor.
  - split; [now apply insert_by_timestamp_sorted|]. split.
    + rewrite insert_by_timestamp_perm. now constructor.
    + intros k. rewrite insert_by_timestamp_stable. cbn [List.filter].
      rewrite IH3. reflexivity.
Qed.

End HistoryFacts.

(** ** ChatPersistence: what every reachable state satisfies *)

Section DictSplit.
Context {V : Type}.
Implicit Types (d : PyDict.t V) (k : string) (v : V).

Lemma dict_get_split k v d :
  PyDict.get k d = Some v ->
  exists pre post, d = pre ++ (k, v) :: post /\ PyDict.get k pre = None.
Proof.
  induction d as [|[k0 v0] d IH]; simpl; [discriminate|].
  destruct (String.eqb_spec k k0) as [->|Hne].
  - intros H. inversion H; subst. exists [], d. auto.
  - intros H. destruct (IH H) as (pre & post & -> & Hpre).
    exists ((k0, v0) :: pre), post. split; [reflexivity|].
    simpl. apply String.eqb_neq in Hne. now rewrite Hne.
Qed.

Lemma dict_set_split k v v' pre post :
  PyDict.get k pre = None ->
  PyDict.set k v' (pre ++ (k, v) :: post) = pre ++ (k, v') :: post.
Proof.
  induction pre as [|[k0 v0] pre IH]; simpl.
  - now rewrite String.eqb_refl.
  - destruct (String.eqb k k0); [discriminate|]. intros H. now rewrite IH.
Qed.

Lemma dict_pop_split k v pre post :
  PyDict.get k pre = None ->
  ~ In k (PyDict.keys post) ->
  PyDict.pop k (pre ++ (k, v) :: post) = pre ++ post.
Proof.
  intros Hpre Hpost. induction pre as [|[k0 v0] pre IH]; simpl in *.
  - rewrite String.eqb_refl. apply dict_pop_absent. now apply dict_get_none_keys.
  - destruct (String.eqb k k0); [discriminate|]. now rewrite IH.
Qed.

Lemma dict_in_get k v d : In (k, v) d -> PyDict.get k d <> None.
Proof.
  intros Hin. rewrite dict_get_none_keys. intros Hn. apply Hn.
  apply in_map_iff. exists (k, v). auto.
Qed.

Lemma dict_in_get_unique k v d :
  NoDup (PyDict.keys d) -> In (k, v) d -> PyDict.get k d = Some v.
Proof.
  induction d as [|[k0 v0] d IH]; simpl; [intros _ []|].
  intros Hnd [Heq|Hin]; apply NoDup_cons in Hnd as [Hk Hd].
  - inversion Heq; subst. now rewrite String.eqb_refl.
  - destruct (String.eqb_spec k k0) as [->|Hne]; [|auto].
    exfalso. apply Hk. apply list_elem_of_In, in_map_iff. exists (k0, v). auto.
Qed.

Lemma dict_pop_incl k kv d : In kv (PyDict.pop k d) -> In kv d.
Proof.
  induction d as [|[k0 v0] d IH]; simpl; auto.
  destruct (String.eqb k k0); simpl; tauto.
Qed.

End DictSplit.

Section ReachableFacts.
Variable md5_hexdigest : string -> string.
Context {Embedding : Type}.
Variable BUFFER_TTL : Z.
Import ChatPersistence.

Local Abbreviation state := (@ChatPersistence.t Embedding).
Local Abbreviation sweep_from io sessions p :=
  (fold_left (fun (p : state) session_id => cleanup_session (io session_id) session_id p)
     sessions p).

(** Both buffer dictionaries hold every key once. *)
Local Abbreviation keys_unique p :=
  (NoDup (PyDict.keys (write_buffer p)) /\ NoDup (PyDict.keys (buffer_timestamps p))).

Lemma cleanup_stale_buffers_unfold io current_time (p : state) :
  cleanup_stale_buffers BUFFER_TTL io current_time p
  = sweep_from io (stale_sessions BUFFER_TTL current_time p) p.
Proof.
  unfold cleanup_stale_buffers, stale_sessions.
  now destruct (buffer_timestamps p).
Qed.

Lemma flush_session_unique io session_id (p : state) :
  keys_unique p -> keys_unique (snd (flush_session io session_id p)).
Proof.
  intros [Hwb Hts]. pose proof (flush_session_buffers io session_id p) as Hf.
  destruct (flush_session io session_id p) as [ok p']. cbn [snd].
  destruct Hf as [[-> ->]|(_ & -> & ->)]; auto using dict_pop_nodup.
Qed.

Lemma buffer_row_unique io session_id r (p : state) :
  keys_unique p -> keys_unique (buffer_row io session_id r p).
Proof.
  intros [Hwb Hts]. unfold buffer_row. simpl.
  destruct (PyDict.contains session_id (write_buffer p)); simpl;
    auto using dict_set_nodup.
Qed.

Lemma store_conversation_unique io un uid session_id um br intent (p : state) :
  keys_unique p ->
  keys_unique (snd (store_conversation md5_hexdigest io un uid session_id um br intent p)).
Proof.
  intros Hu.
  pose proof (store_conversation_cases md5_hexdigest io un uid session_id um br intent p)
    as Hcases.
  cbv zeta in Hcases.
  destruct (client p); [|now rewrite Hcases].
  destruct (cached_embedding _ _ _ _) as [c1 [[e c2]|]]; [|now rewrite Hcases].
  rewrite Hcases.
  destruct (_ <=? _)%nat; [apply flush_session_unique|];
    apply buffer_row_unique; exact Hu.
Qed.

Lemma cleanup_session_unique io session_id (p : state) :
  keys_unique p -> keys_unique (cleanup_session io session_id p).
Proof.
  intros Hu. unfold cleanup_session.
  pose proof (flush_session_unique io session_id p Hu) as Hf.
  destruct (flush_session io session_id p) as [[] p']; cbn [snd] in Hf; [exact Hf|].
  destruct Hf as [Hwb Hts]. simpl. auto using dict_pop_nodup.
Qed.

Lemma sweep_from_unique io sessions (p : state) :
  keys_unique p -> keys_unique (sweep_from io sessions p).
Proof.
  revert p. induction sessions as [|s sessions IH]; intros p Hu; [exact Hu|].
  simpl. apply IH. now apply cleanup_session_unique.
Qed.

(** X7.  Whatever calls of [store_conversation], [flush_session] and
    [cleanup_stale_buffers] are made on a new object, and whatever the
    embedding model and the client do during them, the two buffer
    dictionaries stay in step: a session has a creation timestamp exactly
    when it has a list of records, no list is empty, and no session appears
    twice. *)
Theorem buffers_stay_in_step (cs : list (@Call Embedding))
    (client0 : option (list Row)) (loaded : bool) (cache_size : Z) :
  let p := calls md5_hexdigest BUFFER_TTL cs (init client0 loaded cache_size) in
  buffers_agree p
  /\ NoDup (PyDict.keys (write_buffer p))
  /\ NoDup (PyDict.keys (buffer_timestamps p)).
Proof.
  assert (H : forall p : state,
            buffers_agree p /\ keys_unique p ->
            buffers_agree (calls md5_hexdigest BUFFER_TTL cs p)
            /\ keys_unique (calls md5_hexdigest BUFFER_TTL cs p)).
  { unfold calls. induction cs as [|c cs IH]; intros p [Ha Hu]; [auto|].
    simpl. apply IH. destruct c as [io un uid sid um br intent|io sid|io now]; simpl.
    - split; [now apply store_conversation_agree|now apply store_conversation_unique].
    - split; [now apply flush_session_agree|now apply flush_session_unique].
    - rewrite cleanup_stale_buffers_unfold.
      split; [now apply sweep_from_agree|now apply sweep_from_unique]. }
  intros p. apply H. split; [apply buffers_agree_init|].
  simpl. split; apply NoDup_nil_2.
Qed.

End ReachableFacts.

(** ** ChatPersistence: records are moved, never lost or doubled *)

Section ConservationFacts.
Variable md5_hexdigest : string -> string.
Context {Embedding : Type}.
Import ChatPersistence.

Local Abbreviation state := (@ChatPersistence.t Embedding).
Local Abbreviation row := (@ChatPersistence.Row Embedding).
Local Abbreviation rows_of d := (concat (map snd d)).

Lemma rows_of_pop session_id (d : PyDict.t (list row)) data :
  NoDup (PyDict.keys d) ->
  PyDict.get session_id d = Some data ->
  Permutation (data ++ rows_of (PyDict.pop session_id d)) (rows_of d).
Proof.
  intros Hnd Hget.
  destruct (dict_get_split _ _ _ Hget) as (pre & post & -> & Hpre).
  rewrite dict_pop_split; [|exact Hpre|].
  - rewrite !map_app, !concat_app. simpl.
    rewrite !app_assoc. apply Permutation_app_tail, Permutation_app_comm.
  - unfold PyDict.keys in Hnd. rewrite map_app in Hnd. simpl in Hnd.
    apply NoDup_app in Hnd as (_ & _ & Hpost).
    apply NoDup_cons in Hpost as [Hk _]. intros Hin. apply Hk.
    now apply list_elem_of_In.
Qed.

Lemma rows_of_set_present session_id (d : PyDict.t (list row)) old new :
  PyDict.get session_id d = Some old ->
  Permutation (old ++ rows_of (PyDict.set session_id new d)) (new ++ rows_of d).
Proof.
  intros Hget.
  destruct (dict_get_split _ _ _ Hget) as (pre & post & -> & Hpre).
  rewrite dict_set_split by exact Hpre.
  rewrite !map_app, !concat_app. simpl.
  rewrite !app_assoc.
  apply Permutation_app_tail.
  rewrite (Permutation_app_comm old), (Permutation_app_comm new).
  rewrite <- !app_assoc. apply Permutation_app_head, Permutation_app_comm.
Qed.

Lemma rows_of_buffer_row io session_id (r : row) (p : state) :
  Permutation (rows_of (write_buffer (buffer_row io session_id r p)))
              (r :: rows_of (write_buffer p)).
Proof.
  unfold buffer_row, PyDict.contains. simpl.
  destruct (PyDict.get session_id (write_buffer p)) as [old|] eqn:E; simpl.
  - rewrite E. simpl.
    pose proof (rows_of_set_present session_id (write_buffer p) old (old ++ [r]) E) as H.
    rewrite <- app_assoc in H. apply Permutation_app_inv_l in H.
    rewrite H. reflexivity.
  - rewrite dict_get_set_eq. simpl.
    rewrite (dict_set_absent session_id [] _ E).
    rewrite dict_set_split by exact E.
    rewrite !map_app, !concat_app. simpl.
    symmetry. apply Permutation_cons_append.
Qed.

Lemma all_rows_flush io session_id (p : state) :
  NoDup (PyDict.keys (write_buffer p)) ->
  Permutation (all_rows (snd (flush_session io session_id p))) (all_rows p).
Proof.
  intros Hnd. unfold flush_session, all_rows.
  destruct (client p) as [rows|] eqn:Hc; [|simpl; now rewrite ?Hc].
  destruct (PyDict.get session_id (write_buffer p)) as [[|r data]|] eqn:Hb;
    try (simpl; now rewrite ?Hc).
  destruct (_ && _); [simpl; now rewrite ?Hc|].
  destruct (insert_raises io); simpl; [now rewrite ?Hc|].
  rewrite <- app_assoc. apply Permutation_app_head.
  apply (rows_of_pop session_id (write_buffer p) (r :: data) Hnd Hb).
Qed.

(** X8.  No record is lost or written twice by buffering and flushing.
    Count the rows of the collection together with the buffered rows: a
    flush, whether it goes through or fails, leaves them the same rows; a
    [store_conversation] that has a client and obtains the embedding adds
    exactly the row of its turn, and one that is turned away adds nothing. *)
Theorem records_are_conserved io fio un uid session_id um br intent other (p : state) :
  NoDup (PyDict.keys (write_buffer p)) ->
  Permutation (all_rows (snd (flush_session fio other p))) (all_rows p)
  /\ let res := store_conversation md5_hexdigest io un uid session_id um br intent p in
     match client p,
           cached_embedding md5_hexdigest io
             (String.append um (String.append " " br)) (embedding_cache p) with
     | Some _, (_, Some (e, _)) =>
         Permutation (all_rows (snd res))
           (data_row io e un uid session_id um br intent :: all_rows p)
     | _, _ => all_rows (snd res) = all_rows p
     end.
Proof.
  intros Hnd. split; [now apply all_rows_flush|].
  pose proof (store_conversation_cases md5_hexdigest io un uid session_id um br intent p)
    as Hcases.
  cbv zeta in *.
  destruct (client p) as [rows|] eqn:Hc; [|now rewrite Hcases].
  destruct (cached_embedding _ _ _ _) as [c1 [[e c2]|]]; [|now rewrite Hcases].
  set (r := data_row io e un uid session_id um br intent) in *.
  set (p1 := buffer_row io session_id r (with_cache c2 p)) in *.
  assert (H1 : Permutation (all_rows p1) (r :: all_rows p)).
  { unfold all_rows, p1.
    rewrite (rows_of_buffer_row io session_id r (with_cache c2 p)).
    rewrite (proj1 (buffer_row_client io session_id r (with_cache c2 p))).
    change (client (with_cache c2 p)) with (client p).
    change (write_buffer (with_cache c2 p)) with (write_buffer p).
    symmetry. apply Permutation_middle. }
  rewrite Hcases. destruct (_ <=? _)%nat; [|exact H1].
  rewrite <- H1. apply all_rows_flush.
  unfold p1, buffer_row. simpl.
  destruct (PyDict.contains session_id (write_buffer p));
    simpl; auto using dict_set_nodup.
Qed.

End ConservationFacts.

(** ** ChatPersistence: sessions do not interfere *)

Section IsolationFacts.
Variable md5_hexdigest : string -> string.
Context {Embedding : Type}.
Variable BUFFER_TTL : Z.
Import ChatPersistence.

Local Abbreviation state := (@ChatPersistence.t Embedding).
Local Abbreviation sweep_from io sessions p :=
  (fold_left (fun (p : state) session_id => cleanup_session (io session_id) session_id p)
     sessions p).

Lemma flush_session_other io session_id other (p : state) :
  session_id <> other ->
  PyDict.get other (write_buffer (snd (flush_session io session_id p)))
    = PyDict.get other (write_buffer p)
  /\ PyDict.get other (buffer_timestamps (snd (flush_session io session_id p)))
    = PyDict.get other (buffer_timestamps p).
Proof.
  intros Hne. pose proof (flush_session_buffers io session_id p) as Hf.
  destruct (flush_session io session_id p) as [ok p']. cbn [snd].
  destruct Hf as [[-> ->]|(_ & -> & ->)]; [auto|].
  now rewrite !dict_get_pop_ne by exact Hne.
Qed.

(** X9.  Recording a turn of one session, and flushing one session, leave
    the list and the creation timestamp of every other session as they
    were, whatever the embedding model and the client do. *)
Theorem sessions_are_isolated io fio un uid session_id um br intent other (p : state) :
  session_id <> other ->
  let stored := snd (store_conversation md5_hexdigest io un uid session_id um br intent p) in
  let flushed := snd (flush_session fio session_id p) in
  PyDict.get other (write_buffer stored) = PyDict.get other (write_buffer p)
  /\ PyDict.get other (buffer_timestamps stored) = PyDict.get other (buffer_timestamps p)
  /\ PyDict.get other (write_buffer flushed) = PyDict.get other (write_buffer p)
  /\ PyDict.get other (buffer_timestamps flushed) = PyDict.get other (buffer_timestamps p).
Proof.
  intros Hne stored flushed.
  destruct (flush_session_other fio session_id other p Hne) as [F1 F2].
  assert (Hs : PyDict.get other (write_buffer stored) = PyDict.get other (write_buffer p)
               /\ PyDict.get other (buffer_timestamps stored)
                  = PyDict.get other (buffer_timestamps p)).
  { subst stored.
    pose proof (store_conversation_cases md5_hexdigest io un uid session_id um br intent p)
      as Hcases.
    cbv zeta in Hcases.
    destruct (client p); [|now rewrite Hcases].
    destruct (cached_embedding _ _ _ _) as [c1 [[e c2]|]]; [|now rewrite Hcases].
    rewrite Hcases.
    set (r := data_row io e un uid session_id um br intent).
    pose proof (buffer_row_other_list io session_id r (with_cache c2 p) other Hne) as B1.
    pose proof (buffer_row_other_timestamp io session_id r (with_cache c2 p) other Hne) as B2.
    destruct (_ <=? _)%nat; [|split; [exact B1|exact B2]].
    destruct (flush_session_other (flush_io io) session_id other
                (buffer_row io session_id r (with_cache c2 p)) Hne) as [-> ->].
    split; [exact B1|exact B2]. }
  destruct Hs as [S1 S2]. repeat split; assumption.
Qed.

(** X10.  The creation timestamp of a session is the clock reading of the
    call that buffered its first record, and later calls do not refresh it:
    after a [store_conversation] for a session that had no list, the
    timestamp is the time of this call and the list holds this one row;
    after one for a session that had a list, the timestamp is what it was,
    unless the call flushed the session away. *)
Theorem timestamp_is_set_once io un uid session_id um br intent (p : state) rows c1 e c2 :
  client p = Some rows ->
  cached_embedding md5_hexdigest io (String.append um (String.append " " br))
    (embedding_cache p) = (c1, Some (e, c2)) ->
  let res := snd (store_conversation md5_hexdigest io un uid session_id um br intent p) in
  match PyDict.get session_id (write_buffer p) with
  | None =>
      PyDict.get session_id (buffer_timestamps res) = Some (time_time io)
      /\ PyDict.get session_id (write_buffer res)
         = Some [data_row io e un uid session_id um br intent]
  | Some _ =>
      PyDict.get session_id (buffer_timestamps res)
        = PyDict.get session_id (buffer_timestamps p)
      \/ (PyDict.get session_id (buffer_timestamps res) = None
          /\ PyDict.get session_id (write_buffer res) = None)
  end.
Proof.
  intros Hc He res. subst res.
  pose proof (store_conversation_cases md5_hexdigest io un uid session_id um br intent p)
    as Hcases.
  cbv zeta in Hcases. rewrite Hc, He in Hcases. rewrite Hcases. clear Hcases.
  set (r := data_row io e un uid session_id um br intent).
  pose proof (buffer_row_timestamp io session_id r (with_cache c2 p)) as Ht.
  pose proof (buffer_row_list io session_id r (with_cache c2 p)) as Hl.
  change (write_buffer (with_cache c2 p)) with (write_buffer p) in *.
  change (buffer_timestamps (with_cache c2 p)) with (buffer_timestamps p) in *.
  unfold buffered.
  destruct (PyDict.get session_id (write_buffer p)) as [old|] eqn:E.
  - destruct (_ <=? _)%nat; [|now left].
    pose proof (flush_session_buffers (flush_io io) session_id
                  (buffer_row io session_id r (with_cache c2 p))) as Hf.
    destruct (flush_session _ _ _) as [ok p']. cbn [snd].
    destruct Hf as [[_ ->]|(_ & -> & ->)]; [now left|right].
    now rewrite !dict_get_pop_eq.
  - simpl. split; [exact Ht|exact Hl].
Qed.

Lemma sweep_from_other io sessions other (p : state) :
  ~ In other sessions ->
  PyDict.get other (write_buffer (sweep_from io sessions p))
    = PyDict.get other (write_buffer p)
  /\ PyDict.get other (buffer_timestamps (sweep_from io sessions p))
    = PyDict.get other (buffer_timestamps p).
Proof.
  revert p. induction sessions as [|s sessions IH]; intros p Hnin; [auto|].
  simpl. destruct (IH (cleanup_session (io s) s p)) as [-> ->].
  - intros Hin. apply Hnin. now right.
  - apply cleanup_session_other. intros ->. apply Hnin. now left.
Qed.

(** X11.  The sweep touches no session that is within the TTL: a session
    whose timestamp is not older than [BUFFER_TTL], and a session without a
    timestamp, keep their list and timestamp, whatever happens to the
    sessions that are swept. *)
Theorem sweep_keeps_young_sessions io current_time session_id (p : state) :
  NoDup (PyDict.keys (buffer_timestamps p)) ->
  match PyDict.get session_id (buffer_timestamps p) with
  | Some ts => current_time - ts <= BUFFER_TTL
  | None => True
  end ->
  let p' := cleanup_stale_buffers BUFFER_TTL io current_time p in
  PyDict.get session_id (write_buffer p') = PyDict.get session_id (write_buffer p)
  /\ PyDict.get session_id (buffer_timestamps p')
     = PyDict.get session_id (buffer_timestamps p).
Proof.
  intros Hnd Hyoung p'. subst p'. rewrite cleanup_stale_buffers_unfold.
  apply sweep_from_other. unfold stale_sessions. intros Hin.
  apply in_map_iff in Hin as ([k ts] & Hk & Hin). simpl in Hk. subst k.
  apply filter_In in Hin as [Hin Hold]. simpl in Hold.
  rewrite (dict_in_get_unique _ _ _ Hnd Hin) in Hyoung.
  apply Z.gtb_lt in Hold. lia.
Qed.

Lemma sweep_from_timestamps_incl io sessions (p : state) kv :
  In kv (buffer_timestamps (sweep_from io sessions p)) -> In kv (buffer_timestamps p).
Proof.
  revert p. induction sessions as [|s sessions IH]; intros p Hin; [exact Hin|].
  simpl in Hin. apply IH in Hin. revert Hin. unfold cleanup_session.
  pose proof (flush_session_buffers (io s) s p) as Hf.
  destruct (flush_session (io s) s p) as [ok p'].
  destruct Hf as [[_ Hts]|(-> & _ & Hts)].
  - destruct ok; simpl; rewrite Hts; [auto|apply dict_pop_incl].
  - rewrite Hts. apply dict_pop_incl.
Qed.

(** X12.  One sweep is enough: a second sweep at the same time, whatever the
    client does during it, changes nothing, because the first one left no
    session older than the TTL. *)
Theorem sweep_is_idempotent io io' current_time (p : state) :
  buffers_agree p ->
  let p' := cleanup_stale_buffers BUFFER_TTL io current_time p in
  stale_sessions BUFFER_TTL current_time p' = []
  /\ cleanup_stale_buffers BUFFER_TTL io' current_time p' = p'.
Proof.
  intros Ha p'.
  assert (Hnone : stale_sessions BUFFER_TTL current_time p' = []).
  { destruct (stale_sessions BUFFER_TTL current_time p') as [|s l] eqn:E; [reflexivity|].
    exfalso.
    assert (Hin : In s (stale_sessions BUFFER_TTL current_time p')) by (rewrite E; now left).
    unfold stale_sessions in Hin.
    apply in_map_iff in Hin as ([k ts] & Hk & Hin). simpl in Hk. subst k.
    apply filter_In in Hin as [Hin Hold].
    pose proof (dict_in_get _ _ _ Hin) as Hget.
    subst p'. rewrite cleanup_stale_buffers_unfold in Hin, Hget.
    apply sweep_from_timestamps_incl in Hin.
    apply Hget.
    apply (sweep_from_removes io _ p s Ha). left.
    unfold stale_sessions. apply in_map_iff. exists (s, ts). split; [reflexivity|].
    apply filter_In. auto. }
  split; [exact Hnone|].
  rewrite (cleanup_stale_buffers_unfold BUFFER_TTL io' current_time p'), Hnone.
  reflexivity.
Qed.

End IsolationFacts.

(** ** Streaming: who can cancel a turn *)

Section CancelFacts.
Import Streaming.

Local Abbreviation process := process_user_message_with_context_streaming.

(** X13.  A turn reports [cancelled] only if it has a handle and that handle
    was signalled: it was set when the turn started, or a cancel request
    arrived for a session registered with this very handle.  A turn without
    a handle, and a turn whose session nobody asked to cancel, never yields
    [cancelled], whatever requests arrive for other sessions. *)
Theorem cancelled_only_on_request (cancel_flag : option nat) (r : Registry)
    (script : list Action) (c : Chunk) :
  In c (process cancel_flag r script) ->
  type c = "cancelled" ->
  exists l,
    cancel_flag = Some l
    /\ (is_set (Some l) r = true
        \/ exists session_id,
             In (CancelRequest session_id) script
             /\ active_streams r !! session_id = Some l).
Proof.
  revert r. induction script as [|a script IH]; intros r Hin Hty.
  - destruct Hin as [<-|[]]. discriminate.
  - destruct a as [e|exn|sid]; cbn [process_user_message_with_context_streaming] in Hin.
    + destruct (is_set cancel_flag r) eqn:Hset.
      * destruct cancel_flag as [l|]; [|discriminate]. exists l. auto.
      * apply in_app_or in Hin as [Hin|Hin].
        -- destruct (on_event_chunks e c Hin) as [_ [H|H]]; congruence.
        -- destruct (IH r Hin Hty) as (l & Hl & [H|(s & Hs & Hreg)]); exists l;
             (split; [exact Hl|]); [now left|right].
           exists s. split; [now right|exact Hreg].
    + destruct Hin as [<-|[<-|[]]]; discriminate.
    + destruct (IH _ Hin Hty) as (l & Hl & H). exists l. split; [exact Hl|].
      rewrite cancel_stream_streams in H.
      destruct H as [H|(s & Hs & Hreg)].
      * destruct (is_set (Some l) r) eqn:Hset; [now left|right].
        exists sid. split; [now left|].
        unfold cancel_stream, is_set in *.
        destruct (active_streams r !! sid) as [l'|]; simpl in H; [|congruence].
        destruct (decide (l' = l)) as [->|Hne]; [reflexivity|].
        rewrite lookup_insert_ne in H by exact Hne. congruence.
      * right. exists s. split; [now right|exact Hreg].
Qed.

Lemma cancelled_only_on_request_witness :
  exists l,
    Some 0%nat = Some l
    /\ (is_set (Some l) Scenario.one_stream = true
        \/ exists session_id,
             In (CancelRequest session_id)
                [CancelRequest "sess-1"; Deliver (Scenario.token_event "Hi")]
             /\ active_streams Scenario.one_stream !! session_id = Some l).
Proof.
  apply (cancelled_only_on_request (Some 0%nat) Scenario.one_stream
           [CancelRequest "sess-1"; Deliver (Scenario.token_event "Hi")]
           (mkChunk "cancelled" "Stream cancelled")).
  - vm_compute. left. reflexivity.
  - reflexivity.
Defined.

(** The handles of the registry are in use by one session each, and were
    created. *)
Local Abbreviation handles_distinct r :=
  ((forall s1 s2 l, active_streams r !! s1 = Some l ->
                    active_streams r !! s2 = Some l -> s1 = s2)
   /\ (forall s l, active_streams r !! s = Some l -> l ∈ dom (flags r))).

Lemma registry_op_distinct o r : handles_distinct r -> handles_distinct (registry_op o r).
Proof.
  intros [Hinj Hdom]. destruct o as [sid|sid|sid]; simpl.
  - (* register *)
    assert (Hfresh : fresh (dom (flags r)) ∉ dom (flags r)) by apply is_fresh.
    split.
    + intros s1 s2 l H1 H2.
      destruct (decide (sid = s1)) as [<-|N1]; destruct (decide (sid = s2)) as [<-|N2];
        auto.
      * rewrite lookup_insert_eq in H1. rewrite lookup_insert_ne in H2 by exact N2.
        inversion H1; subst. exfalso. apply Hfresh. eapply Hdom; eauto.
      * rewrite lookup_insert_eq in H2. rewrite lookup_insert_ne in H1 by exact N1.
        inversion H2; subst. exfalso. apply Hfresh. eapply Hdom; eauto.
      * rewrite lookup_insert_ne in H1 by exact N1.
        rewrite lookup_insert_ne in H2 by exact N2. eauto.
    + intros s l H. rewrite dom_insert_L.
      destruct (decide (sid = s)) as [<-|N].
      * rewrite lookup_insert_eq in H. inversion H. set_solver.
      * rewrite lookup_insert_ne in H by exact N. apply Hdom in H. set_solver.
  - (* release *)
    split.
    + intros s1 s2 l H1 H2.
      apply lookup_delete_Some in H1 as [_ H1]. apply lookup_delete_Some in H2 as [_ H2].
      eauto.
    + intros s l H. apply lookup_delete_Some in H as [_ H]. eauto.
  - (* cancel *)
    unfold cancel_stream. destruct (active_streams r !! sid) as [l0|] eqn:E; simpl.
    + split; [exact Hinj|]. intros s l H. rewrite dom_insert_L.
      apply Hdom in H. set_solver.
    + split; assumption.
Qed.

Lemma registry_ops_distinct os r : handles_distinct r -> handles_distinct (registry_ops os r).
Proof.
  unfold registry_ops. revert r. induction os as [|o os IH]; intros r H; [exact H|].
  simpl. apply IH. now apply registry_op_distinct.
Qed.

(** X14.  However streams were registered, released and cancelled since the
    server started, two sessions in flight never share a handle, so a cancel
    request for one of them sets its flag and leaves the flag of every other
    session in flight as it is. *)
Theorem cancel_reaches_one_stream (os : list RegistryOp) (s1 s2 : string) (l1 l2 : nat) :
  let r := registry_ops os no_streams in
  active_streams r !! s1 = Some l1 ->
  active_streams r !! s2 = Some l2 ->
  s1 <> s2 ->
  l1 <> l2
  /\ is_set (Some l1) (fst (cancel_stream s1 r)) = true
  /\ is_set (Some l2) (fst (cancel_stream s1 r)) = is_set (Some l2) r.
Proof.
  intros r H1 H2 Hne.
  assert (Hd : handles_distinct r).
  { apply registry_ops_distinct. split.
    - intros ? ? ? H. simpl in H. rewrite lookup_empty in H. discriminate.
    - intros ? ? H. simpl in H. rewrite lookup_empty in H. discriminate. }
  destruct Hd as [Hinj _].
  assert (Hl : l1 <> l2) by (intros ->; apply Hne; eauto).
  split; [exact Hl|]. split; [now apply cancel_stream_sets|].
  unfold cancel_stream, is_set. rewrite H1. simpl.
  now rewrite lookup_insert_ne by exact Hl.
Qed.

(** X15.  A flag that is set is never unset: whatever streams are
    registered, released or cancelled afterwards, a handle that was
    signalled stays signalled. *)
Theorem flag_stays_set (os : list RegistryOp) (r : Registry) (l : nat) :
  is_set (Some l) r = true ->
  is_set (Some l) (registry_ops os r) = true.
Proof.
  unfold registry_ops. revert r. induction os as [|o os IH]; intros r H; [exact H|].
  simpl. apply IH. destruct o as [sid|sid|sid]; simpl.
  - unfold is_set in *. simpl.
    destruct (decide (fresh (dom (flags r)) = l)) as [Heq|Hne].
    + exfalso. assert (Hin : l ∈ dom (flags r)).
      { apply elem_of_dom. destruct (flags r !! l); [eauto|discriminate]. }
      rewrite <- Heq in Hin. now apply is_fresh in Hin.
    + now rewrite lookup_insert_ne by exact Hne.
  - exact H.
  - now apply cancel_stream_keeps_set.
Qed.

End CancelFacts.

(** ** Streaming: the sweep of abandoned streams *)

Section StreamSweepFacts.
Import Streaming.
Variable STREAM_TTL : Z.

Local Abbreviation sweep_streams sessions s :=
  (fold_left
     (fun s session_id =>
        {| registry := release session_id (registry s);
           stream_timestamps := PyDict.pop session_id (stream_timestamps s) |})
     sessions s).

Lemma dict_pop_in {V : Type} k (kv : string * V) d :
  In kv (PyDict.pop k d) <-> In kv d /\ fst kv <> k.
Proof.
  induction d as [|[k0 v0] d IH]; simpl; [tauto|].
  destruct (String.eqb_spec k k0) as [->|Hne]; simpl; rewrite IH.
  - split; [tauto|]. intros [[<-|H] Hk]; [simpl in Hk; congruence|auto].
  - split; [intros [<-|[H Hk]]; simpl; auto|]. intros [[<-|H] Hk]; auto.
Qed.

Lemma sweep_streams_spec sessions (s : Streams) :
  flags (registry (sweep_streams sessions s)) = flags (registry s)
  /\ (forall k, In k sessions ->
                active_streams (registry (sweep_streams sessions s)) !! k = None)
  /\ (forall k, ~ In k sessions ->
                active_streams (registry (sweep_streams sessions s)) !! k
                = active_streams (registry s) !! k)
  /\ (forall kv, In kv (stream_timestamps (sweep_streams sessions s))
                 <-> In kv (stream_timestamps s) /\ ~ In (fst kv) sessions).
Proof.
  revert s. induction sessions as [|x sessions IH]; intros s.
  - simpl. repeat split; auto; tauto.
  - cbn [fold_left]. destruct (IH {| registry := release x (registry s);
                  stream_timestamps := PyDict.pop x (stream_timestamps s) |})
      as (H1 & H2 & H3 & H4).
    split; [rewrite H1; reflexivity|]. split; [|split].
    + intros k Hin. destruct (in_dec String.string_dec k sessions) as [Hk|Hk];
        [now apply H2|].
      rewrite H3 by exact Hk. cbn [registry active_streams release].
      destruct Hin as [->|Hin]; [apply lookup_delete_eq|contradiction].
    + intros k Hnin. rewrite H3 by (intros ?; apply Hnin; now right).
      cbn [registry active_streams release].
      apply lookup_delete_ne. intros ->. apply Hnin. now left.
    + intros kv. rewrite H4. cbn [stream_timestamps]. rewrite dict_pop_in.
      simpl. split; [intros [[? ?] ?]|intros [? ?]]; repeat split; auto.
      intros [?|?]; auto.
Qed.

(** X16.  After a round of [cleanup_stale_streams], no recorded stream is
    older than [STREAM_TTL]; a stream that was older is out of both
    dictionaries, so that a cancel request for it now answers [not_found]
    and changes nothing; the flags themselves are not touched, so a turn
    that is still streaming goes on, out of reach of cancellation; and,
    given that no session is recorded twice, a stream within the TTL keeps
    its registration and its timestamp. *)
Theorem cleanup_stale_streams_sweeps (current_time : Z) (s : Streams) :
  let s' := cleanup_stale_streams STREAM_TTL current_time s in
  (forall session_id ts,
     In (session_id, ts) (stream_timestamps s') -> current_time - ts <= STREAM_TTL)
  /\ (forall session_id ts,
        PyDict.get session_id (stream_timestamps s) = Some ts ->
        current_time - ts > STREAM_TTL ->
        PyDict.get session_id (stream_timestamps s') = None
        /\ cancel_stream session_id (registry s') = (registry s', "not_found"))
  /\ flags (registry s') = flags (registry s)
  /\ (NoDup (PyDict.keys (stream_timestamps s)) ->
      forall session_id ts,
        PyDict.get session_id (stream_timestamps s) = Some ts ->
        current_time - ts <= STREAM_TTL ->
        PyDict.get session_id (stream_timestamps s') = Some ts
        /\ active_streams (registry s') !! session_id
           = active_streams (registry s) !! session_id).
Proof.
  intros s'. subst s'. unfold cleanup_stale_streams.
  destruct (sweep_streams_spec (stale_streams STREAM_TTL current_time s) s)
    as (Hflags & Hgone & Hkept & Hts).
  assert (Hstale : forall k t, In (k, t) (stream_timestamps s) ->
                     current_time - t > STREAM_TTL ->
                     In k (stale_streams STREAM_TTL current_time s)).
  { intros k t Hin Hold. unfold stale_streams. apply in_map_iff.
    exists (k, t). split; [reflexivity|]. apply filter_In. split; [exact Hin|].
    simpl. apply Z.gtb_lt. lia. }
  assert (Hget_in : forall k t, PyDict.get k (stream_timestamps s) = Some t ->
                      In (k, t) (stream_timestamps s)).
  { intros k t. generalize (stream_timestamps s). intros d.
    induction d as [|[k0 v0] d IH]; simpl; [discriminate|].
    destruct (String.eqb_spec k k0) as [->|Hne]; [intros H; inversion H; auto|auto]. }
  split; [|split; [|split]].
  - intros sid ts Hin. apply Hts in Hin as [Hin Hnot]. simpl in Hnot.
    destruct (Z_le_gt_dec (current_time - ts) STREAM_TTL) as [Hle|Hgt]; [exact Hle|].
    exfalso. apply Hnot. eapply Hstale; eauto.
  - intros sid ts Hget Hold.
    assert (Hin : In sid (stale_streams STREAM_TTL current_time s))
      by (eapply Hstale; eauto).
    split.
    + apply dict_get_none_keys. intros Hk. apply in_map_iff in Hk as ([k v] & Hk & Hkv).
      simpl in Hk. subst k. apply Hts in Hkv as [_ Hnot]. now apply Hnot.
    + apply cancel_stream_not_found. now apply Hgone.
  - exact Hflags.
  - intros Hnd sid ts Hget Hyoung.
    assert (Hnot : ~ In sid (stale_streams STREAM_TTL current_time s)).
    { unfold stale_streams. intros Hin.
      apply in_map_iff in Hin as ([k t] & Hk & Hin). simpl in Hk. subst k.
      apply filter_In in Hin as [Hin Hold]. simpl in Hold.
      rewrite (dict_in_get_unique _ _ _ Hnd Hin) in Hget. inversion Hget; subst.
      apply Z.gtb_lt in Hold. lia. }
    split.
    + apply dict_in_get_unique.
      * clear -Hnd. generalize (stale_streams STREAM_TTL current_time s). intros l.
        revert s Hnd. induction l as [|x l IH]; intros s Hnd; [exact Hnd|].
        cbn [fold_left]. apply IH. cbn [stream_timestamps]. now apply dict_pop_nodup.
      * apply Hts. split; [now apply Hget_in|exact Hnot].
    + now apply Hkept.
Qed.

End StreamSweepFacts.

(** ** Streaming: what is recorded and what the client shows *)

Section TrackingFacts.
Import Streaming.

(** The text of the token frames, in order. *)
Local Abbreviation token_text frames :=
  (fold_left (fun text c => if String.eqb (type c) "token"
                            then String.append text (content c) else text) frames).

Lemma track_text frames t :
  full_bot_response (fold_left track frames t)
  = token_text frames (full_bot_response t).
Proof.
  revert t. induction frames as [|c frames IH]; intros t; [reflexivity|].
  simpl. rewrite IH. unfold track.
  destruct (String.eqb (type c) "token"); [reflexivity|].
  destruct (String.eqb (type c) "intent"); [|reflexivity].
  now destruct (_ && _).
Qed.

Lemma string_append_assoc a b c :
  String.append (String.append a b) c = String.append a (String.append b c).
Proof.
  induction a as [|x a IH]; [reflexivity|].
  change (String x (String.append (String.append a b) c)
          = String x (String.append a (String.append b c))).
  now rewrite IH.
Qed.

Lemma string_append_nil_r a : String.append a "" = a.
Proof.
  induction a as [|x a IH]; [reflexivity|].
  change (String x (String.append a "") = String x a). now rewrite IH.
Qed.

Lemma sse_streamer_in dumps_raises gen c :
  In c (sse_streamer dumps_raises gen) ->
  In c gen \/ c = mkChunk "error" "Internal streaming error".
Proof.
  induction gen as [|x gen IH]; simpl; [intros []|].
  destruct (dumps_raises x); [intros [<-|[]]; now right|].
  destruct (is_terminal x); [intros [<-|[]]; left; now left|].
  intros [<-|H]; [left; now left|]. destruct (IH H); auto.
Qed.

(** What the client does with a stream that is cut after its first terminal
    frame, against what the server tracks from the same frames. *)
Lemma consume_tracks body last text intent t :
  forallb (fun c => negb (is_terminal c)) body = true ->
  is_terminal last = true ->
  (forall c, In c body -> type c = "intent" ->
             content c <> "" /\ content c <> "general") ->
  full_bot_response t = text ->
  detected_intent t = intent ->
  Client.consume (body ++ [last]) text intent
  = (String.append (full_bot_response (fold_left track (body ++ [last]) t))
       (if String.eqb (type last) "cancelled"
        then String "010" (String "010" "(Stream cancelled by user.)") else ""),
     detected_intent (fold_left track (body ++ [last]) t)).
Proof.
  revert text intent t. induction body as [|c body IH]; intros text intent t Hb Hl Hi Ht Hin.
  - simpl. unfold track. unfold is_terminal in Hl.
    destruct (String.eqb_spec (type last) "token") as [E|_];
      [rewrite E in Hl; discriminate|].
    destruct (String.eqb_spec (type last) "intent") as [E|_];
      [rewrite E in Hl; discriminate|].
    unfold is_terminal. rewrite Hl.
    destruct (String.eqb_spec (type last) "error") as [E|_].
    + rewrite E. simpl. rewrite string_append_nil_r. congruence.
    + destruct (String.eqb (type last) "cancelled"); [congruence|].
      rewrite string_append_nil_r. congruence.
  - simpl in Hb. apply andb_true_iff in Hb as [Hc Hb]. apply negb_true_iff in Hc.
    cbn [app Client.consume fold_left].
    assert (Hi' : forall c0, In c0 body -> type c0 = "intent" ->
                    content c0 <> "" /\ content c0 <> "general")
      by (intros; apply Hi; [now right|assumption]).
    unfold track at 2 4.
    destruct (String.eqb (type c) "token") eqn:Etok.
    + apply IH; auto. simpl. congruence.
    + destruct (String.eqb_spec (type c) "intent") as [Eint|_].
      * destruct (Hi c (or_introl eq_refl) Eint) as [N1 N2].
        apply String.eqb_neq in N1, N2. rewrite N1, N2. simpl.
        apply IH; auto.
      * rewrite Hc. apply IH; auto.
Qed.

(** X17.  The client ends up with what the server records for the turn.
    For every turn, the text [send_message_streaming] returns is the text
    [stream_and_cleanup] hands to [store_conversation], with the note
    [(Stream cancelled by user.)] added when the stream ended by
    cancellation, and the text recorded is the text of the token frames
    sent, in order.  The intents agree as well, unless a tool is called
    [general]: the server does not take that name for an intent. *)
Theorem client_shows_what_is_recorded (dumps_raises : Chunk -> bool)
    (cancel_flag : option nat) (r : Registry) (script : list Action) :
  let frames := turn dumps_raises cancel_flag r script in
  let recorded := snd (stream_and_cleanup frames) in
  fst (stream_and_cleanup frames) = frames
  /\ full_bot_response recorded = token_text frames ""
  /\ ((forall c, In c frames -> type c = "intent" -> content c <> "general") ->
      exists cancelled : bool,
        (cancelled = true <->
         In (mkChunk "cancelled" "Stream cancelled") frames)
        /\ Client.send_message_streaming frames
           = (String.append (full_bot_response recorded)
                (if cancelled
                 then String "010" (String "010" "(Stream cancelled by user.)")
                 else ""),
              detected_intent recorded)).
Proof.
  intros frames recorded. split; [reflexivity|]. split.
  { subst recorded. unfold stream_and_cleanup. cbn [snd]. apply track_text. }
  intros Hgen.
  destruct (sse_streamer_shape dumps_raises
              (process_user_message_with_context_streaming cancel_flag r script)
              (process_has_terminal cancel_flag r script))
    as (body & last & Hout & Hlast & Hbody & rest & Hrest).
  fold (turn dumps_raises cancel_flag r script) in Hout. fold frames in Hout.
  assert (Hempty : forall c, In c body -> type c = "intent" -> content c <> "").
  { intros c Hin Hty.
    destruct (process_shape cancel_flag r script) as (gbody & glast & Hg & Hgl & _).
    assert (Hc : In c (process_user_message_with_context_streaming cancel_flag r script))
      by (rewrite Hrest; apply in_or_app; now left).
    clear -Hc Hty. revert r Hc. induction script as [|a script IH]; intros r Hc.
    - destruct Hc as [<-|[]]. discriminate.
    - destruct a as [e|exn|sid]; cbn [process_user_message_with_context_streaming] in Hc.
      + destruct (is_set cancel_flag r); [destruct Hc as [<-|[]]; discriminate|].
        apply in_app_or in Hc as [Hc|Hc]; [|eauto].
        unfold on_event in Hc.
        destruct (String.eqb (event e) "on_chat_model_stream").
        * destruct (chunk_content e) as [s|]; [|destruct Hc].
          destruct (String.eqb s ""); [destruct Hc|].
          destruct Hc as [<-|[]]. discriminate.
        * destruct (String.eqb (event e) "on_tool_start"); [|destruct Hc].
          destruct (name e) as [s|]; [|destruct Hc].
          destruct (String.eqb_spec s "") as [|Hne]; [destruct Hc|].
          destruct (_ || _); [destruct Hc|]. destruct Hc as [<-|[]]. exact Hne.
      + destruct Hc as [<-|[<-|[]]]; discriminate.
      + eauto. }
  exists (String.eqb (type last) "cancelled"). split.
  - rewrite Hout. split.
    + intros E. apply String.eqb_eq in E. apply in_or_app. right. left.
      destruct (process_shape cancel_flag r script) as (gbody & glast & Hg & Hgl & Hgb).
      (* the only frame of type cancelled is the one the generator yields *)
      assert (Hsrc : In last (process_user_message_with_context_streaming cancel_flag r script)
                     \/ last = mkChunk "error" "Internal streaming error").
      { apply (sse_streamer_in dumps_raises). unfold turn in frames. fold frames.
        rewrite Hout. apply in_or_app. right. now left. }
      destruct Hsrc as [Hsrc| ->]; [|discriminate].
      clear -Hsrc E. revert r Hsrc. induction script as [|a script IH]; intros r Hsrc.
      * destruct Hsrc as [<-|[]]. discriminate.
      * destruct a as [e|exn|sid];
          cbn [process_user_message_with_context_streaming] in Hsrc.
        -- destruct (is_set cancel_flag r); [destruct Hsrc as [<-|[]]; reflexivity|].
           apply in_app_or in Hsrc as [Hsrc|Hsrc]; [|eauto].
           destruct (on_event_chunks e last Hsrc) as [_ [H|H]]; congruence.
        -- destruct Hsrc as [<-|[<-|[]]]; discriminate.
        -- eauto.
    + intros Hin. apply in_app_or in Hin as [Hin|[Heq|[]]]; [|now rewrite Heq].
      rewrite forallb_forall in Hbody. apply Hbody in Hin. discriminate.
  - subst recorded. unfold Client.send_message_streaming, stream_and_cleanup.
    cbn [snd]. rewrite Hout.
    apply consume_tracks; auto.
    intros c Hin Hty. split; [now apply Hempty|].
    apply Hgen; [|exact Hty]. rewrite Hout. apply in_or_app. now left.
Qed.

End TrackingFacts.

(** ** The graphs *)

Section GraphFacts.
Import Router Graph.

(** Every decision that leaves the supervisor has an edge. *)
Lemma supervisor_decision_has_edge structured fallback next :
  supervisor_node structured fallback = Returned next ->
  conditional_edges next <> None.
Proof.
  unfold supervisor_node.
  destruct structured as [[]|e0]; [intros H; inversion H; discriminate..|].
  destruct fallback as [text|e]; [|discriminate].
  destruct (PyStr.contains "BookingAgent" _);
    [|destruct (PyStr.contains "SupportAgent" _)];
    intros H; inversion H; discriminate.
Qed.

Lemma node_is_END (node : Node) : node = END \/ node <> END.
Proof. destruct node; auto; right; discriminate. Qed.

Lemma conditional_edges_END next :
  conditional_edges next = Some END -> next = "FINISH".
Proof.
  unfold conditional_edges.
  destruct (String.eqb next "BookingAgent"); [discriminate|].
  destruct (String.eqb next "SupportAgent"); [discriminate|].
  destruct (String.eqb_spec next "FINISH"); [auto|discriminate].
Qed.

Lemma conditional_edges_agent next node :
  conditional_edges next = Some node -> node <> END ->
  node = BookingAgent \/ node = SupportAgent.
Proof.
  unfold conditional_edges.
  destruct (String.eqb next "BookingAgent"); [intros H; inversion H; auto|].
  destruct (String.eqb next "SupportAgent"); [intros H; inversion H; auto|].
  destruct (String.eqb next "FINISH"); [|discriminate].
  intros H; inversion H; congruence.
Qed.

(** One hop of a run: the agent the supervisor named, and what the run of
    the agent appended. *)
Local Abbreviation hop_nodes hops :=
  (flat_map (fun h : Node * list Message => [supervisor; fst h]) hops).
Local Abbreviation after_hops hops messages :=
  (fold_left (fun (m : list Message) (h : Node * list Message) =>
                m ++ agent_node m (snd h)) hops messages).
Local Abbreviation names_hop d h :=
  (exists next,
     supervisor_node (fst d) (snd d) = Returned next
     /\ conditional_edges next = Some (fst h)
     /\ (fst h = BookingAgent \/ fst h = SupportAgent)).

(** The one step of [run_supervisor_graph] that goes on: the supervisor
    names an agent, and the agent returns. *)
Lemma run_hop steps s f decisions new replies m0 v0 next node :
  supervisor_node s f = Returned next ->
  conditional_edges next = Some node ->
  node <> END ->
  run_supervisor_graph (S (S steps)) ((s, f) :: decisions) (Returned new :: replies) m0 v0
  = run_supervisor_graph steps decisions replies (m0 ++ agent_node m0 new)
      ((v0 ++ [supervisor]) ++ [node]).
Proof.
  intros Hs He Hne. cbn [run_supervisor_graph]. rewrite Hs, He.
  destruct node; congruence.
Qed.

Lemma after_hops_length hops (m0 : list Message) :
  (2 ^ length hops * length m0 <= length (after_hops hops m0))%nat.
Proof.
  revert m0. induction hops as [|h hops IH]; intros m0; [simpl; lia|].
  cbn [fold_left length]. specialize (IH (m0 ++ agent_node m0 (snd h))).
  unfold agent_node in *. rewrite !length_app in IH.
  rewrite Nat.pow_succ_r'. nia.
Qed.

Lemma hop_nodes_length (hops : list (Node * list Message)) :
  length (hop_nodes hops) = (2 * length hops)%nat.
Proof. induction hops as [|h hops IH]; simpl in *; lia. Qed.

Lemma run_completed steps decisions replies messages0 visited0 messages visited :
  run_supervisor_graph steps decisions replies messages0 visited0
  = Completed messages visited ->
  exists hops,
    visited = visited0 ++ hop_nodes hops ++ [supervisor]
    /\ messages = after_hops hops messages0
    /\ (forall i h, hops !! i = Some h ->
          exists d, decisions !! i = Some d /\ names_hop d h
                    /\ replies !! i = Some (Returned (snd h)))
    /\ (exists d, decisions !! length hops = Some d
                  /\ supervisor_node (fst d) (snd d) = Returned "FINISH")
    /\ (2 * length hops + 2 <= steps)%nat.
Proof.
  revert steps replies messages0 visited0.
  induction decisions as [|[s f] decisions IH]; intros steps replies m0 v0 H;
    [destruct steps; discriminate|].
  destruct steps as [|[|steps]]; [discriminate| |].
  { cbn [run_supervisor_graph] in H.
    destruct (supervisor_node s f); [|discriminate].
    destruct (conditional_edges _); discriminate. }
  destruct (supervisor_node s f) as [next|exn] eqn:Hs;
    [|cbn [run_supervisor_graph] in H; rewrite Hs in H; discriminate].
  destruct (conditional_edges next) as [node|] eqn:He;
    [|cbn [run_supervisor_graph] in H; rewrite Hs, He in H; discriminate].
  destruct (node_is_END node) as [->|Hne].
  - cbn [run_supervisor_graph] in H. rewrite Hs, He in H. inversion H; subst.
    exists []. simpl.
    split; [reflexivity|]. split; [reflexivity|].
    split; [intros i h Hh; discriminate|]. split; [|lia].
    exists (s, f). split; [reflexivity|]. simpl. rewrite Hs. f_equal.
    now apply conditional_edges_END.
  - destruct replies as [|[new|exn] replies].
    + cbn [run_supervisor_graph] in H. rewrite Hs, He in H. destruct node; congruence.
    + rewrite (run_hop _ _ _ _ _ _ _ _ _ _ Hs He Hne) in H.
      destruct (IH _ _ _ _ H) as (hops & Hv & Hm & Hi & Hfin & Hsteps).
      exists ((node, new) :: hops). split; [|split; [|split; [|split]]].
      * rewrite Hv. simpl. now rewrite <- !app_assoc.
      * rewrite Hm. reflexivity.
      * intros [|i] h Hh; simpl in Hh.
        -- inversion Hh; subst. exists (s, f). split; [reflexivity|].
           split; [|reflexivity]. exists next. split; [exact Hs|].
           split; [exact He|]. exact (conditional_edges_agent _ _ He Hne).
        -- apply (Hi i h Hh).
      * exact Hfin.
      * simpl. lia.
    + cbn [run_supervisor_graph] in H. rewrite Hs, He in H. destruct node; congruence.
Qed.



(** X18.  A turn that the supervisor graph completes went like this: the
    supervisor was visited first and last, every agent visit came right
    after a supervisor visit whose decision named that agent, and the run
    ended at the first decision [FINISH], within the recursion limit.  No
    message is dropped on the way, but the history is doubled by every
    agent visit: the visit appends to the messages of the graph all the
    messages the agent was entered with, followed by what the agent added.
    So the final messages are at least twice as many per agent visit as the
    kept messages of the thread and the message of the turn. *)
Theorem completed_run_is_routed checkpoint user_message decisions replies messages visited :
  invoke checkpoint user_message decisions replies = Completed messages visited ->
  exists hops,
    visited = hop_nodes hops ++ [supervisor]
    /\ messages = after_hops hops (checkpoint ++ [user_message])
    /\ (forall i h, hops !! i = Some h ->
          exists d, decisions !! i = Some d /\ names_hop d h
                    /\ replies !! i = Some (Returned (snd h)))
    /\ (exists d, decisions !! length hops = Some d
                  /\ supervisor_node (fst d) (snd d) = Returned "FINISH")
    /\ (length visited <= DEFAULT_RECURSION_LIMIT)%nat
    /\ (2 ^ length hops * S (length checkpoint) <= length messages)%nat.
Proof.
  unfold invoke. intros H.
  destruct (run_completed _ _ _ _ _ _ _ H) as (hops & Hv & Hm & Hi & Hfin & Hsteps).
  clear H. exists hops. split; [exact Hv|]. split; [exact Hm|]. split; [exact Hi|].
  split; [exact Hfin|]. split.
  - rewrite Hv, !length_app, hop_nodes_length. cbn [length].
    unfold DEFAULT_RECURSION_LIMIT in *. lia.
  - rewrite Hm. pose proof (after_hops_length hops (checkpoint ++ [user_message])) as Hl.
    rewrite length_app in Hl. cbn [length] in Hl. rewrite Nat.add_1_r in Hl. exact Hl.
Qed.

Lemma completed_run_is_routed_witness :
  exists hops : list (Node * list Message),
    [supervisor; BookingAgent; supervisor]
    = flat_map (fun h => [supervisor; fst h]) hops ++ [supervisor]
    /\ [mkMessage false "Book a meeting tomorrow at 10:00 AM" [];
        mkMessage false "Book a meeting tomorrow at 10:00 AM" [];
        mkMessage true "Booked." []]
       = fold_left (fun (m : list Message) (h : Node * list Message) =>
                      m ++ agent_node m (snd h)) hops
           [mkMessage false "Book a meeting tomorrow at 10:00 AM" []].
Proof.
  destruct (completed_run_is_routed []
              (mkMessage false "Book a meeting tomorrow at 10:00 AM" [])
              [(Returned next_BookingAgent, Raised "unused");
               (Returned next_FINISH, Raised "unused")]
              [Returned [mkMessage true "Booked." []]]
              [mkMessage false "Book a meeting tomorrow at 10:00 AM" [];
               mkMessage false "Book a meeting tomorrow at 10:00 AM" [];
               mkMessage true "Booked." []]
              [supervisor; BookingAgent; supervisor] eq_refl)
    as (hops & Hv & Hm & _).
  exists hops. split; [exact Hv|exact Hm].
Defined.



Local Abbreviation round_messages rounds :=
  (flat_map (fun r : Message * list Message => fst r :: snd r) rounds).

Lemma should_continue_last messages added response :
  should_continue (messages ++ added ++ [response])
  = Some (match tool_calls response with [] => "__end__" | _ => "tools" end).
Proof.
  unfold should_continue. rewrite app_assoc, last_snoc. now destruct (tool_calls response).
Qed.

Lemma run_agent_done llm tools messages added0 added :
  run_agent llm tools messages added0 = AgentDone added ->
  exists rounds final,
    added = added0 ++ round_messages rounds ++ [final]
    /\ tool_calls final = []
    /\ (forall i r, rounds !! i = Some r ->
          llm !! i = Some (Returned (fst r))
          /\ tool_calls (fst r) <> []
          /\ tools !! i = Some (Returned (snd r)))
    /\ llm !! length rounds = Some (Returned final).
Proof.
  revert tools added0.
  induction llm as [|[response|exn] llm IH]; intros tools added0 H; try discriminate.
  cbn [run_agent] in H. rewrite should_continue_last in H.
  destruct (tool_calls response) as [|call calls] eqn:Hcalls.
  - cbn in H. inversion H; subst. exists [], response. simpl.
    split; [reflexivity|]. split; [exact Hcalls|]. split; [intros i r Hr; discriminate|reflexivity].
  - cbn in H. destruct tools as [|[results|exn] tools]; try discriminate.
    destruct (IH _ _ H) as (rounds & final & Ha & Hf & Hi & Hl).
    exists ((response, results) :: rounds), final.
    split; [|split; [exact Hf|split]].
    + rewrite Ha. simpl. rewrite <- !app_assoc. reflexivity.
    + intros [|i] r Hr; simpl in Hr.
      * inversion Hr; subst. simpl. rewrite Hcalls. repeat split; discriminate.
      * apply (Hi i r Hr).
    + exact Hl.
Qed.

(** X20.  The sub-graph of an agent ends at the first reply of the model
    that asks for no tool.  What a finished run appends is, round by round,
    a reply that asks for tools followed by what the tool node returned,
    and last the reply without tool calls; the model was called once more
    than the tool node. *)
Theorem agent_run_ends_without_tool_calls llm tools messages added :
  run_agent llm tools messages [] = AgentDone added ->
  exists rounds final,
    added = round_messages rounds ++ [final]
    /\ tool_calls final = []
    /\ (forall i r, rounds !! i = Some r ->
          llm !! i = Some (Returned (fst r))
          /\ tool_calls (fst r) <> []
          /\ tools !! i = Some (Returned (snd r)))
    /\ llm !! length rounds = Some (Returned final).
Proof.
  intros H. exact (run_agent_done _ _ _ _ _ H).
Qed.

Lemma agent_run_ends_without_tool_calls_witness :
  exists rounds final,
    [mkMessage true "" ["booking_agent_tool"]; mkMessage false "2 slots" [];
     mkMessage true "Two slots are free." []]
    = flat_map (fun r : Message * list Message => fst r :: snd r) rounds ++ [final]
    /\ tool_calls final = [].
Proof.
  destruct (agent_run_ends_without_tool_calls
              [Returned (mkMessage true "" ["booking_agent_tool"]);
               Returned (mkMessage true "Two slots are free." [])]
              [Returned [mkMessage false "2 slots" []]]
              [mkMessage false "Any slot tomorrow?" []]
              [mkMessage true "" ["booking_agent_tool"]; mkMessage false "2 slots" [];
               mkMessage true "Two slots are free." []] eq_refl)
    as (rounds & final & Ha & Hf & _).
  exists rounds, final. split; [exact Ha|exact Hf].
Defined.

End GraphFacts.

(** ** The non-streaming path and the login *)

Section ApiFacts.
Variable md5_hexdigest : string -> string.
Context {Embedding : Type}.
Import ChatPersistence.

Local Abbreviation state := (@ChatPersistence.t Embedding).
Local Abbreviation generate_chat_response := (Api.generate_chat_response md5_hexdigest).

Lemma process_intent result :
  snd (Graph.process_user_message_with_context result) = "general"
  \/ Graph.process_user_message_with_context result
     = ("Error processing message.", "error").
Proof.
  unfold Graph.process_user_message_with_context.
  destruct result as [messages|exn]; [|now right].
  destruct (last messages); [now left|now right].
Qed.

(** X21.  On the non-streaming path the record of a turn is buffered and
    not written.  The session id of the request is fresh, so after the
    call the buffer of the session holds at most the one row of this turn
    (the message stripped, the reply and the intent of the response, cut to
    the schema), the rows of the collection are as before, and the buffers
    of all other sessions are untouched.  The intent of the response is
    [general], or [error] with the fixed reply when the graph failed or
    returned no message; it is never the name of a tool. *)
Theorem non_streaming_turn_is_only_buffered io message name id session_id thread
    result (p : state) :
  PyDict.get session_id (write_buffer p) = None ->
  let response := fst (generate_chat_response io message name id session_id thread result p) in
  let p' := snd (generate_chat_response io message name id session_id thread result p) in
  client p' = client p
  /\ (buffered session_id p' <= 1)%nat
  /\ (forall r, In r (default [] (PyDict.get session_id (write_buffer p'))) ->
        ChatPersistence.user_message r = PyStr.slice_to 2000 (PyStr.strip message)
        /\ ChatPersistence.bot_response r = PyStr.slice_to 2000 (Api.bot_response response)
        /\ ChatPersistence.intent r = PyStr.slice_to 100 (Api.intent response))
  /\ (forall other, session_id <> other ->
        PyDict.get other (write_buffer p') = PyDict.get other (write_buffer p))
  /\ (Api.intent response = "general"
      \/ (Api.intent response = "error"
          /\ Api.bot_response response = "Error processing message.")).
Proof.
  intros Hfresh. unfold Api.generate_chat_response.
  pose proof (process_intent result) as Hintent.
  destruct (Graph.process_user_message_with_context result) as [bot detected].
  cbv zeta. cbn [fst snd Api.bot_response Api.intent].
  assert (Hi : detected = "general" \/ (detected = "error" /\ bot = "Error processing message.")).
  { destruct Hintent as [H|H]; [left; exact H|right; inversion H; auto]. }
  pose proof (store_conversation_cases md5_hexdigest io name id session_id
                (PyStr.strip message) bot detected p) as Hcases.
  cbv zeta in Hcases.
  assert (Hnone : forall q : state,
            client q = client p -> write_buffer q = write_buffer p ->
            client q = client p
            /\ (buffered session_id q <= 1)%nat
            /\ (forall r, In r (default [] (PyDict.get session_id (write_buffer q))) ->
                  ChatPersistence.user_message r = PyStr.slice_to 2000 (PyStr.strip message)
                  /\ ChatPersistence.bot_response r = PyStr.slice_to 2000 bot
                  /\ ChatPersistence.intent r = PyStr.slice_to 100 detected)
            /\ (forall other, session_id <> other ->
                  PyDict.get other (write_buffer q) = PyDict.get other (write_buffer p))).
  { intros q Hc Hw. unfold ChatPersistence.buffered. rewrite Hw, Hfresh. simpl.
    split; [exact Hc|]. split; [lia|]. split; [intros r []|reflexivity]. }
  destruct (client p) as [rows|] eqn:Hc.
  - destruct (ChatPersistence.cached_embedding _ _ _ _) as [c1 [[e c2]|]].
    + assert (Hb : buffered session_id p = 0%nat).
      { unfold ChatPersistence.buffered. now rewrite Hfresh. }
      rewrite Hb in Hcases. cbn [BATCH_SIZE Nat.leb] in Hcases. rewrite Hcases. cbn [snd].
      split; [cbn; exact Hc|].
      split; [rewrite buffer_row_buffered;
              change (buffered session_id (with_cache c2 p)) with (buffered session_id p);
              rewrite Hb; lia|].
      split; [|split; [|exact Hi]].
      * rewrite buffer_row_list. cbn [with_cache write_buffer]. rewrite Hfresh. simpl.
        intros r [<-|[]]. cbn. auto.
      * intros other Hne. now rewrite buffer_row_other_list by exact Hne.
    + rewrite Hcases. cbn [snd].
      destruct (Hnone (with_cache c1 p)) as (H1 & H2 & H3 & H4); [cbn; exact Hc|reflexivity|].
      auto.
  - rewrite Hcases. cbn [snd].
    destruct (Hnone p) as (H1 & H2 & H3 & H4); [exact Hc|reflexivity|].
    auto.
Qed.

End ApiFacts.

Lemma non_streaming_turn_is_only_buffered_witness :
  let p' := snd (Api.generate_chat_response Scenario.digest Scenario.all_well
                   "  Hello  " "Abhi" "user_abhi" "s9" None
                   (Router.Raised "model not reachable") Scenario.one_buffered) in
  ChatPersistence.client p' = ChatPersistence.client Scenario.one_buffered
  /\ (ChatPersistence.buffered "s9" p' <= 1)%nat.
Proof.
  destruct (non_streaming_turn_is_only_buffered Scenario.digest Scenario.all_well
              "  Hello  " "Abhi" "user_abhi" "s9" None
              (Router.Raised "model not reachable") Scenario.one_buffered eq_refl)
    as (H1 & H2 & _).
  split; [exact H1|exact H2].
Defined.

Section LoginFacts.

(** What [normalise] makes of one character. *)
Local Abbreviation normal_char c :=
  (if Ascii.eqb (Api.lower_char c) " " then "_"%char else Api.lower_char c).

Lemma lower_char_fixed c :
  (nat_of_ascii c < 128)%nat ->
  let l := Api.lower_char c in
  let u := if Ascii.eqb l " " then "_"%char else l in
  u <> " "%char
  /\ ((65 <=? nat_of_ascii u) && (nat_of_ascii u <=? 90))%nat = false
  /\ (nat_of_ascii u < 128)%nat
  /\ (if Ascii.eqb (Api.lower_char u) " " then "_"%char else Api.lower_char u) = u.
Proof.
  destruct c as [[] [] [] [] [] [] [] []]; intros H; vm_compute in H; try lia;
    vm_compute; repeat split; (discriminate || lia).
Qed.

(** All pairs of ASCII characters, checked one by one. *)
Lemma alike_checked :
  List.forallb
    (fun m => List.forallb
       (fun n => Bool.eqb (Ascii.eqb (normal_char (ascii_of_nat m))
                                     (normal_char (ascii_of_nat n)))
                          (Api.alike (ascii_of_nat m) (ascii_of_nat n)))
       (List.seq 0 128))
    (List.seq 0 128) = true.
Proof. vm_compute. reflexivity. Qed.

Lemma normal_char_alike a b :
  (nat_of_ascii a < 128)%nat -> (nat_of_ascii b < 128)%nat ->
  normal_char a = normal_char b <-> Api.alike a b = true.
Proof.
  intros Ha Hb. pose proof alike_checked as H.
  rewrite List.forallb_forall in H.
  specialize (H (nat_of_ascii a) ltac:(apply List.in_seq; lia)).
  rewrite List.forallb_forall in H.
  specialize (H (nat_of_ascii b) ltac:(apply List.in_seq; lia)).
  rewrite !ascii_nat_embedding in H.
  apply Bool.eqb_prop in H. rewrite <- H. split.
  - intros ->. apply Ascii.eqb_refl.
  - apply Ascii.eqb_eq.
Qed.

Lemma string_append_inv_head p x y :
  String.append p x = String.append p y -> x = y.
Proof.
  induction p as [|c p IH]; [auto|].
  change (String c (String.append p x) = String c (String.append p y) -> x = y).
  intros H. injection H as H. exact (IH H).
Qed.

Lemma normalise_alike s t :
  Api.isascii s = true -> Api.isascii t = true ->
  Api.normalise s = Api.normalise t <-> Api.alike_names s t = true.
Proof.
  revert t. induction s as [|a s IH]; intros [|b t] Hs Ht;
    cbn [Api.normalise Api.alike_names]; cbv zeta;
    try (split; [reflexivity|reflexivity]); try (split; discriminate).
  cbn [Api.isascii] in Hs, Ht.
  apply andb_prop in Hs as [Ha Hs]. apply andb_prop in Ht as [Hb Ht].
  apply Nat.ltb_lt in Ha. apply Nat.ltb_lt in Hb.
  rewrite andb_true_iff, <- (IH t Hs Ht), <- (normal_char_alike a b Ha Hb).
  split.
  - intros H. injection H as H1 H2. auto.
  - intros [H1 H2]. rewrite H1, H2. reflexivity.
Qed.

(** X22.  The user id of a login depends on the name only up to case and
    up to blank against underscore.  For a name of ASCII characters the id
    holds no blank and no upper-case letter, and logging in with the name
    already normalised (the id without its prefix) gives the same id.  Any
    other ASCII name gets the same user id exactly when the two names have
    one length and are alike place by place: the same character, one letter
    in either case, or a blank and an underscore. *)
Theorem login_id_is_normalised user_name :
  Api.isascii user_name = true ->
  Api.login (Api.normalise user_name) = Api.login user_name
  /\ Forall (fun c => c <> " "%char
                      /\ ((65 <=? nat_of_ascii c) && (nat_of_ascii c <=? 90))%nat = false)
       (list_ascii_of_string (Api.normalise user_name))
  /\ (forall other,
        Api.isascii other = true ->
        Api.login other = Api.login user_name
        <-> Api.alike_names other user_name = true).
Proof.
  unfold Api.login. intros Hascii.
  assert (H : Api.normalise (Api.normalise user_name) = Api.normalise user_name
              /\ Forall (fun c => c <> " "%char
                      /\ ((65 <=? nat_of_ascii c) && (nat_of_ascii c <=? 90))%nat = false)
                   (list_ascii_of_string (Api.normalise user_name))).
  { clear -Hascii. induction user_name as [|c rest IH]; [split; [reflexivity|constructor]|].
    cbn [Api.isascii] in Hascii. apply andb_prop in Hascii as [Hc Hrest].
    apply Nat.ltb_lt in Hc.
    destruct (IH Hrest) as [IH1 IH2].
    destruct (lower_char_fixed c Hc) as (H1 & H2 & H3 & H4).
    cbn [Api.normalise list_ascii_of_string]. cbv zeta. split.
    - rewrite IH1. f_equal. exact H4.
    - constructor; [split; [exact H1|exact H2]|exact IH2]. }
  destruct H as [H1 H2]. split; [now rewrite H1|]. split; [exact H2|].
  intros other Hother. rewrite <- (normalise_alike other user_name Hother Hascii).
  split.
  - apply string_append_inv_head.
  - intros ->. reflexivity.
Qed.

Lemma login_id_is_normalised_witness :
  Api.login "ann_lee" = Api.login "Ann Lee".
Proof.
  exact (proj2 (proj2 (proj2 (login_id_is_normalised "Ann Lee" eq_refl))
                  "ann_lee" eq_refl) eq_refl).
Defined.

End LoginFacts.

(** ** The search for free slots *)

Section CalendarFacts.
Import Calendar.
Variables meeting_duration buffer_time : Z.
Variable booked : list (Z * Z).
Variables end_time num_slots : Z.
Hypothesis moves_on : 0 < meeting_duration + buffer_time.
Hypothesis buffer_nonneg : 0 <= buffer_time.

Local Abbreviation search := (Calendar.search meeting_duration buffer_time booked end_time num_slots).
Local Abbreviation apart := (fun a b : Z * Z => snd a + buffer_time <= fst b).
Local Abbreviation free start_time := (fun s : Z * Z =>
  snd s = fst s + meeting_duration
  /\ start_time <= fst s /\ snd s <= end_time
  /\ Forall (fun b : Z * Z => ~ (fst s < snd b /\ fst b < snd s)) booked).

Lemma first_conflict_none bs current_time slot_end :
  first_conflict bs current_time slot_end = None ->
  Forall (fun b : Z * Z => ~ (current_time < snd b /\ fst b < slot_end)) bs.
Proof.
  induction bs as [|[s e] bs IH]; simpl; [constructor|].
  destruct ((current_time <? e) && (slot_end >? s)) eqn:Hc; [discriminate|].
  intros H. constructor; [|exact (IH H)].
  simpl. apply andb_false_iff in Hc as [Hc|Hc].
  - apply Z.ltb_ge in Hc. lia.
  - rewrite Z.gtb_ltb in Hc. apply Z.ltb_ge in Hc. lia.
Qed.

Lemma first_conflict_some bs current_time slot_end booked_end :
  first_conflict bs current_time slot_end = Some booked_end ->
  current_time < booked_end.
Proof.
  induction bs as [|[s e] bs IH]; simpl; [discriminate|].
  destruct ((current_time <? e) && (slot_end >? s)) eqn:Hc; [|exact IH].
  intros H. inversion H; subst. apply andb_prop in Hc as [Hc _].
  now apply Z.ltb_lt in Hc.
Qed.

Lemma sorted_snoc {A} (R : A -> A -> Prop) l x :
  StronglySorted R l -> Forall (fun a => R a x) l -> StronglySorted R (l ++ [x]).
Proof.
  induction 1 as [|a l Hl IH Ha]; intros Hx; simpl.
  - constructor; constructor.
  - apply Forall_cons in Hx as [Hax Hx]. constructor; [exact (IH Hx)|].
    apply Forall_app. split; [exact Ha|constructor; [exact Hax|constructor]].
Qed.

Lemma search_invariant start_time fuel available current_time :
  (Z.to_nat (end_time - current_time) < fuel)%nat ->
  start_time <= current_time ->
  Z.of_nat (length available) <= Z.max 0 num_slots ->
  Forall (free start_time) available ->
  StronglySorted apart available ->
  Forall (fun a : Z * Z => snd a + buffer_time <= current_time) available ->
  exists slots,
    search fuel available current_time = Some slots
    /\ Z.of_nat (length slots) <= Z.max 0 num_slots
    /\ Forall (free start_time) slots
    /\ StronglySorted apart slots.
Proof.
  revert available current_time.
  induction fuel as [|fuel IH]; intros available current_time Hfuel Hstart Hlen Hfree Hsorted Hgap;
    [lia|].
  cbn [Calendar.search].
  destruct ((Z.of_nat (length available) <? num_slots) && (current_time <? end_time)) eqn:Hcond;
    [|exists available; auto].
  apply andb_prop in Hcond as [Hroom Hbefore].
  apply Z.ltb_lt in Hroom. apply Z.ltb_lt in Hbefore.
  destruct (first_conflict booked current_time (current_time + meeting_duration))
    as [booked_end|] eqn:Hconflict.
  - apply first_conflict_some in Hconflict.
    apply IH; auto; try lia.
    eapply List.Forall_impl; [|exact Hgap]. simpl. intros a Ha. lia.
  - apply first_conflict_none in Hconflict.
    assert (Hgap' : Forall (fun a : Z * Z =>
                      snd a + buffer_time <= current_time + (meeting_duration + buffer_time))
                      available).
    { eapply List.Forall_impl; [|exact Hgap]. simpl. intros a Ha. lia. }
    destruct (current_time + meeting_duration <=? end_time) eqn:Hfits.
    + apply Z.leb_le in Hfits. apply IH; try lia.
      * rewrite length_app. simpl. lia.
      * apply Forall_app. split; [exact Hfree|]. constructor; [|constructor].
        simpl. repeat split; auto; lia.
      * apply sorted_snoc; [exact Hsorted|].
        eapply List.Forall_impl; [|exact Hgap]. simpl. intros a Ha. exact Ha.
      * apply Forall_app. split; [exact Hgap'|]. constructor; [simpl; lia|constructor].
    + apply IH; auto; lia.
Qed.

(** X23.  When a round of the search always moves on (the step of duration
    plus buffer is positive and the buffer is not negative), the search
    ends within the rounds the working hours have units, and what it
    returns are at most [num_slots] slots of the meeting's duration that
    lie inside the working hours, overlap no booking, and follow each other
    in time with at least the buffer between them. *)
Theorem search_returns_free_slots start_time :
  exists slots,
    search (rounds start_time end_time) [] start_time = Some slots
    /\ Z.of_nat (length slots) <= Z.max 0 num_slots
    /\ Forall (free start_time) slots
    /\ StronglySorted apart slots.
Proof.
  apply search_invariant; try constructor; unfold rounds; simpl; lia.
Qed.

Lemma search_past_the_end fuel available current_time :
  (Z.to_nat (end_time - current_time) < fuel)%nat ->
  end_time < current_time + meeting_duration ->
  Forall (fun b : Z * Z => snd b <= current_time) booked ->
  search fuel available current_time = Some available.
Proof.
  revert current_time.
  induction fuel as [|fuel IH]; intros current_time Hfuel Hlate Hbooked; [lia|].
  cbn [Calendar.search].
  destruct ((Z.of_nat (length available) <? num_slots) && (current_time <? end_time)) eqn:Hcond;
    [|reflexivity].
  apply andb_prop in Hcond as [_ Hbefore]. apply Z.ltb_lt in Hbefore.
  assert (Hnone : first_conflict booked current_time (current_time + meeting_duration) = None).
  { clear -Hbooked. induction booked as [|[s e] bs IHb]; [reflexivity|].
    apply Forall_cons in Hbooked as [He Hbs]. simpl in *.
    replace (current_time <? e) with false by (symmetry; apply Z.ltb_ge; lia).
    simpl. exact (IHb Hbs). }
  rewrite Hnone.
  replace (current_time + meeting_duration <=? end_time) with false
    by (symmetry; apply Z.leb_gt; lia).
  apply IH; try lia.
  eapply List.Forall_impl; [|exact Hbooked]. simpl. intros b Hb. lia.
Qed.

End CalendarFacts.

Section CalendarEdgeFacts.
Import Calendar.
Variables meeting_duration buffer_time : Z.

(** X24.  A conflict costs a slot.  With one booking that the first
    candidate overlaps, the search goes on one full step after the booking
    and its buffer; when the slot right after the booking and its buffer
    still fits in the working hours but the one a step later does not,
    nothing is found, and the tool answers with its two named slots. *)
Theorem search_skips_slot_after_conflict events booked_start booked_end
    start_time end_time num_slots :
  0 < meeting_duration -> 0 <= buffer_time -> 0 < num_slots ->
  booked_times events = Some [(booked_start, booked_end)] ->
  start_time < booked_end -> booked_start < start_time + meeting_duration ->
  booked_end + buffer_time + meeting_duration <= end_time ->
  end_time < booked_end + 2 * buffer_time + 2 * meeting_duration ->
  _get_available_slots_sync meeting_duration buffer_time
    (rounds start_time end_time) (Some events) start_time end_time num_slots
  = Some fallback.
Proof.
  intros Hd Hb Hn Hevents Hs1 Hs2 Hfits Hlate.
  unfold _get_available_slots_sync. rewrite Hevents.
  unfold rounds. cbn [search length]. change (Z.of_nat 0) with 0.
  replace (0 <? num_slots) with true by (symmetry; apply Z.ltb_lt; lia).
  replace (start_time <? end_time) with true by (symmetry; apply Z.ltb_lt; lia).
  cbn [andb first_conflict].
  replace (start_time <? booked_end) with true by (symmetry; apply Z.ltb_lt; lia).
  replace (start_time + meeting_duration >? booked_start) with true
    by (symmetry; rewrite Z.gtb_ltb; apply Z.ltb_lt; lia).
  cbn [andb].
  rewrite search_past_the_end; try lia; [reflexivity|].
  constructor; [simpl; lia|constructor].
Qed.

(** X25.  The tool returns the empty list exactly when something in its
    [try] block raised: the request or the date failed, or an event has
    times that cannot be read.  Otherwise it returns slots it found or, when
    it found none, its two named slots. *)
Theorem no_slots_only_on_error events start_time end_time num_slots :
  0 < meeting_duration + buffer_time -> 0 <= buffer_time ->
  _get_available_slots_sync meeting_duration buffer_time
    (rounds start_time end_time) events start_time end_time num_slots = Some []
  <-> (events = None \/ exists items, events = Some items /\ In Untimed items).
Proof.
  intros Hmoves Hbuffer.
  assert (Hbooked : forall items, booked_times items = None <-> In Untimed items).
  { induction items as [|[| |s e] items IH]; simpl.
    - split; [discriminate|intros []].
    - rewrite IH. split; [auto|intros [H|H]; [discriminate|exact H]].
    - split; auto.
    - destruct (booked_times items).
      + split; [discriminate|]. intros [H|H]; [discriminate|]. apply IH in H. discriminate.
      + split; [|reflexivity]. intros _. right. now apply IH. }
  unfold _get_available_slots_sync.
  destruct events as [items|]; [|split; auto].
  destruct (booked_times items) as [bs|] eqn:Hb.
  - assert (Hsearch : exists slots,
              search meeting_duration buffer_time bs end_time num_slots
                (rounds start_time end_time) [] start_time = Some slots).
    { destruct (search_invariant meeting_duration buffer_time bs end_time num_slots
                  Hmoves Hbuffer start_time (rounds start_time end_time) [] start_time)
        as (slots & Hs & _); try constructor; try (unfold rounds; simpl; lia).
      exists slots. exact Hs. }
    destruct Hsearch as (slots & ->).
    split.
    + destruct slots; discriminate.
    + intros [H|(items' & H & Hin)]; [discriminate|].
      inversion H; subst. apply Hbooked in Hin. congruence.
  - split; [|reflexivity]. intros _. right. exists items. split; [reflexivity|].
    now apply Hbooked.
Qed.

End CalendarEdgeFacts.

Lemma search_returns_free_slots_witness :
  exists slots,
    Calendar.search 60 15 [(600, 660)] 1020 5 (Calendar.rounds 540 1020) [] 540 = Some slots
    /\ Z.of_nat (length slots) <= Z.max 0 5.
Proof.
  destruct (search_returns_free_slots 60 15 [(600, 660)] 1020 5 ltac:(lia) ltac:(lia) 540)
    as (slots & H1 & H2 & _).
  exists slots. split; [exact H1|exact H2].
Defined.

Lemma search_skips_slot_after_conflict_witness :
  Calendar._get_available_slots_sync 60 15 (Calendar.rounds 540 720)
    (Some [Calendar.Timed 540 600]) 540 720 5
  = Some Calendar.fallback.
Proof.
  apply (search_skips_slot_after_conflict 60 15 [Calendar.Timed 540 600] 540 600 540 720 5);
    (reflexivity || lia).
Defined.

Lemma no_slots_only_on_error_witness :
  Calendar._get_available_slots_sync 60 15 (Calendar.rounds 540 1020)
    (Some [Calendar.Timed 540 600; Calendar.Untimed]) 540 1020 5 = Some [].
Proof.
  apply (no_slots_only_on_error 60 15); [lia|lia|].
  right. exists [Calendar.Timed 540 600; Calendar.Untimed].
  split; [reflexivity|]. right. now left.
Defined.

(** ** The further properties on concrete runs *)

Lemma one_buffered_agree : ChatPersistence.buffers_agree Scenario.one_buffered.
Proof.
  exact (store_conversation_agree Scenario.digest Scenario.all_well
           "Abhi" "user_abhi" "s1" "m1" "Sure." "general" Scenario.started
           (buffers_agree_init (Some []) true 1000)).
Defined.

Lemma one_buffered_keys :
  NoDup (PyDict.keys (ChatPersistence.write_buffer Scenario.one_buffered))
  /\ NoDup (PyDict.keys (ChatPersistence.buffer_timestamps Scenario.one_buffered)).
Proof.
  split; (apply NoDup_cons; split; [apply not_elem_of_nil|apply NoDup_nil_2]).
Defined.

Lemma records_are_conserved_witness :
  Permutation
    (ChatPersistence.all_rows
       (snd (ChatPersistence.flush_session (ChatPersistence.mkFlushIO false false) "s1"
               Scenario.one_buffered)))
    (ChatPersistence.all_rows Scenario.one_buffered).
Proof.
  exact (proj1 (records_are_conserved Scenario.digest Scenario.all_well
                  (ChatPersistence.mkFlushIO false false)
                  "Abhi" "user_abhi" "s2" "m2" "Sure." "general" "s1"
                  Scenario.one_buffered (proj1 one_buffered_keys))).
Defined.

Lemma sessions_are_isolated_witness :
  PyDict.get "s1" (ChatPersistence.write_buffer
    (snd (Scenario.turn_of Scenario.all_well "s2" "m2" Scenario.one_buffered)))
  = PyDict.get "s1" (ChatPersistence.write_buffer Scenario.one_buffered).
Proof.
  assert (Hne : "s2" <> "s1") by discriminate.
  exact (proj1 (sessions_are_isolated Scenario.digest Scenario.all_well
                  (ChatPersistence.mkFlushIO false false)
                  "Abhi" "user_abhi" "s2" "m2" "Sure." "general" "s1"
                  Scenario.one_buffered Hne)).
Defined.

Lemma timestamp_is_set_once_witness :
  PyDict.get "s1" (ChatPersistence.buffer_timestamps
    (snd (Scenario.turn_of Scenario.all_well "s1" "m2" Scenario.one_buffered)))
  = PyDict.get "s1" (ChatPersistence.buffer_timestamps Scenario.one_buffered)
  \/ (PyDict.get "s1" (ChatPersistence.buffer_timestamps
        (snd (Scenario.turn_of Scenario.all_well "s1" "m2" Scenario.one_buffered))) = None
      /\ PyDict.get "s1" (ChatPersistence.write_buffer
           (snd (Scenario.turn_of Scenario.all_well "s1" "m2" Scenario.one_buffered))) = None).
Proof.
  exact (timestamp_is_set_once Scenario.digest Scenario.all_well
           "Abhi" "user_abhi" "s1" "m2" "Sure." "general" Scenario.one_buffered
           [] _ _ _ eq_refl eq_refl).
Defined.

Lemma sweep_keeps_young_sessions_witness :
  PyDict.get "s1" (ChatPersistence.write_buffer
    (ChatPersistence.cleanup_stale_buffers 300
       (fun _ => ChatPersistence.mkFlushIO false false) 150 Scenario.one_buffered))
  = PyDict.get "s1" (ChatPersistence.write_buffer Scenario.one_buffered).
Proof.
  assert (Hyoung : 150 - 100 <= 300) by lia.
  exact (proj1 (sweep_keeps_young_sessions 300
                  (fun _ => ChatPersistence.mkFlushIO false false) 150 "s1"
                  Scenario.one_buffered (proj2 one_buffered_keys) Hyoung)).
Defined.

Lemma sweep_is_idempotent_witness :
  ChatPersistence.stale_sessions 300 1000
    (ChatPersistence.cleanup_stale_buffers 300
       (fun _ => ChatPersistence.mkFlushIO false true) 1000 Scenario.one_buffered) = [].
Proof.
  exact (proj1 (sweep_is_idempotent 300
                  (fun _ => ChatPersistence.mkFlushIO false true)
                  (fun _ => ChatPersistence.mkFlushIO false false) 1000
                  Scenario.one_buffered one_buffered_agree)).
Defined.

Lemma cancel_reaches_one_stream_witness :
  let r := Streaming.registry_ops
             [Streaming.OpRegister "a"; Streaming.OpRegister "b"] Streaming.no_streams in
  Streaming.is_set (Some 0%nat) (fst (Streaming.cancel_stream "a" r)) = true
  /\ Streaming.is_set (Some 1%nat) (fst (Streaming.cancel_stream "a" r))
     = Streaming.is_set (Some 1%nat) r.
Proof.
  assert (Hne : "a" <> "b") by discriminate.
  assert (Ha : Streaming.active_streams
                 (Streaming.registry_ops
                    [Streaming.OpRegister "a"; Streaming.OpRegister "b"]
                    Streaming.no_streams) !! "a" = Some 0%nat)
    by (vm_compute; reflexivity).
  assert (Hb : Streaming.active_streams
                 (Streaming.registry_ops
                    [Streaming.OpRegister "a"; Streaming.OpRegister "b"]
                    Streaming.no_streams) !! "b" = Some 1%nat)
    by (vm_compute; reflexivity).
  exact (proj2 (cancel_reaches_one_stream
                  [Streaming.OpRegister "a"; Streaming.OpRegister "b"]
                  "a" "b" 0%nat 1%nat Ha Hb Hne)).
Defined.

Lemma flag_stays_set_witness :
  Streaming.is_set (Some 0%nat)
    (Streaming.registry_ops
       [Streaming.OpRelease "sess-1"; Streaming.OpRegister "sess-2";
        Streaming.OpCancel "sess-2"]
       (fst (Streaming.cancel_stream "sess-1" Scenario.one_stream))) = true.
Proof.
  apply flag_stays_set. vm_compute. reflexivity.
Defined.

Lemma cleanup_stale_streams_sweeps_witness :
  PyDict.get "b"
    (Streaming.stream_timestamps
       (Streaming.cleanup_stale_streams 300 1000
          (Streaming.mkStreams Scenario.one_stream [("a", 100); ("b", 900)])))
  = Some 900.
Proof.
  pose proof (cleanup_stale_streams_sweeps 300 1000
                (Streaming.mkStreams Scenario.one_stream [("a", 100); ("b", 900)])) as H.
  cbv zeta in H. destruct H as (_ & _ & _ & H).
  assert (Hkeys : NoDup (PyDict.keys
            (Streaming.stream_timestamps
               (Streaming.mkStreams Scenario.one_stream [("a", 100); ("b", 900)])))).
  { apply NoDup_cons. split.
    - intros Hin. apply list_elem_of_In in Hin. destruct Hin as [Hin|[]]. discriminate.
    - apply NoDup_cons. split; [apply not_elem_of_nil|apply NoDup_nil_2]. }
  assert (Hyoung : 1000 - 900 <= 300) by lia.
  exact (proj1 (H Hkeys "b" 900 eq_refl Hyoung)).
Defined.

Lemma client_shows_what_is_recorded_witness :
  let frames := Streaming.turn (fun _ => false) (Some 0%nat) Scenario.one_stream
                  [Streaming.Deliver (Scenario.token_event "Hi");
                   Streaming.Deliver (Scenario.token_event " there")] in
  exists cancelled : bool,
    Client.send_message_streaming frames
    = (String.append
         (Streaming.full_bot_response (snd (Streaming.stream_and_cleanup frames)))
         (if cancelled
          then String "010" (String "010" "(Stream cancelled by user.)")
          else ""),
       Streaming.detected_intent (snd (Streaming.stream_and_cleanup frames))).
Proof.
  pose proof (client_shows_what_is_recorded (fun _ => false) (Some 0%nat)
                Scenario.one_stream
                [Streaming.Deliver (Scenario.token_event "Hi");
                 Streaming.Deliver (Scenario.token_event " there")]) as H.
  cbv zeta in H. destruct H as (_ & _ & H).
  destruct H as (cancelled & _ & Heq).
  - intros c Hin Hty. vm_compute in Hin.
    repeat (destruct Hin as [<-|Hin]; [vm_compute in Hty; discriminate|]).
    destruct Hin.
  - exists cancelled. exact Heq.
Defined.

(** ** The embedding cache inside [store_conversation] *)

Section CachedEmbeddingFacts.
Variable md5_hexdigest : string -> string.
Context {Embedding : Type}.
Import ChatPersistence.

Local Abbreviation state := (@ChatPersistence.t Embedding).
Local Abbreviation hit c :=
  {| EmbeddingCache.max_size := EmbeddingCache.max_size c;
     EmbeddingCache._cache := EmbeddingCache._cache c;
     EmbeddingCache._hits := S (EmbeddingCache._hits c);
     EmbeddingCache._misses := EmbeddingCache._misses c |}.

Lemma cached_embedding_hit io text (c : @EmbeddingCache.t Embedding) e :
  PyDict.get (md5_hexdigest text) (EmbeddingCache._cache c) = Some e ->
  cached_embedding md5_hexdigest io text c = (hit c, Some (e, hit c)).
Proof.
  intros H. unfold cached_embedding, EmbeddingCache.get, EmbeddingCache._hash_text.
  now rewrite H.
Qed.

Lemma cached_embedding_stores io text (c c1 c2 : @EmbeddingCache.t Embedding) e :
  cached_embedding md5_hexdigest io text c = (c1, Some (e, c2)) ->
  PyDict.get (md5_hexdigest text) (EmbeddingCache._cache c2) = Some e.
Proof.
  unfold cached_embedding, EmbeddingCache.get, EmbeddingCache._hash_text.
  destruct (PyDict.get (md5_hexdigest text) (EmbeddingCache._cache c)) as [e0|] eqn:Hget.
  - intros H. inversion H; subst. exact Hget.
  - destruct (encode io) as [e1|]; [|discriminate].
    destruct (EmbeddingCache.set _ _ _ _) as [c3|] eqn:Hset; [|discriminate].
    intros H. inversion H; subst.
    pose proof (ec_set_then_get md5_hexdigest _ _ _ _ Hset) as Hthen.
    now rewrite ec_get_result in Hthen.
Qed.

Lemma flush_session_cache fio session_id (p : state) :
  embedding_cache (snd (flush_session fio session_id p)) = embedding_cache p.
Proof.
  unfold flush_session.
  destruct (client p); [|reflexivity].
  destruct (PyDict.get session_id (write_buffer p)) as [[|row0 rows0]|]; try reflexivity.
  destruct (negb (collection_loaded p) && load_collection_raises fio); [reflexivity|].
  destruct (insert_raises fio); reflexivity.
Qed.

(** X26.  A turn that was stored needs no model the next time.  After a
    [store_conversation] that returned [True], the embedding of the same
    pair of message and reply comes from the cache whatever the model would
    do, also when the model would raise; the lookup counts as one hit and
    leaves the entries of the cache as they are. *)
Theorem stored_turn_needs_no_model io un uid session_id um br intent (p : state) :
  fst (store_conversation md5_hexdigest io un uid session_id um br intent p) = true ->
  let cache := embedding_cache
                 (snd (store_conversation md5_hexdigest io un uid session_id um br intent p)) in
  exists e, forall io',
    cached_embedding md5_hexdigest io' (String.append um (String.append " " br)) cache
    = (hit cache, Some (e, hit cache)).
Proof.
  intros Hstored.
  pose proof (store_conversation_cases md5_hexdigest io un uid session_id um br intent p)
    as Hcases.
  cbv zeta in Hcases |- *.
  destruct (client p) as [rows|]; [|rewrite Hcases in Hstored; discriminate].
  destruct (cached_embedding md5_hexdigest io _ (embedding_cache p))
    as [c1 [[e c2]|]] eqn:Hemb; [|rewrite Hcases in Hstored; discriminate].
  apply cached_embedding_stores in Hemb.
  exists e. intros io'. apply cached_embedding_hit.
  rewrite Hcases.
  destruct (BATCH_SIZE <=? S (buffered session_id p))%nat;
    [rewrite flush_session_cache|]; exact Hemb.
Qed.

End CachedEmbeddingFacts.

Lemma stored_turn_needs_no_model_witness :
  exists e : Scenario.vector,
    option_map fst (snd (ChatPersistence.cached_embedding Scenario.digest
                {| ChatPersistence.encode := None;
                   ChatPersistence.now_isoformat := "2025-01-01T00:01:00";
                   ChatPersistence.time_time := 160;
                   ChatPersistence.flush_io := ChatPersistence.mkFlushIO false false |}
                "m1 Sure."
                (ChatPersistence.embedding_cache Scenario.one_buffered)))
    = Some e.
Proof.
  destruct (stored_turn_needs_no_model Scenario.digest Scenario.all_well
              "Abhi" "user_abhi" "s1" "m1" "Sure." "general" Scenario.started eq_refl)
    as (e & He).
  exists e.
  exact (f_equal (fun r => option_map fst (snd r))
           (He {| ChatPersistence.encode := None;
                  ChatPersistence.now_isoformat := "2025-01-01T00:01:00";
                  ChatPersistence.time_time := 160;
                  ChatPersistence.flush_io := ChatPersistence.mkFlushIO false false |})).
Defined.
